(** * Ticket inventory of the raffle: counters, scarcity overlay and store

    A shallow embedding of

    - the master counters in [src/hooks/useSupabaseSync.ts] (from the
      ['use client'] marker on): [calculateFOMO], [fetchRealData],
      [updateMasterCounters], [useBasicCounters], [useDisplayStats];
    - the sync hook at the top of the same file: [generateFomoTickets],
      [loadInitialData], [reserveTicketsInDB];
    - [src/stores/raffle-store.ts]: the Zustand store actions
      [_updateAvailableTickets], [setSoldTicketsFromDB],
      [setReservedTicketsFromDB], [quickSelect], [reserveTickets],
      [markTicketsAsSold], [releaseReservedTickets];
    - the rest of the store: [selectTicket], [deselectTicket],
      [clearSelection], [addLiveActivity], [initializeTickets],
      [resetStore];
    - the rest of the hooks: [getRealAvailableTickets], the hook's
      [markTicketsAsSold], [useAdminCounters], [useTicketStats],
      [testMathConsistency];
    - [src/lib/supabase.ts]: [liberarReservasExpiradas],
      [asignarNumerosDisponibles], [actualizarEstadoCompra];
    - [src/components/ComprehensivePurchaseModal.tsx]: [calculatePrice],
      [getDiscount], [handleCustomTickets], [validateForm], the progress
      and countdown effects, [formatTime].

    JavaScript numbers that hold counts and ticket numbers are modelled as
    [Z]; the percentages of the counters, which the code computes by
    division, as exact rationals [Q], with a cross-check against IEEE
    doubles on the range the counters live in.  The values of
    [Math.random()], the ticket drawn from one, the target count of the
    synthetic tickets and the discounted prices are IEEE doubles, floored
    as the engine floors them.  The texts typed into the purchase form
    are sequences of UTF-16 code units.  [Math.random()], [generateId()]
    and [new Date()] are inputs of the functions that use them. *)

From Stdlib Require Import ZArith QArith Qround Lia Bool String Ascii.
From Stdlib Require Import Floats Uint63.
From stdpp Require Import base list strings pretty sorting.

Local Open Scope Z_scope.

(* ===================================================================== *)
(** ** The JavaScript built-ins the modelled code relies on              *)
(* ===================================================================== *)

Module JS.

(** [Array.from({ length: len }, (_, i) => f i)], the index running in
    [Z] from [i]. *)
Fixpoint Array_from_at {A : Type} (len : nat) (i : Z) (f : Z -> A) : list A :=
  match len with
  | O => []
  | S len' => f i :: Array_from_at len' (Z.succ i) f
  end.

Definition Array_from {A : Type} (len : Z) (f : Z -> A) : list A :=
  Array_from_at (Z.to_nat len) 0 f.

(** [arr.includes(x)] and [set.has(x)] on numbers. *)
Definition includes (arr : list Z) (x : Z) : bool :=
  existsb (Z.eqb x) arr.

(** [arr.slice(start, end)] for integral arguments: a negative index
    counts from the end, and both are clamped to the array. *)
Definition slice_index (len i : Z) : Z :=
  if i <? 0 then Z.max (len + i) 0 else Z.min i len.

Definition slice {A : Type} (start end_ : Z) (arr : list A) : list A :=
  let len := Z.of_nat (length arr) in
  let k := slice_index len start in
  let final := slice_index len end_ in
  take (Z.to_nat (final - k)) (drop (Z.to_nat k) arr).

(** [arr.sort((a, b) => a - b)] on numbers: ascending order. *)
Definition sort_ascending (arr : list Z) : list Z := merge_sort Z.le arr.

(** [arr.findIndex(p)], [None] for the -1 of a miss. *)
Fixpoint findIndex {A : Type} (p : A -> bool) (arr : list A) : option nat :=
  match arr with
  | [] => None
  | x :: arr' => if p x then Some O else S <$> findIndex p arr'
  end.

(** [Math.floor(x)] of a finite double, as an integer: the double is
    [m * 2^e] with the sign [s], and the integer division rounds down. *)
Definition Math_floor (x : float) : Z :=
  match Prim2SF x with
  | S754_finite s m e =>
      let v := if s then Z.neg m else Z.pos m in
      if 0 <=? e then v * 2 ^ e else v / 2 ^ (- e)
  | _ => 0
  end.

(** [String(n)] for an integer. *)
Definition String_of (n : Z) : string := pretty n.

(** [s.padStart(targetLength, "0")]. *)
Fixpoint zeros (n : nat) : string :=
  match n with
  | O => EmptyString
  | S n' => String "0" (zeros n')
  end.

Definition padStart0 (targetLength : nat) (s : string) : string :=
  (zeros (targetLength - String.length s) ++ s)%string.

(** [s.includes(sub)]. *)
Fixpoint String_includes (s sub : string) : bool :=
  String.prefix sub s
  || match s with
     | EmptyString => false
     | String _ s' => String_includes s' sub
     end.

(** [parseInt(s)] without a radix argument: leading white space, an
    optional sign, an optional [0x] prefix, then the longest run of
    digits; [None] is [NaN].  Results beyond 2^53 are not rounded. *)
Definition is_white_space (c : ascii) : bool :=
  let n := Z.of_nat (nat_of_ascii c) in
  (n =? 32) || ((9 <=? n) && (n <=? 13)).

Fixpoint skip_white_space (s : string) : string :=
  match s with
  | String c s' => if is_white_space c then skip_white_space s' else s
  | EmptyString => s
  end.

Definition digit_value (radix : Z) (c : ascii) : option Z :=
  let n := Z.of_nat (nat_of_ascii c) in
  let v := if (48 <=? n) && (n <=? 57) then Some (n - 48)
           else if (97 <=? n) && (n <=? 122) then Some (n - 87)
           else if (65 <=? n) && (n <=? 90) then Some (n - 55)
           else None in
  match v with
  | Some d => if d <? radix then Some d else None
  | None => None
  end.

Fixpoint parse_digits (radix : Z) (acc : option Z) (s : string) : option Z :=
  match s with
  | String c s' =>
      match digit_value radix c with
      | Some d =>
          parse_digits radix
            (Some (match acc with Some a => a * radix + d | None => d end)) s'
      | None => acc
      end
  | EmptyString => acc
  end.

Definition parseInt (s : string) : option Z :=
  let s1 := skip_white_space s in
  let '(sign, s2) :=
    match s1 with
    | String "-" r => (-1, r)
    | String "+" r => (1, r)
    | _ => (1, s1)
    end in
  let '(radix, s3) :=
    match s2 with
    | String "0" (String "x" r) | String "0" (String "X" r) => (16, r)
    | _ => (10, s2)
    end in
  match parse_digits radix None s3 with
  | Some n => Some (sign * n)
  | None => None
  end.

End JS.

(* ===================================================================== *)
(** ** Master counters: the real layer and the scarcity overlay          *)
(* ===================================================================== *)

Module MasterCounters.

(** [const TOTAL_TICKETS = 10000;] *)
Definition TOTAL_TICKETS : Z := 10000.

(** [const FOMO_THRESHOLD = 18;] *)
Definition FOMO_THRESHOLD : Z := 18.

(** [const FOMO_BASE_FIXED = 1200;] (local to [calculateFOMO]) *)
Definition FOMO_BASE_FIXED : Z := 1200.

(** [(realSoldCount / TOTAL_TICKETS) * 100] *)
Definition realPercentage (realSoldCount : Z) : Q :=
  ((inject_Z realSoldCount / inject_Z TOTAL_TICKETS) * inject_Z 100)%Q.

(** The object literal returned by [calculateFOMO]. *)
Record FomoResult : Type := mkFomoResult {
  fomoCount : Z;
  displaySoldCount : Z;
  isActive : bool
}.

(** [calculateFOMO]: at or above the threshold the overlay is off;
    below it the fixed amount is added to the real count. *)
Definition calculateFOMO (realSoldCount : Z) : FomoResult :=
  if Qle_bool (inject_Z FOMO_THRESHOLD) (realPercentage realSoldCount) then
    {| fomoCount := 0;
       displaySoldCount := realSoldCount;
       isActive := false |}
  else
    let fomoTickets := FOMO_BASE_FIXED in
    let displaySoldCount := realSoldCount + fomoTickets in
    {| fomoCount := fomoTickets;
       displaySoldCount := displaySoldCount;
       isActive := true |}.

(** The same test on IEEE doubles, as the engine evaluates it. *)
Definition double_of_Z (n : Z) : float := PrimFloat.of_uint63 (Uint63.of_Z n).

Definition realPercentage_double (realSoldCount : Z) : float :=
  ((double_of_Z realSoldCount / double_of_Z TOTAL_TICKETS)
     * double_of_Z 100)%float.

Definition threshold_test_double (realSoldCount : Z) : bool :=
  PrimFloat.leb (double_of_Z FOMO_THRESHOLD)
                (realPercentage_double realSoldCount).

(** Rows of the [tickets] table as the counters read them. *)
Inductive DbStatus : Type := disponible | reservado | vendido.

Definition DbStatus_eqb (a b : DbStatus) : bool :=
  match a, b with
  | disponible, disponible | reservado, reservado | vendido, vendido => true
  | _, _ => false
  end.

(** [select('status').in('status', ['vendido', 'reservado'])] *)
Definition select_occupied (table : list DbStatus) : list DbStatus :=
  List.filter (fun s => DbStatus_eqb s vendido || DbStatus_eqb s reservado)
              table.

(** [fetchRealData]: [None] stands for a failed query, which the function
    catches and turns into zero counts. *)
Definition fetchRealData (query : option (list DbStatus)) : Z * Z :=
  match query with
  | Some table =>
      let ticketsData := select_occupied table in
      let soldCount :=
        Z.of_nat (length (List.filter (fun t => DbStatus_eqb t vendido)
                                      ticketsData)) in
      let reservedCount :=
        Z.of_nat (length (List.filter (fun t => DbStatus_eqb t reservado)
                                      ticketsData)) in
      (soldCount, reservedCount)
  | None => (0, 0)
  end.

Record MasterCounterData : Type := mkMasterCounterData {
  totalTickets : Z;
  soldTickets : Z;
  reservedTickets : Z;
  availableTickets : Z;
  fomoSoldTickets : Z;
  fomoIsActive : bool;
  soldPercentage : Q;
  fomoPercentage : Q;
  availablePercentage : Q;
  isConnected : bool;
  lastUpdate : Z;
  isLoading : bool
}.

(** [newData] of [updateMasterCounters], from the fetched counts. *)
Definition newData (sold reserved now : Z) : MasterCounterData :=
  let available := TOTAL_TICKETS - sold - reserved in
  let r := calculateFOMO sold in
  {| totalTickets := TOTAL_TICKETS;
     soldTickets := sold;
     reservedTickets := reserved;
     availableTickets := available;
     fomoSoldTickets := displaySoldCount r;
     fomoIsActive := isActive r;
     soldPercentage := realPercentage sold;
     fomoPercentage := realPercentage (displaySoldCount r);
     availablePercentage := realPercentage available;
     isConnected := true;
     lastUpdate := now;
     isLoading := false |}.

(** [fallbackData], published from the [catch] branch. *)
Definition fallbackData (now : Z) : MasterCounterData :=
  {| totalTickets := TOTAL_TICKETS;
     soldTickets := 0;
     reservedTickets := 0;
     availableTickets := TOTAL_TICKETS;
     fomoSoldTickets := Qfloor (inject_Z TOTAL_TICKETS * (8 # 100));
     fomoIsActive := true;
     soldPercentage := 0;
     fomoPercentage := 8;
     availablePercentage := 100;
     isConnected := false;
     lastUpdate := now;
     isLoading := false |}.

(** The placeholder installed by [initializeMasterCounters] and used as
    the initial React state of [useMasterCounters]. *)
Definition loadingData (now : Z) : MasterCounterData :=
  {| totalTickets := TOTAL_TICKETS;
     soldTickets := 0;
     reservedTickets := 0;
     availableTickets := TOTAL_TICKETS;
     fomoSoldTickets := Qfloor (inject_Z TOTAL_TICKETS * (8 # 100));
     fomoIsActive := true;
     soldPercentage := 0;
     fomoPercentage := 8;
     availablePercentage := 100;
     isConnected := false;
     lastUpdate := now;
     isLoading := true |}.

(** [updateMasterCounters]: the outcome of one recompute.  [thrown] says
    whether something after the fetch raised, which sends control to the
    [catch] branch. *)
Definition updateMasterCounters
    (query : option (list DbStatus)) (thrown : bool) (now : Z)
  : MasterCounterData :=
  if thrown then fallbackData now
  else let '(sold, reserved) := fetchRealData query in
       newData sold reserved now.

(** Every value a listener of [useMasterCounters] can observe. *)
Inductive published : MasterCounterData -> Prop :=
| published_loading now : published (loadingData now)
| published_update query thrown now :
    published (updateMasterCounters query thrown now).

(** The object returned by [useBasicCounters]. *)
Record BasicCounters : Type := mkBasicCounters {
  bc_totalTickets : Z;
  bc_soldTickets : Z;
  bc_availableTickets : Z;
  bc_soldPercentage : Q;
  bc_isConnected : bool;
  bc_lastUpdate : Z
}.

Definition useBasicCounters (data : MasterCounterData) : BasicCounters :=
  let displaySoldTickets := fomoSoldTickets data in
  let displayAvailableTickets :=
    TOTAL_TICKETS - displaySoldTickets - reservedTickets data in
  {| bc_totalTickets := totalTickets data;
     bc_soldTickets := displaySoldTickets;
     bc_availableTickets := displayAvailableTickets;
     bc_soldPercentage := fomoPercentage data;
     bc_isConnected := isConnected data;
     bc_lastUpdate := lastUpdate data |}.

(** [displayMathCheck] of [useBasicCounters] and whether it passes. *)
Definition displayMathCheck (data : MasterCounterData) : Z :=
  let b := useBasicCounters data in
  bc_soldTickets b + bc_availableTickets b + reservedTickets data.

(** The object returned by [useDisplayStats]. *)
Record DisplayStats : Type := mkDisplayStats {
  ds_soldCount : Z;
  ds_availableCount : Z;
  ds_reservedCount : Z;
  ds_totalCount : Z;
  ds_soldPercentage : Q;
  ds_realSoldCount : Z;
  ds_isConnected : bool;
  ds_lastUpdate : Z
}.

Definition useDisplayStats (data : MasterCounterData) : DisplayStats :=
  let displaySoldCount := fomoSoldTickets data in
  let displayAvailableCount :=
    TOTAL_TICKETS - displaySoldCount - reservedTickets data in
  {| ds_soldCount := displaySoldCount;
     ds_availableCount := displayAvailableCount;
     ds_reservedCount := reservedTickets data;
     ds_totalCount := totalTickets data;
     ds_soldPercentage := fomoPercentage data;
     ds_realSoldCount := soldTickets data;
     ds_isConnected := isConnected data;
     ds_lastUpdate := lastUpdate data |}.

End MasterCounters.

(* ===================================================================== *)
(** ** The Zustand store: selection, reservation, sale, release          *)
(* ===================================================================== *)

Module RaffleStore.

(** Modelled from the spec: [TOTAL_TICKETS] of [lib/constants], which is
    not part of the sources at hand; the pool holds 10,000 tickets. *)
Definition TOTAL_TICKETS : Z := 10000.

(** Modelled from the spec: [RESERVATION_TIME_MS] of [lib/constants]; the
    time-to-live of a reservation is 15 minutes. *)
Definition RESERVATION_TIME_MS : Z := 15 * 60 * 1000.

(** ['available' | 'reserved' | 'sold'] *)
Inductive TicketStatus : Type := available | reserved | sold.

Definition TicketStatus_eqb (a b : TicketStatus) : bool :=
  match a, b with
  | available, available | reserved, reserved | sold, sold => true
  | _, _ => false
  end.

(** The fields of a ticket object that the store writes. *)
Record Ticket : Type := mkTicket {
  id : string;
  number : string;
  status : TicketStatus;
  buyerId : option string;
  reservedAt : option Z;
  purchaseDate : option Z
}.

(** The part of [RaffleState] the ticket actions read or write, together
    with the cached [availableTickets].  The remaining fields (customer,
    step, activities, configuration, loading flag) pass through every
    action below unchanged. *)
Record RaffleState : Type := mkRaffleState {
  tickets : list Ticket;
  selectedTickets : list Z;
  soldTickets : list Z;
  reservedTickets : list Z;
  availableTickets : list Z;
  errors : list string
}.

Definition initialState : RaffleState :=
  {| tickets := [];
     selectedTickets := [];
     soldTickets := [];
     reservedTickets := [];
     availableTickets := [];
     errors := [] |}.

(** The lengths of the three lists, [availableTickets.length],
    [soldTickets.length] and [reservedTickets.length].  They are not the
    store's getters [availableCount], [soldCount] and [reservedCount]:
    those are accessors of the object the store is created from, and the
    spread [...state] of an action copies the value a getter has at that
    moment, not the getter, so they do not follow the lists. *)
Definition availableTickets_length (s : RaffleState) : Z :=
  Z.of_nat (length (availableTickets s)).

Definition soldTickets_length (s : RaffleState) : Z :=
  Z.of_nat (length (soldTickets s)).

Definition reservedTickets_length (s : RaffleState) : Z :=
  Z.of_nat (length (reservedTickets s)).

(** [_updateAvailableTickets] *)
Definition _updateAvailableTickets (s : RaffleState) : RaffleState :=
  let unavailable := soldTickets s ++ reservedTickets s in
  let available :=
    List.filter (fun num => negb (JS.includes unavailable num))
                (JS.Array_from TOTAL_TICKETS (fun i => i + 1)) in
  {| tickets := tickets s;
     selectedTickets := selectedTickets s;
     soldTickets := soldTickets s;
     reservedTickets := reservedTickets s;
     availableTickets := available;
     errors := errors s |}.

(** [setSoldTicketsFromDB] *)
Definition setSoldTicketsFromDB (tks : list Z) (s : RaffleState) : RaffleState :=
  _updateAvailableTickets
    {| tickets := tickets s;
       selectedTickets := selectedTickets s;
       soldTickets := tks;
       reservedTickets := reservedTickets s;
       availableTickets := availableTickets s;
       errors := errors s |}.

(** [setReservedTicketsFromDB] *)
Definition setReservedTicketsFromDB (tks : list Z) (s : RaffleState) : RaffleState :=
  _updateAvailableTickets
    {| tickets := tickets s;
       selectedTickets := selectedTickets s;
       soldTickets := soldTickets s;
       reservedTickets := tks;
       availableTickets := availableTickets s;
       errors := errors s |}.

(** [quickSelect].  [random_sort] stands for one run of
    [arr.sort(() => Math.random() - 0.5)] on a copy of the array. *)
Definition quickSelect
    (count : Z) (random_sort : list Z -> list Z) (s : RaffleState)
  : RaffleState :=
  let availableTickets_ := availableTickets s in
  if Z.of_nat (length availableTickets_) <? count then
    {| tickets := tickets s;
       selectedTickets := selectedTickets s;
       soldTickets := soldTickets s;
       reservedTickets := reservedTickets s;
       availableTickets := availableTickets s;
       errors :=
         errors s ++
         [("Solo hay " ++ JS.String_of (Z.of_nat (length availableTickets_))
             ++ " tickets disponibles")%string] |}
  else
    let shuffled := random_sort availableTickets_ in
    let selected := JS.sort_ascending (JS.slice 0 count shuffled) in
    {| tickets := tickets s;
       selectedTickets := selected;
       soldTickets := soldTickets s;
       reservedTickets := reservedTickets s;
       availableTickets := availableTickets s;
       errors :=
         List.filter
           (fun error => negb (JS.String_includes error "tickets disponibles"))
           (errors s) |}.

(** Work handed to [setTimeout] by an action: the delay in milliseconds
    and what runs when it fires. *)
Inductive Task : Type :=
| TaskUpdateAvailable
| TaskRelease (ticketNumbers : list Z).

Section Actions.

(** [formatTicketNumber] and [generateId] come from [lib/utils], which is
    not part of the sources at hand.  The first is a parameter of the
    model; the second is an oracle [ids], whose value at [i] is what the
    [i]-th call of [generateId()] within one action returns. *)
Variable formatTicketNumber : Z -> string.

(** The loop
    [forEach(newTicket => { existingIndex = findIndex(...); ... })]
    for one new ticket: overwrite the first ticket that carries the same
    number, or push. *)
Definition upsertTicket (updatedTickets : list Ticket) (newTicket : Ticket)
  : list Ticket :=
  match JS.findIndex (fun t => String.eqb (number t) (number newTicket))
                     updatedTickets with
  | Some existingIndex => <[existingIndex := newTicket]> updatedTickets
  | None => updatedTickets ++ [newTicket]
  end.

Definition reservedTicketObjects
    (ticketNumbers : list Z) (customerId : string) (now : Z)
    (ids : nat -> string) : list Ticket :=
  imap (fun i num =>
          {| id := ids i;
             number := formatTicketNumber num;
             status := reserved;
             buyerId := Some customerId;
             reservedAt := Some now;
             purchaseDate := None |}) ticketNumbers.

(** [reserveTickets]: the state it returns. *)
Definition reserveTickets
    (ticketNumbers : list Z) (customerId : string) (now : Z)
    (ids : nat -> string) (s : RaffleState) : RaffleState :=
  let newReservedTickets := reservedTickets s ++ ticketNumbers in
  let updatedTickets :=
    foldl upsertTicket (tickets s)
          (reservedTicketObjects ticketNumbers customerId now ids) in
  {| tickets := updatedTickets;
     selectedTickets := [];
     soldTickets := soldTickets s;
     reservedTickets := newReservedTickets;
     availableTickets := availableTickets s;
     errors := errors s |}.

(** [reserveTickets]: the timers it starts. *)
Definition reserveTickets_timers (ticketNumbers : list Z) : list (Z * Task) :=
  [(RESERVATION_TIME_MS, TaskRelease ticketNumbers); (0, TaskUpdateAvailable)].

Definition soldTicketObjects
    (ticketNumbers : list Z) (customerId : string) (now : Z)
    (ids : nat -> string) : list Ticket :=
  imap (fun i num =>
          {| id := ids i;
             number := formatTicketNumber num;
             status := sold;
             buyerId := Some customerId;
             reservedAt := None;
             purchaseDate := Some now |}) ticketNumbers.

(** [markTicketsAsSold]: the state it returns; it starts one timer,
    [(0, TaskUpdateAvailable)]. *)
Definition markTicketsAsSold
    (ticketNumbers : list Z) (customerId : string) (now : Z)
    (ids : nat -> string) (s : RaffleState) : RaffleState :=
  let newSoldTickets := soldTickets s ++ ticketNumbers in
  let updatedReservedTickets :=
    List.filter (fun num => negb (JS.includes ticketNumbers num))
                (reservedTickets s) in
  let updatedTickets :=
    foldl upsertTicket (tickets s)
          (soldTicketObjects ticketNumbers customerId now ids) in
  {| tickets := updatedTickets;
     selectedTickets := selectedTickets s;
     soldTickets := newSoldTickets;
     reservedTickets := updatedReservedTickets;
     availableTickets := availableTickets s;
     errors := errors s |}.

End Actions.

(** The callback of [state.tickets.map] in [releaseReservedTickets]. *)
Definition releaseTicket (ticketNumbers : list Z) (ticket : Ticket) : Ticket :=
  let ticketNum := JS.parseInt (number ticket) in
  if match ticketNum with
     | Some n => JS.includes ticketNumbers n
     | None => false
     end && TicketStatus_eqb (status ticket) reserved
  then {| id := id ticket;
          number := number ticket;
          status := available;
          buyerId := None;
          reservedAt := None;
          purchaseDate := purchaseDate ticket |}
  else ticket.

(** [releaseReservedTickets]: the state it returns; it starts one timer,
    [(0, TaskUpdateAvailable)]. *)
Definition releaseReservedTickets
    (ticketNumbers : list Z) (s : RaffleState) : RaffleState :=
  let updatedReservedTickets :=
    List.filter (fun num => negb (JS.includes ticketNumbers num))
                (reservedTickets s) in
  let updatedTickets := map (releaseTicket ticketNumbers) (tickets s) in
  {| tickets := updatedTickets;
     selectedTickets := selectedTickets s;
     soldTickets := soldTickets s;
     reservedTickets := updatedReservedTickets;
     availableTickets := availableTickets s;
     errors := errors s |}.

(** What a timer does when it fires. *)
Definition run_task (t : Task) (s : RaffleState) : RaffleState :=
  match t with
  | TaskUpdateAvailable => _updateAvailableTickets s
  | TaskRelease ticketNumbers => releaseReservedTickets ticketNumbers s
  end.

(** The status shown for a ticket number string: that of the first ticket
    object carrying it, which is the one [findIndex] reaches. *)
Definition status_of (num : string) (ts : list Ticket) : option TicketStatus :=
  status <$> List.find (fun t => String.eqb (number t) num) ts.

(** Number and status of every ticket object, in array order. *)
Definition ticketStatuses (ts : list Ticket) : list (string * TicketStatus) :=
  map (fun t => (number t, status t)) ts.

(** The four-digit rendering of a ticket number used for display,
    [String(ticketNumber).padStart(4, '0')] in [useSupabaseSync.ts]; it
    instantiates [formatTicketNumber] where a concrete run is evaluated. *)
Definition padStart4 (ticketNumber : Z) : string :=
  JS.padStart0 4 (JS.String_of ticketNumber).

(** The numbers of the range 1..n that occur in [U]; used to count what
    [_updateAvailableTickets] filters out. *)
Definition occupied (n : Z) (U : list Z) : list Z :=
  List.filter (JS.includes U) (seqZ 1 n).

(** The states the actions above lead to from the initial state.  The
    sold and reserved lists restored from local storage enter through
    [reach_rehydrate].  The actions of the store that are not modelled
    (single selection, customer data, activities, flags, initialisation
    of the ticket objects, reset) never write [availableTickets]. *)
Inductive reachable : RaffleState -> Prop :=
| reach_initial : reachable initialState
| reach_rehydrate persistedSold persistedReserved s :
    reachable s ->
    reachable {| tickets := tickets s;
                 selectedTickets := selectedTickets s;
                 soldTickets := persistedSold;
                 reservedTickets := persistedReserved;
                 availableTickets := availableTickets s;
                 errors := errors s |}
| reach_update s :
    reachable s -> reachable (_updateAvailableTickets s)
| reach_setSold tks s :
    reachable s -> reachable (setSoldTicketsFromDB tks s)
| reach_setReserved tks s :
    reachable s -> reachable (setReservedTicketsFromDB tks s)
| reach_quickSelect count random_sort s :
    reachable s ->
    random_sort (availableTickets s) ≡ₚ availableTickets s ->
    reachable (quickSelect count random_sort s)
| reach_reserve fmt nums cid now ids s :
    reachable s -> reachable (reserveTickets fmt nums cid now ids s)
| reach_markSold fmt nums cid now ids s :
    reachable s -> reachable (markTicketsAsSold fmt nums cid now ids s)
| reach_release nums s :
    reachable s -> reachable (releaseReservedTickets nums s).

End RaffleStore.

(* ===================================================================== *)
(** ** The sync hook: synthetic sold tickets and the tickets table        *)
(* ===================================================================== *)

Module SupabaseSync.
Import MasterCounters RaffleStore.

(** A row of the [tickets] table, with the columns the hook touches. *)
Record DbTicket : Type := mkDbTicket {
  db_number : Z;
  db_status : DbStatus;
  db_customer_id : option string;
  db_reserved_at : option string
}.

(** [const totalTickets = 10000;] (local to [generateFomoTickets]) *)
Definition totalTickets : Z := 10000.

(** [Math.floor(Math.random() * totalTickets) + 1], from the double [r]
    that [Math.random()] produced; the product is the one on doubles. *)
Definition randomTicket (r : float) : Z :=
  JS.Math_floor (r * double_of_Z totalTickets)%float + 1.

(** The [while (fomoTickets.length < fomoNeeded)] loop, run on the
    successive values of [Math.random()].  [None] means the loop is still
    running when the supplied values are used up. *)
Fixpoint fomo_loop
    (fomoNeeded : Z) (realTicketsSet : list Z) (draws : list float)
    (fomoTickets : list Z) {struct draws} : option (list Z) :=
  if Z.of_nat (length fomoTickets) <? fomoNeeded then
    match draws with
    | [] => None
    | r :: draws' =>
        let t := randomTicket r in
        if negb (JS.includes realTicketsSet t)
           && negb (JS.includes fomoTickets t)
        then fomo_loop fomoNeeded realTicketsSet draws' (fomoTickets ++ [t])
        else fomo_loop fomoNeeded realTicketsSet draws' fomoTickets
    end
  else Some fomoTickets.

(** [Math.floor((fomoPercentage / 100) * totalTickets)], quotient and
    product taken on doubles, for a percentage that is a whole number and
    not negative. *)
Definition targetCount (fomoPercentage : Z) : Z :=
  JS.Math_floor
    ((double_of_Z fomoPercentage / 100) * double_of_Z totalTickets)%float.

(** [generateFomoTickets], for the current value of the [fomoPercentage]
    state (8 at first, later a whole number up to 18).  The test of the
    current percentage against 18 is the threshold test of
    [calculateFOMO], taken on rationals like it. *)
Definition generateFomoTickets
    (fomoPercentage : Z) (draws : list float) (realSoldTickets : list Z)
  : option (list Z) :=
  let currentPercentage :=
    ((inject_Z (Z.of_nat (length realSoldTickets)) / inject_Z totalTickets)
       * inject_Z 100)%Q in
  if Qle_bool 18 currentPercentage then Some realSoldTickets
  else
    let fomoNeeded :=
      Z.max 0 (targetCount fomoPercentage
               - Z.of_nat (length realSoldTickets)) in
    if fomoNeeded =? 0 then Some realSoldTickets
    else
      match fomo_loop fomoNeeded realSoldTickets draws [] with
      | Some fomoTickets =>
          Some (JS.sort_ascending (realSoldTickets ++ fomoTickets))
      | None => None
      end.

(** [.order('number')] *)
Definition number_le (a b : DbTicket) : Prop := db_number a <= db_number b.

#[local] Instance number_le_dec : RelDecision number_le :=
  fun a b => Z_le_dec (db_number a) (db_number b).

Definition order_by_number (rows : list DbTicket) : list DbTicket :=
  merge_sort number_le rows.

(** [loadInitialData], as far as the store is concerned.  [query] is the
    outcome of the select, [None] for an error.  Without a connection or
    on a query error the store is left as it is.  The outer [None] means
    the draw loop needs more random values than were supplied.  The timer
    started at the end runs [_updateAvailableTickets] once more. *)
Definition loadInitialData
    (connected : bool) (query : option (list DbTicket))
    (fomoPercentage : Z) (draws : list float) (s : RaffleState)
  : option RaffleState :=
  if negb connected then Some s
  else
    match query with
    | None => Some s
    | Some table =>
        let ticketsData := order_by_number table in
        let realSoldTickets :=
          map db_number
              (List.filter (fun t => DbStatus_eqb (db_status t) vendido)
                           ticketsData) in
        let reservedTickets :=
          map db_number
              (List.filter (fun t => DbStatus_eqb (db_status t) reservado)
                           ticketsData) in
        match generateFomoTickets fomoPercentage draws realSoldTickets with
        | Some visualSoldTickets =>
            Some (setReservedTicketsFromDB reservedTickets
                    (setSoldTicketsFromDB visualSoldTickets s))
        | None => None
        end
    end.

(** The sync inside [updateMasterCounters]: the sold and reserved numbers
    of the table, without synthetic tickets, written into the store. *)
Definition syncStoreFromTable (table : list DbTicket) (s : RaffleState)
  : RaffleState :=
  let ticketNumbers :=
    List.filter (fun t => DbStatus_eqb (db_status t) vendido
                          || DbStatus_eqb (db_status t) reservado) table in
  let soldNumbers :=
    map db_number
        (List.filter (fun t => DbStatus_eqb (db_status t) vendido)
                     ticketNumbers) in
  let reservedNumbers :=
    map db_number
        (List.filter (fun t => DbStatus_eqb (db_status t) reservado)
                     ticketNumbers) in
  setReservedTicketsFromDB reservedNumbers
    (setSoldTicketsFromDB soldNumbers s).

(** The row update of [reserveTicketsInDB]:
    [update({status: 'reservado', customer_id, reserved_at})
       .in('number', ticketNumbers).eq('status', 'disponible')]. *)
Definition reserveRow
    (ticketNumbers : list Z) (customerId : string) (nowIso : string)
    (row : DbTicket) : DbTicket :=
  if JS.includes ticketNumbers (db_number row)
     && DbStatus_eqb (db_status row) disponible
  then {| db_number := db_number row;
          db_status := reservado;
          db_customer_id := Some customerId;
          db_reserved_at := Some nowIso |}
  else row.

(** [reserveTicketsInDB]: the table afterwards and the returned boolean.
    [failed] stands for an error reported by the update or an exception,
    in which case the table is taken to be untouched. *)
Definition reserveTicketsInDB
    (isConnected : bool) (failed : bool) (table : list DbTicket)
    (ticketNumbers : list Z) (customerId : string) (nowIso : string)
  : list DbTicket * bool :=
  if negb isConnected then (table, false)
  else if failed then (table, false)
  else (map (reserveRow ticketNumbers customerId nowIso) table, true).

End SupabaseSync.

(* ===================================================================== *)
(** ** Concrete runs used as examples below                              *)
(* ===================================================================== *)

Module Scenario.
Import MasterCounters RaffleStore SupabaseSync.

(** The full table of 10000 rows, ticket 5 reserved, nothing sold. *)
Definition table_one_reserved : list DbTicket :=
  JS.Array_from 10000
    (fun i => {| db_number := i + 1;
                 db_status := if i + 1 =? 5 then reservado else disponible;
                 db_customer_id := None;
                 db_reserved_at := None |}).

(** 800 values of [Math.random()], the [i]-th the double next to the
    middle of the interval that yields ticket [i + 1]: 0.00005, 0.00015,
    ... *)
Definition draws_first_800 : list float :=
  JS.Array_from 800
    (fun i => (double_of_Z (2 * i + 1) / double_of_Z 20000)%float).

(** A store that has learnt that ticket 10 is sold. *)
Definition store_ten_sold : RaffleState :=
  setSoldTicketsFromDB [10] initialState.

(** The table with ticket 10 sold and every other ticket available. *)
Definition table_ten_sold : list DbTicket :=
  JS.Array_from 10000
    (fun i => {| db_number := i + 1;
                 db_status := if i + 1 =? 10 then vendido else disponible;
                 db_customer_id := None;
                 db_reserved_at := None |}).

(** Ids handed out by [generateId()] in the examples. *)
Definition ids_a (i : nat) : string := ("a" ++ pretty i)%string.
Definition ids_b (i : nat) : string := ("b" ++ pretty i)%string.

End Scenario.

(* ===================================================================== *)
(** ** The store: single selection, activities, initialisation, reset     *)
(* ===================================================================== *)

Module StoreActions.
Import RaffleStore.

Section Selection.

(** [formatTicketNumber] of [lib/utils], as in [RaffleStore]. *)
Variable formatTicketNumber : Z -> string.

(** [selectTicket] *)
Definition selectTicket (ticketNumber : Z) (s : RaffleState) : RaffleState :=
  if JS.includes (soldTickets s) ticketNumber
     || JS.includes (reservedTickets s) ticketNumber
  then
    {| tickets := tickets s;
       selectedTickets := selectedTickets s;
       soldTickets := soldTickets s;
       reservedTickets := reservedTickets s;
       availableTickets := availableTickets s;
       errors :=
         errors s ++
         [("El ticket " ++ formatTicketNumber ticketNumber
             ++ " ya no está disponible")%string] |}
  else if JS.includes (selectedTickets s) ticketNumber then s
  else
    {| tickets := tickets s;
       selectedTickets :=
         JS.sort_ascending (selectedTickets s ++ [ticketNumber]);
       soldTickets := soldTickets s;
       reservedTickets := reservedTickets s;
       availableTickets := availableTickets s;
       errors :=
         List.filter
           (fun error =>
              negb (JS.String_includes error "ya no está disponible"))
           (errors s) |}.

End Selection.

(** [deselectTicket] *)
Definition deselectTicket (ticketNumber : Z) (s : RaffleState) : RaffleState :=
  {| tickets := tickets s;
     selectedTickets :=
       List.filter (fun num => negb (num =? ticketNumber)) (selectedTickets s);
     soldTickets := soldTickets s;
     reservedTickets := reservedTickets s;
     availableTickets := availableTickets s;
     errors := errors s |}.

(** [clearSelection] *)
Definition clearSelection (s : RaffleState) : RaffleState :=
  {| tickets := tickets s;
     selectedTickets := [];
     soldTickets := soldTickets s;
     reservedTickets := reservedTickets s;
     availableTickets := availableTickets s;
     errors := errors s |}.

(** [initializeTickets]: the state it returns.  [ids] gives the result of
    the [generateId()] call made for index [i]; when the array is built
    the action also starts the timer [(0, TaskUpdateAvailable)]. *)
Definition initializeTickets
    (formatTicketNumber : Z -> string) (ids : Z -> string) (s : RaffleState)
  : RaffleState :=
  if (0 <? Z.of_nat (length (tickets s))) then s
  else
    {| tickets :=
         JS.Array_from TOTAL_TICKETS
           (fun i => {| id := ids i;
                        number := formatTicketNumber (i + 1);
                        status := available;
                        buyerId := None;
                        reservedAt := None;
                        purchaseDate := None |});
       selectedTickets := selectedTickets s;
       soldTickets := soldTickets s;
       reservedTickets := reservedTickets s;
       availableTickets := availableTickets s;
       errors := errors s |}.

(** [resetStore].  The object handed to [set] spreads [initialState],
    which has no [availableTickets] key, and [set] merges it into the
    current state: the cached list stays. *)
Definition resetStore (s : RaffleState) : RaffleState :=
  {| tickets := [];
     selectedTickets := [];
     soldTickets := [];
     reservedTickets := [];
     availableTickets := availableTickets s;
     errors := [] |}.

(** A live activity: what the caller passes ([buyerName], [ticketCount])
    and what [addLiveActivity] adds ([id], [createdAt]). *)
Record LiveActivity : Type := mkLiveActivity {
  la_id : string;
  la_buyerName : string;
  la_ticketCount : Z;
  la_createdAt : Z
}.

(** [addLiveActivity], on the [liveActivities] field, the only one it
    writes: the new activity in front, the first 50 kept.  An activity to
    add comes with the id and the date generated for it. *)
Definition addLiveActivity
    (newActivity : LiveActivity) (liveActivities : list LiveActivity)
  : list LiveActivity :=
  JS.slice 0 50 (newActivity :: liveActivities).

(** [partialize]: what of the activities is written to local storage. *)
Definition persistedActivities (liveActivities : list LiveActivity)
  : list LiveActivity :=
  JS.slice 0 20 liveActivities.

(** The sold and reserved lists name each ticket at most once and only
    tickets of the pool. *)
Definition lists_consistent (s : RaffleState) : Prop :=
  NoDup (soldTickets s ++ reservedTickets s)
  /\ Forall (fun n => 1 <= n <= TOTAL_TICKETS)
            (soldTickets s ++ reservedTickets s).

(** The requested numbers are distinct tickets of the pool. *)
Definition distinct_tickets (ticketNumbers : list Z) : Prop :=
  NoDup ticketNumbers
  /\ Forall (fun n => 1 <= n <= TOTAL_TICKETS) ticketNumbers.

End StoreActions.

(* ===================================================================== *)
(** ** The sync hook: the rest of it                                      *)
(* ===================================================================== *)

Module SyncMore.
Import MasterCounters RaffleStore SupabaseSync.

(** The tickets that a run of candidate tickets contributes to the draw
    loop: those outside [real] that did not occur earlier in the run or
    in [seen], in order of first occurrence. *)
Fixpoint fresh_tickets (real seen : list Z) (candidates : list Z) : list Z :=
  match candidates with
  | [] => []
  | t :: rest =>
      if negb (JS.includes real t) && negb (JS.includes seen t)
      then t :: fresh_tickets real (seen ++ [t]) rest
      else fresh_tickets real seen rest
  end.

(** The loop [for (let i = 1; i <= 10000; i++)] of
    [getRealAvailableTickets], [n] iterations from [i] on. *)
Fixpoint available_loop
    (n : nat) (i : Z) (unavailableNumbers : list Z) (availableTickets : list Z)
  : list Z :=
  match n with
  | O => availableTickets
  | S n' =>
      available_loop n' (i + 1) unavailableNumbers
        (if negb (JS.includes unavailableNumbers i)
         then availableTickets ++ [i]
         else availableTickets)
  end.

(** [getRealAvailableTickets]; [query] is the outcome of the select on
    the table, [None] for an error or an exception. *)
Definition getRealAvailableTickets
    (isConnected : bool) (query : option (list DbTicket)) : list Z :=
  if negb isConnected then []
  else
    match query with
    | None => []
    | Some table =>
        let unavailableNumbers :=
          map db_number
              (List.filter
                 (fun t => DbStatus_eqb (db_status t) vendido
                           || DbStatus_eqb (db_status t) reservado) table) in
        available_loop (Z.to_nat 10000) 1 unavailableNumbers []
    end.

End SyncMore.

(* ===================================================================== *)
(** ** Master counters: the admin and statistics hooks, the self-tests    *)
(* ===================================================================== *)

Module CounterHooks.
Import MasterCounters.

(** The object returned by [useAdminCounters]; the fields of its four
    parts [display], [real], [fomo] and [meta] carry the part's name. *)
Record AdminCounters : Type := mkAdminCounters {
  display_soldTickets : Z;
  display_soldPercentage : Q;
  display_availableTickets : Z;
  real_soldTickets : Z;
  real_soldPercentage : Q;
  real_availableTickets : Z;
  real_reservedTickets : Z;
  fomo_isActive : bool;
  fomo_difference : Z;
  fomo_fomoAmount : Z;
  meta_isConnected : bool;
  meta_lastUpdate : Z;
  meta_totalTickets : Z
}.

Definition useAdminCounters (data : MasterCounterData) : AdminCounters :=
  let displayAvailable :=
    TOTAL_TICKETS - fomoSoldTickets data - reservedTickets data in
  {| display_soldTickets := fomoSoldTickets data;
     display_soldPercentage := fomoPercentage data;
     display_availableTickets := displayAvailable;
     real_soldTickets := soldTickets data;
     real_soldPercentage := soldPercentage data;
     real_availableTickets := availableTickets data;
     real_reservedTickets := reservedTickets data;
     fomo_isActive := fomoIsActive data;
     fomo_difference := fomoSoldTickets data - soldTickets data;
     fomo_fomoAmount := 1200;
     meta_isConnected := isConnected data;
     meta_lastUpdate := lastUpdate data;
     meta_totalTickets := totalTickets data |}.

(** The object returned by [useTicketStats]. *)
Record TicketStats : Type := mkTicketStats {
  ts_total : Z;
  ts_sold : Z;
  ts_reserved : Z;
  ts_available : Z;
  ts_fomoSold : Z;
  ts_fomoAvailable : Z;
  ts_fomoActive : bool;
  ts_progress_real : Q;
  ts_progress_display : Q
}.

Definition useTicketStats (data : MasterCounterData) : TicketStats :=
  let realAvailable := availableTickets data in
  let displayAvailable :=
    TOTAL_TICKETS - fomoSoldTickets data - reservedTickets data in
  {| ts_total := totalTickets data;
     ts_sold := soldTickets data;
     ts_reserved := reservedTickets data;
     ts_available := realAvailable;
     ts_fomoSold := fomoSoldTickets data;
     ts_fomoAvailable := displayAvailable;
     ts_fomoActive := fomoIsActive data;
     ts_progress_real := soldPercentage data;
     ts_progress_display := fomoPercentage data |}.

(** [validateDisplayHooks], the local function of [updateMasterCounters],
    from the two values it closes over. *)
Definition validateDisplayHooks (displaySoldCount reserved : Z) : bool :=
  let basicDisplaySold := displaySoldCount in
  let basicDisplayAvailable := TOTAL_TICKETS - basicDisplaySold - reserved in
  let basicSum := basicDisplaySold + basicDisplayAvailable + reserved in
  if negb (basicSum =? TOTAL_TICKETS) then false
  else
    let displayStatsSold := displaySoldCount in
    let displayStatsAvailable := TOTAL_TICKETS - displayStatsSold - reserved in
    let displayStatsSum :=
      displayStatsSold + displayStatsAvailable + reserved in
    if negb (displayStatsSum =? TOTAL_TICKETS) then false
    else true.

(** [testMathConsistency], on the current [masterCounterInstance]. *)
Definition testMathConsistency
    (masterCounterInstance : option MasterCounterData) : bool :=
  match masterCounterInstance with
  | None => false
  | Some d =>
      let realSum := soldTickets d + availableTickets d + reservedTickets d in
      let realMathValid := realSum =? totalTickets d in
      let displaySoldTickets := fomoSoldTickets d in
      let displayAvailableTickets :=
        totalTickets d - displaySoldTickets - reservedTickets d in
      let displaySum :=
        displaySoldTickets + displayAvailableTickets + reservedTickets d in
      let displayMathValid := displaySum =? totalTickets d in
      let separationValid :=
        availableTickets d
        =? totalTickets d - soldTickets d - reservedTickets d in
      let overallValid :=
        realMathValid && displayMathValid && separationValid in
      overallValid
  end.

End CounterHooks.

(* ===================================================================== *)
(** ** The database layer: reservations that expire, tickets of a purchase *)
(* ===================================================================== *)

Module Supabase.
Import MasterCounters.

(** [interface Ticket]: a row of the [tickets] table.  An instant is a
    number of milliseconds since the epoch, [None] is NULL. *)
Record Ticket : Type := mkTicket {
  id : option string;
  number : Z;
  status : DbStatus;
  customer_id : option string;
  purchase_id : option string;
  reserved_at : option Z;
  sold_at : option Z;
  created_at : option Z
}.

(** The columns of [interface Purchase] that [actualizarEstadoCompra]
    writes, with the two keys it reads. *)
Inductive PurchaseStatus : Type := pendiente | confirmada | cancelada.

Record Purchase : Type := mkPurchase {
  p_id : string;
  p_customer_id : string;
  p_status : PurchaseStatus;
  p_verified_at : option Z;
  p_verified_by : option string;
  p_notes : option string
}.

Record Database : Type := mkDatabase {
  purchases : list Purchase;
  tickets : list Ticket
}.

(** What a call throws: the error object of a query, or [new Error(m)]. *)
Inductive Thrown : Type :=
| PostgrestError
| Error_ (message : string).

Inductive Outcome (A : Type) : Type :=
| Returns (a : A)
| Throws (e : Thrown).
Arguments Returns {A} a.
Arguments Throws {A} e.

(** [.order('number')] *)
Definition number_le (a b : Ticket) : Prop := number a <= number b.

#[local] Instance number_le_dec : RelDecision number_le :=
  fun a b => Z_le_dec (number a) (number b).

Definition order_by_number (rows : list Ticket) : list Ticket :=
  merge_sort number_le rows.

(** [.eq('status', 'disponible')] *)
Definition eq_status (st : DbStatus) (t : Ticket) : bool :=
  DbStatus_eqb (status t) st.

(** [.eq('purchase_id', purchaseId)] *)
Definition eq_purchase_id (purchaseId : string) (t : Ticket) : bool :=
  match purchase_id t with
  | Some p => String.eqb p purchaseId
  | None => false
  end.

(** [obtenerTicketsDisponibles] *)
Definition obtenerTicketsDisponibles (table : list Ticket) : list Ticket :=
  order_by_number (List.filter (eq_status disponible) table).

(** The rows matched by
    [.eq('status', 'reservado').lt('reserved_at', tiempoExpiracion)]. *)
Definition reserva_expirada (tiempoExpiracion : Z) (t : Ticket) : bool :=
  eq_status reservado t
  && match reserved_at t with
     | Some r => r <? tiempoExpiracion
     | None => false
     end.

(** [liberarReservasExpiradas], from the instant [tiempoExpiracion] that
    it computes from the clock and [minutos]: the table afterwards and
    the number of rows released. *)
Definition liberarReservasExpiradas
    (tiempoExpiracion : Z) (table : list Ticket) : list Ticket * Z :=
  let update t :=
    if reserva_expirada tiempoExpiracion t
    then {| id := id t; number := number t;
            status := disponible;
            customer_id := None;
            purchase_id := purchase_id t;
            reserved_at := None;
            sold_at := sold_at t; created_at := created_at t |}
    else t in
  let data := List.filter (reserva_expirada tiempoExpiracion) table in
  (map update table, Z.of_nat (length data)).

(** The select of [asignarNumerosDisponibles]:
    [.eq('status', 'disponible').order('number').limit(cantidadBoletos)]. *)
Definition select_disponibles (cantidadBoletos : Z) (table : list Ticket)
  : list Ticket :=
  take (Z.to_nat cantidadBoletos)
       (order_by_number (List.filter (eq_status disponible) table)).

(** The update of [asignarNumerosDisponibles], on one row. *)
Definition asignarRow
    (purchaseId customerId : string) (ahora : Z) (numerosAsignados : list Z)
    (t : Ticket) : Ticket :=
  if JS.includes numerosAsignados (number t)
  then {| id := id t; number := number t;
          status := vendido;
          customer_id := Some customerId;
          purchase_id := Some purchaseId;
          reserved_at := reserved_at t;
          sold_at := Some ahora; created_at := created_at t |}
  else t.

(** [asignarNumerosDisponibles]: the table afterwards, and the updated
    rows it returns or the error it throws.  [cantidadBoletos] is a
    count, so not negative. *)
Definition asignarNumerosDisponibles
    (purchaseId customerId : string) (cantidadBoletos : Z) (ahora : Z)
    (table : list Ticket) : list Ticket * Outcome (list Ticket) :=
  let ticketsDisponibles := select_disponibles cantidadBoletos table in
  if Z.of_nat (length ticketsDisponibles) <? cantidadBoletos then
    (table,
     Throws (Error_ ("Solo hay "
                     ++ JS.String_of (Z.of_nat (length ticketsDisponibles))
                     ++ " tickets disponibles, necesitas "
                     ++ JS.String_of cantidadBoletos)))
  else
    let numerosAsignados := map number ticketsDisponibles in
    let table' :=
      map (asignarRow purchaseId customerId ahora numerosAsignados) table in
    (table',
     Returns (List.filter (fun t => JS.includes numerosAsignados (number t))
                          table')).

(** The update of step 4 of [actualizarEstadoCompra], on one row. *)
Definition liberarRow (purchaseId : string) (t : Ticket) : Ticket :=
  if eq_purchase_id purchaseId t
  then {| id := id t; number := number t;
          status := disponible;
          customer_id := None;
          purchase_id := None;
          reserved_at := reserved_at t;
          sold_at := None; created_at := created_at t |}
  else t.

(** [.update(updates).eq('id', purchaseId)] on the purchases; a key whose
    value is [undefined] is not sent, so the column keeps its value. *)
Definition updatePurchase
    (purchaseId : string) (estado : PurchaseStatus)
    (notas verificadoPor : option string) (verified_at : option Z)
    (p : Purchase) : Purchase :=
  if String.eqb (p_id p) purchaseId
  then {| p_id := p_id p; p_customer_id := p_customer_id p;
          p_status := estado;
          p_verified_at :=
            match verified_at with Some a => Some a | None => p_verified_at p end;
          p_verified_by :=
            match verificadoPor with
            | Some v => Some v
            | None => p_verified_by p
            end;
          p_notes :=
            match notas with Some n => Some n | None => p_notes p end |}
  else p.

(** [.update({ status: 'pendiente' }).eq('id', purchaseId)] *)
Definition revertPurchase (purchaseId : string) (p : Purchase) : Purchase :=
  if String.eqb (p_id p) purchaseId
  then {| p_id := p_id p; p_customer_id := p_customer_id p;
          p_status := pendiente;
          p_verified_at := p_verified_at p;
          p_verified_by := p_verified_by p;
          p_notes := p_notes p |}
  else p.

(** [.eq('id', purchaseId).single()]: the one matching row, an error
    when there is none or more than one. *)
Definition single_purchase (purchaseId : string) (rows : list Purchase)
  : option Purchase :=
  match List.filter (fun p => String.eqb (p_id p) purchaseId) rows with
  | [p] => Some p
  | _ => None
  end.

Definition PurchaseStatus_eqb (a b : PurchaseStatus) : bool :=
  match a, b with
  | pendiente, pendiente | confirmada, confirmada | cancelada, cancelada =>
      true
  | _, _ => false
  end.

(** [actualizarEstadoCompra]: the database afterwards, and the purchase
    with its tickets that is returned or the error that is thrown.
    [ahora] and [ahora'] are the two readings of the clock, and
    [cantidadBoletos] the number of tickets that line 276 computes from
    the amounts of the purchase.  Queries are taken to succeed, except
    that [single()] reports an error unless exactly one row matches. *)
Definition actualizarEstadoCompra
    (purchaseId : string) (estado : PurchaseStatus)
    (notas verificadoPor : option string)
    (ahora : Z) (cantidadBoletos : Z) (ahora' : Z) (db : Database)
  : Database * Outcome (Purchase * list Ticket) :=
  match single_purchase purchaseId (purchases db) with
  | None => (db, Throws PostgrestError)
  | Some purchaseData =>
      let purchases1 :=
        map (updatePurchase purchaseId estado notas verificadoPor
               (if PurchaseStatus_eqb estado confirmada
                then Some ahora else None))
            (purchases db) in
      match single_purchase purchaseId purchases1 with
      | None => ({| purchases := purchases1; tickets := tickets db |},
                 Throws PostgrestError)
      | Some updatedPurchase =>
          let finish (db' : Database) :=
            match single_purchase purchaseId (purchases db') with
            | None => (db', Throws PostgrestError)
            | Some finalData =>
                (db',
                 Returns (finalData,
                          List.filter (eq_purchase_id purchaseId)
                                      (tickets db')))
            end in
          match estado with
          | confirmada =>
              match asignarNumerosDisponibles
                      purchaseId (p_customer_id updatedPurchase)
                      cantidadBoletos ahora' (tickets db) with
              | (tickets', Returns _) =>
                  finish {| purchases := purchases1; tickets := tickets' |}
              | (tickets', Throws ticketError) =>
                  ({| purchases := map (revertPurchase purchaseId) purchases1;
                      tickets := tickets' |},
                   Throws
                     (Error_ ("No se pudo confirmar: "
                              ++ match ticketError with
                                 | Error_ message => message
                                 | PostgrestError => "Error al asignar tickets"
                                 end)))
              end
          | cancelada =>
              finish {| purchases := purchases1;
                        tickets := map (liberarRow purchaseId) (tickets db) |}
          | pendiente =>
              finish {| purchases := purchases1; tickets := tickets db |}
          end
      end
  end.

End Supabase.

(* ===================================================================== *)
(** ** The sync hook: marking tickets as sold in the table                *)
(* ===================================================================== *)

Module SyncTable.
Import MasterCounters Supabase.

(** The row update of the hook's [markTicketsAsSold]:
    [update({status: 'vendido', customer_id, sold_at})
       .in('number', ticketNumbers)]. *)
Definition markSoldRow
    (ticketNumbers : list Z) (customerId : string) (now : Z)
    (t : Ticket) : Ticket :=
  if JS.includes ticketNumbers (number t)
  then {| id := id t; number := number t;
          status := vendido;
          customer_id := Some customerId;
          purchase_id := purchase_id t;
          reserved_at := reserved_at t;
          sold_at := Some now; created_at := created_at t |}
  else t.

(** The hook's [markTicketsAsSold]: the table afterwards and the returned
    boolean.  [failed] stands for an error reported by the update or an
    exception, in which case the table is taken to be untouched. *)
Definition markTicketsAsSold
    (isConnected : bool) (failed : bool) (table : list Ticket)
    (ticketNumbers : list Z) (customerId : string) (now : Z)
  : list Ticket * bool :=
  if negb isConnected then (table, false)
  else if failed then (table, false)
  else (map (markSoldRow ticketNumbers customerId now) table, true).

End SyncTable.

(* ===================================================================== *)
(** ** A small database used as an example below                          *)
(* ===================================================================== *)

Module PurchaseScenario.
Import MasterCounters Supabase.

Definition row (n : Z) (st : DbStatus) : Ticket :=
  {| id := None; number := n; status := st;
     customer_id := None; purchase_id := None;
     reserved_at := None; sold_at := None; created_at := None |}.

(** Four tickets: 1 sold, 3 reserved, 2 and 4 available. *)
Definition small_table : list Ticket :=
  [row 4 disponible; row 1 vendido; row 3 reservado; row 2 disponible].

(** One cancelled purchase, of customer c1. *)
Definition small_db : Database :=
  {| purchases :=
       [{| p_id := "p1"; p_customer_id := "c1"; p_status := cancelada;
           p_verified_at := None; p_verified_by := None;
           p_notes := None |}];
     tickets := small_table |}.

End PurchaseScenario.

(* ===================================================================== *)
(** ** The purchase modal: price, ticket input, form check, countdown     *)
(* ===================================================================== *)

Module PurchaseModal.
Import MasterCounters.

(** [getDiscount], for the [hasDiscount] prop and the [tickets] state. *)
Definition getDiscount (hasDiscount : bool) (tickets : Z) : Z :=
  if negb hasDiscount then 0
  else if 100 <=? tickets then 35
  else if 50 <=? tickets then 30
  else if 25 <=? tickets then 25
  else if 10 <=? tickets then 20
  else if 5 <=? tickets then 10
  else 0.

(** [calculatePrice], for a whole number of tickets that is not negative;
    the discounted products are taken on doubles, as the engine takes
    them. *)
#[warnings="-inexact-float"] Definition calculatePrice (hasDiscount : bool) (tickets : Z) : Z :=
  if negb hasDiscount then tickets * 10
  else if 100 <=? tickets
  then JS.Math_floor (double_of_Z tickets * 10 * 0.65)%float
  else if 50 <=? tickets
  then JS.Math_floor (double_of_Z tickets * 10 * 0.70)%float
  else if 25 <=? tickets
  then JS.Math_floor (double_of_Z tickets * 10 * 0.75)%float
  else if 10 <=? tickets
  then JS.Math_floor (double_of_Z tickets * 10 * 0.80)%float
  else if 5 <=? tickets
  then JS.Math_floor (double_of_Z tickets * 10 * 0.90)%float
  else tickets * 10.

(** What the customer types into the name, telephone and e-mail inputs:
    any text, held as the engine holds it, a sequence of UTF-16 code
    units. *)
Definition Text : Type := list Z.

(** The state of the modal that the handlers below read and write.
    [errors] is the object of messages by key, in insertion order. *)
Record ModalState : Type := mkModalState {
  tickets : Z;
  customTickets : string;
  selectedPayment : string;
  nombre : Text;
  telefono : Text;
  email : Text;
  acceptedTerms : bool;
  errors : list (string * string)
}.

(** [{ ...errors, [key]: value }] *)
Fixpoint set_key (key value : string) (obj : list (string * string))
  : list (string * string) :=
  match obj with
  | [] => [(key, value)]
  | (k, v) :: obj' =>
      if String.eqb k key then (k, value) :: obj'
      else (k, v) :: set_key key value obj'
  end.

(** [obj[key]], [None] for [undefined]. *)
Fixpoint get_key (key : string) (obj : list (string * string))
  : option string :=
  match obj with
  | [] => None
  | (k, v) :: obj' => if String.eqb k key then Some v else get_key key obj'
  end.

(** [handleTicketSelect] *)
Definition handleTicketSelect (amount : Z) (s : ModalState) : ModalState :=
  {| tickets := amount;
     customTickets := "";
     selectedPayment := selectedPayment s;
     nombre := nombre s; telefono := telefono s; email := email s;
     acceptedTerms := acceptedTerms s;
     errors := set_key "tickets" "" (errors s) |}.

(** [handleCustomTickets] *)
Definition handleCustomTickets (value : string) (s : ModalState)
  : ModalState :=
  let num := JS.parseInt value in
  if String.eqb value ""
     || match num with
        | Some n => (2 <=? n) && (n <=? 10000)
        | None => false
        end
  then
    {| tickets :=
         match num with
         | Some n => if n =? 0 then tickets s else n
         | None => tickets s
         end;
       customTickets := value;
       selectedPayment := selectedPayment s;
       nombre := nombre s; telefono := telefono s; email := email s;
       acceptedTerms := acceptedTerms s;
       errors := set_key "tickets" "" (errors s) |}
  else
    {| tickets := tickets s;
       customTickets := customTickets s;
       selectedPayment := selectedPayment s;
       nombre := nombre s; telefono := telefono s; email := email s;
       acceptedTerms := acceptedTerms s;
       errors :=
         set_key "tickets" "Mínimo 2 boletos, máximo 10,000" (errors s) |}.

(** The code units that [trim] strips: the white space of the language,
    which is TAB, VT, FF, the byte order mark U+FEFF and the space
    separators U+0020, U+00A0, U+1680, U+2000 to U+200A, U+202F, U+205F
    and U+3000, and its line terminators LF, CR, U+2028 and U+2029.  All
    of them are single code units. *)
Definition is_blank (c : Z) : bool :=
  ((9 <=? c) && (c <=? 13)) || (c =? 32) || (c =? 160) || (c =? 5760)
  || ((8192 <=? c) && (c <=? 8202)) || (c =? 8232) || (c =? 8233)
  || (c =? 8239) || (c =? 8287) || (c =? 12288) || (c =? 65279).

Fixpoint trimStart (s : Text) : Text :=
  match s with
  | [] => []
  | c :: s' => if is_blank c then trimStart s' else s
  end.

Fixpoint trimEnd (s : Text) : Text :=
  match s with
  | [] => []
  | c :: s' =>
      match trimEnd s' with
      | [] => if is_blank c then [] else [c]
      | r => c :: r
      end
  end.

(** [s.trim()] *)
Definition trim (s : Text) : Text := trimEnd (trimStart s).

(** Truthiness of a string: it is not empty. *)
Definition truthy (s : string) : bool := negb (String.eqb s "").

Definition truthy_text (s : Text) : bool :=
  match s with [] => false | _ :: _ => true end.

(** [validateForm]: the state with the new [errors], and the result. *)
Definition validateForm (s : ModalState) : ModalState * bool :=
  let newErrors := [] in
  let newErrors :=
    if tickets s <? 2
    then set_key "tickets" "Mínimo 2 boletos" newErrors else newErrors in
  let newErrors :=
    if negb (truthy (selectedPayment s))
    then set_key "payment" "Selecciona un método de pago" newErrors
    else newErrors in
  let newErrors :=
    if negb (truthy_text (trim (nombre s)))
    then set_key "nombre" "Ingresa tu nombre" newErrors else newErrors in
  let newErrors :=
    if negb (truthy_text (trim (telefono s)))
       && negb (truthy_text (trim (email s)))
    then set_key "contacto" "Ingresa tu teléfono o email" newErrors
    else newErrors in
  let newErrors :=
    if negb (acceptedTerms s)
    then set_key "terms" "Debes aceptar los términos y condiciones" newErrors
    else newErrors in
  ({| tickets := tickets s; customTickets := customTickets s;
      selectedPayment := selectedPayment s;
      nombre := nombre s; telefono := telefono s; email := email s;
      acceptedTerms := acceptedTerms s;
      errors := newErrors |},
   (Z.of_nat (length newErrors) =? 0)).

(** The progress percentage that the save effect computes. *)
Definition progress (s : ModalState) : Z :=
  let completedSteps := 0 in
  let completedSteps :=
    if 2 <=? tickets s then completedSteps + 40 else completedSteps in
  let completedSteps :=
    if truthy (selectedPayment s) then completedSteps + 30
    else completedSteps in
  let completedSteps :=
    if truthy_text (nombre s) then completedSteps + 20
    else completedSteps in
  let completedSteps :=
    if truthy_text (telefono s) || truthy_text (email s)
    then completedSteps + 10
    else completedSteps in
  Z.min completedSteps 100.

(** The countdown.  [cleared] says that [clearInterval(timer)] has run,
    [closes] counts the calls of [onClose]. *)
Record Countdown : Type := mkCountdown {
  timeLeft : Z;
  cleared : bool;
  closes : Z
}.

(** [useState(15 * 60)] *)
Definition countdown_open : Countdown :=
  {| timeLeft := 15 * 60; cleared := false; closes := 0 |}.

(** One firing of the interval, which runs the updater of [setTimeLeft]
    unless the interval was cleared. *)
Definition fire (c : Countdown) : Countdown :=
  if cleared c then c
  else if timeLeft c <=? 1
  then {| timeLeft := 0; cleared := true; closes := closes c + 1 |}
  else {| timeLeft := timeLeft c - 1; cleared := false; closes := closes c |}.

(** [formatTime], for a whole number of seconds. *)
Definition formatTime (seconds : Z) : string :=
  let mins := seconds / 60 in
  let secs := Z.rem seconds 60 in
  (JS.padStart0 2 (JS.String_of mins) ++ ":"
   ++ JS.padStart0 2 (JS.String_of secs))%string.

End PurchaseModal.

(* ===================================================================== *)
(** ** Facts about the built-ins                                         *)
(* ===================================================================== *)

Module JSFacts.
Import JS.

Lemma elem_of_List_filter {A : Type} (f : A -> bool) (l : list A) (x : A) :
  x ∈ List.filter f l <-> x ∈ l /\ f x = true.
Proof. rewrite !list_elem_of_In. apply filter_In. Qed.

Lemma NoDup_List_filter {A : Type} (f : A -> bool) (l : list A) :
  NoDup l -> NoDup (List.filter f l).
Proof. rewrite !NoDup_ListNoDup. apply List.NoDup_filter. Qed.

Lemma List_filter_idemp {A : Type} (f : A -> bool) (l : list A) :
  List.filter f (List.filter f l) = List.filter f l.
Proof.
  induction l as [|x l IH]; [reflexivity|]. simpl.
  destruct (f x) eqn:E; simpl; [rewrite E|]; now rewrite IH.
Qed.

Lemma includes_spec (arr : list Z) (x : Z) :
  includes arr x = true <-> x ∈ arr.
Proof.
  unfold includes. rewrite existsb_exists, list_elem_of_In. split.
  - intros (y & Hy & E). apply Z.eqb_eq in E. now subst.
  - intros H. exists x. split; [assumption | apply Z.eqb_refl].
Qed.

Lemma includes_false (arr : list Z) (x : Z) :
  includes arr x = false <-> x ∉ arr.
Proof.
  rewrite <- includes_spec. destruct (includes arr x); split; congruence.
Qed.

Lemma Array_from_at_seqZ {A : Type} (f : Z -> A) (len : nat) (i : Z) :
  Array_from_at len i f = f <$> seqZ i (Z.of_nat len).
Proof.
  revert i. induction len as [|len IH]; intros i; [reflexivity|].
  rewrite seqZ_cons by lia. cbn [Array_from_at fmap list_fmap].
  rewrite IH. do 3 f_equal. lia.
Qed.

(** [Array.from({ length: n }, (_, i) => i + 1)] is the range 1..n. *)
Lemma Array_from_succ (n : Z) :
  Array_from n (fun i => i + 1) = seqZ 1 n.
Proof.
  unfold Array_from. rewrite Array_from_at_seqZ.
  destruct (Z.le_gt_cases 0 n) as [Hn|Hn].
  - rewrite Z2Nat.id by assumption.
    change (seqZ 1 n) with (seqZ (1 + 0) n).
    rewrite <- fmap_add_seqZ. apply list_fmap_ext. intros; lia.
  - replace (Z.to_nat n) with O by lia.
    now rewrite !seqZ_nil by lia.
Qed.

Lemma sort_ascending_Permutation (arr : list Z) :
  sort_ascending arr ≡ₚ arr.
Proof. apply merge_sort_Permutation. Qed.

Lemma sort_ascending_sorted (arr : list Z) :
  StronglySorted Z.le (sort_ascending arr).
Proof. apply StronglySorted_merge_sort; apply _. Qed.

(** A prefix cut with a non-negative end has that many elements, or all
    of them when the array is shorter. *)
Lemma slice_0_take {A : Type} (end_ : Z) (arr : list A) :
  0 <= end_ -> slice 0 end_ arr = take (Z.to_nat end_) arr.
Proof.
  intros H. unfold slice, slice_index. cbv zeta.
  rewrite (proj2 (Z.ltb_ge 0 0)) by lia.
  rewrite (proj2 (Z.ltb_ge end_ 0)) by lia.
  rewrite (Z.min_l 0) by lia. change (Z.to_nat 0) with O. rewrite drop_0, Z.sub_0_r.
  destruct (Z.le_gt_cases end_ (Z.of_nat (length arr))).
  - now rewrite (Z.min_l end_) by lia.
  - rewrite Z.min_r by lia. rewrite Nat2Z.id.
    rewrite (take_ge arr (length arr)) by lia.
    now rewrite (take_ge arr (Z.to_nat end_)) by lia.
Qed.

Lemma slice_0_length {A : Type} (end_ : Z) (arr : list A) :
  0 <= end_ <= Z.of_nat (length arr) ->
  Z.of_nat (length (slice 0 end_ arr)) = end_.
Proof.
  intros H. rewrite slice_0_take by lia. rewrite length_take. lia.
Qed.

(** A prefix cut with a negative end drops that many elements from the
    end. *)
Lemma slice_0_neg {A : Type} (end_ : Z) (arr : list A) :
  end_ < 0 ->
  slice 0 end_ arr = take (Z.to_nat (Z.of_nat (length arr) + end_)) arr.
Proof.
  intros H. unfold slice, slice_index. cbv zeta.
  rewrite (proj2 (Z.ltb_ge 0 0)) by lia.
  rewrite (proj2 (Z.ltb_lt end_ 0)) by lia.
  rewrite (Z.min_l 0) by lia. change (Z.to_nat 0) with O.
  rewrite drop_0, Z.sub_0_r. f_equal. lia.
Qed.

Lemma slice_0_length_any {A : Type} (end_ : Z) (arr : list A) :
  end_ <= Z.of_nat (length arr) ->
  Z.of_nat (length (slice 0 end_ arr))
  = (if 0 <=? end_ then end_ else Z.max 0 (Z.of_nat (length arr) + end_)).
Proof.
  intros H. destruct (Z.leb_spec 0 end_) as [L|L].
  - apply slice_0_length. lia.
  - rewrite slice_0_neg, length_take by lia. lia.
Qed.

Lemma slice_0_sublist {A : Type} (end_ : Z) (arr : list A) :
  slice 0 end_ arr `sublist_of` arr.
Proof.
  unfold slice, slice_index. cbv zeta.
  rewrite (proj2 (Z.ltb_ge 0 0)) by lia.
  rewrite (Z.min_l 0) by lia. change (Z.to_nat 0) with O. rewrite drop_0. apply sublist_take.
Qed.

End JSFacts.

Module MasterCountersFacts.
Import MasterCounters.

(** The rational threshold test is the integer test [1800 <= sold]. *)
Lemma threshold_test_iff (sold : Z) :
  Qle_bool (inject_Z FOMO_THRESHOLD) (realPercentage sold) = true
  <-> 1800 <= sold.
Proof.
  rewrite Qle_bool_iff. unfold realPercentage, Qle, Qmult, Qdiv, Qinv,
    inject_Z, FOMO_THRESHOLD, TOTAL_TICKETS. simpl. lia.
Qed.

(** On every count from 0 to twice the pool size, the double-precision
    test takes the same branch as the rational one. *)
Lemma threshold_test_double_agrees :
  forallb (fun n => Bool.eqb (threshold_test_double n)
                      (Qle_bool (inject_Z FOMO_THRESHOLD) (realPercentage n)))
          (JS.Array_from 20001 (fun i => i)) = true.
Proof. vm_compute. reflexivity. Qed.

End MasterCountersFacts.



(* ===================================================================== *)
(** ** The real layer: lists of the store and the master counters         *)
(* ===================================================================== *)

Module StoreFacts.
Import JS JSFacts RaffleStore.

Lemma availableTickets_update (s : RaffleState) :
  availableTickets (_updateAvailableTickets s) =
  List.filter
    (fun num => negb (includes (soldTickets s ++ reservedTickets s) num))
    (seqZ 1 TOTAL_TICKETS).
Proof.
  unfold _updateAvailableTickets. cbn [availableTickets].
  now rewrite Array_from_succ.
Qed.

Lemma _updateAvailableTickets_idemp (s : RaffleState) :
  _updateAvailableTickets (_updateAvailableTickets s)
  = _updateAvailableTickets s.
Proof.
  destruct s. unfold _updateAvailableTickets.
  cbn [tickets selectedTickets soldTickets reservedTickets errors].
  reflexivity.
Qed.

Lemma elem_of_available (s : RaffleState) (n : Z) :
  n ∈ availableTickets (_updateAvailableTickets s) <->
  (1 <= n <= TOTAL_TICKETS)
  /\ (n ∉ soldTickets s) /\ (n ∉ reservedTickets s).
Proof.
  rewrite availableTickets_update, elem_of_List_filter, elem_of_seqZ.
  rewrite negb_true_iff, includes_false, not_elem_of_app.
  unfold TOTAL_TICKETS. intuition lia.
Qed.

Lemma NoDup_available (s : RaffleState) :
  NoDup (availableTickets (_updateAvailableTickets s)).
Proof.
  rewrite availableTickets_update. apply NoDup_List_filter, NoDup_seqZ.
Qed.

Lemma free_plus_occupied (n : Z) (U : list Z) :
  0 <= n ->
  Z.of_nat (length (List.filter (fun x => negb (includes U x)) (seqZ 1 n)))
  + Z.of_nat (length (occupied n U)) = n.
Proof.
  intros Hn. unfold occupied.
  pose proof (filter_length (includes U) (seqZ 1 n)) as H.
  rewrite length_seqZ in H. lia.
Qed.

Lemma occupied_submseteq (n : Z) (U : list Z) : occupied n U ⊆+ U.
Proof.
  apply NoDup_submseteq.
  - apply NoDup_List_filter, NoDup_seqZ.
  - intros x Hx. apply elem_of_List_filter in Hx as [_ Hx].
    now apply includes_spec.
Qed.

Lemma occupied_length_le (n : Z) (U : list Z) :
  (length (occupied n U) <= length U)%nat.
Proof. apply submseteq_length, occupied_submseteq. Qed.

(** The occupied numbers are as many as the entries of [U] exactly when
    [U] repeats nothing and stays inside the range. *)
Lemma occupied_length_eq_iff (n : Z) (U : list Z) :
  length (occupied n U) = length U <->
  NoDup U /\ Forall (fun x => 1 <= x <= n) U.
Proof.
  split.
  - intros Hlen.
    assert (occupied n U ≡ₚ U) as HP.
    { apply submseteq_length_Permutation; [apply occupied_submseteq | lia]. }
    split.
    + rewrite <- HP. apply NoDup_List_filter, NoDup_seqZ.
    + rewrite <- HP. apply Forall_forall. intros x Hx.
      apply elem_of_List_filter in Hx as [Hx _].
      apply elem_of_seqZ in Hx. lia.
  - intros [Hnd Hin]. apply Permutation_length.
    apply NoDup_Permutation; [apply NoDup_List_filter, NoDup_seqZ | assumption |].
    intros x. unfold occupied.
    rewrite elem_of_List_filter, includes_spec, elem_of_seqZ.
    rewrite Forall_forall in Hin. split; [tauto|].
    intros Hx. specialize (Hin x Hx). split; [lia | assumption].
Qed.

(** The lengths of the three lists after a recompute, in closed form. *)
Lemma store_counts_sum (s : RaffleState) :
  let s' := _updateAvailableTickets s in
  soldTickets_length s' + reservedTickets_length s'
  + availableTickets_length s'
  = TOTAL_TICKETS
    + (Z.of_nat (length (soldTickets s ++ reservedTickets s))
       - Z.of_nat (length
           (occupied TOTAL_TICKETS (soldTickets s ++ reservedTickets s)))).
Proof.
  cbv zeta. unfold availableTickets_length. rewrite availableTickets_update.
  pose proof (free_plus_occupied TOTAL_TICKETS
                (soldTickets s ++ reservedTickets s)) as H.
  unfold soldTickets_length, reservedTickets_length.
  cbn [_updateAvailableTickets soldTickets reservedTickets].
  rewrite length_app. unfold TOTAL_TICKETS in *. lia.
Qed.

(** The three lengths add up to the pool size exactly when the sold and
    reserved lists together repeat nothing and stay inside 1..10000. *)
Lemma store_counts_invariant_iff (s : RaffleState) :
  let s' := _updateAvailableTickets s in
  soldTickets_length s' + reservedTickets_length s'
  + availableTickets_length s' = TOTAL_TICKETS
  <-> NoDup (soldTickets s ++ reservedTickets s)
      /\ Forall (fun n => 1 <= n <= TOTAL_TICKETS)
                (soldTickets s ++ reservedTickets s).
Proof.
  intros s'. subst s'. rewrite store_counts_sum.
  rewrite <- occupied_length_eq_iff.
  pose proof (occupied_length_le TOTAL_TICKETS
                (soldTickets s ++ reservedTickets s)).
  lia.
Qed.

(** In every reachable state the cached available list repeats no
    number: it is empty at first, and only recomputes write it. *)
Lemma reachable_available_NoDup (s : RaffleState) :
  reachable s -> NoDup (availableTickets s).
Proof.
  induction 1 as [| ps pr s _ IH | s _ _ | tks s _ _ | tks s _ _
                  | count random_sort s _ IH _ | fmt nums cid now ids s _ IH
                  | fmt nums cid now ids s _ IH | nums s _ IH].
  - apply NoDup_nil_2.
  - exact IH.
  - apply NoDup_available.
  - unfold setSoldTicketsFromDB. apply NoDup_available.
  - unfold setReservedTicketsFromDB. apply NoDup_available.
  - unfold quickSelect. now destruct (_ <? _).
  - exact IH.
  - exact IH.
  - exact IH.
Qed.

End StoreFacts.




(* ===================================================================== *)
(** ** The ticket array under [forEach]/[findIndex] updates              *)
(* ===================================================================== *)

Module TicketFacts.
Import JS JSFacts RaffleStore.

Lemma upsertTicket_nil (t : Ticket) : upsertTicket [] t = [t].
Proof. reflexivity. Qed.

Lemma upsertTicket_cons (x : Ticket) (ts : list Ticket) (t : Ticket) :
  upsertTicket (x :: ts) t =
  if String.eqb (number x) (number t) then t :: ts
  else x :: upsertTicket ts t.
Proof.
  unfold upsertTicket. cbn [findIndex].
  destruct (String.eqb (number x) (number t)); [reflexivity|].
  destruct (findIndex _ ts); reflexivity.
Qed.

Lemma status_of_cons (k : string) (x : Ticket) (ts : list Ticket) :
  status_of k (x :: ts) =
  if String.eqb (number x) k then Some (status x) else status_of k ts.
Proof.
  unfold status_of. cbn [List.find].
  now destruct (String.eqb (number x) k).
Qed.

(** After the update the number of the new ticket shows its status. *)
Lemma status_of_upsert_same (ts : list Ticket) (t : Ticket) :
  status_of (number t) (upsertTicket ts t) = Some (status t).
Proof.
  induction ts as [|x ts IH].
  - rewrite upsertTicket_nil, status_of_cons. now rewrite String.eqb_refl.
  - rewrite upsertTicket_cons.
    destruct (String.eqb (number x) (number t)) eqn:E.
    + rewrite status_of_cons. now rewrite String.eqb_refl.
    + rewrite status_of_cons, E. exact IH.
Qed.

(** Other numbers show what they showed before. *)
Lemma status_of_upsert_other (ts : list Ticket) (t : Ticket) (k : string) :
  k <> number t -> status_of k (upsertTicket ts t) = status_of k ts.
Proof.
  intros Hk. assert (String.eqb (number t) k = false) as Ht.
  { apply String.eqb_neq. congruence. }
  induction ts as [|x ts IH].
  - rewrite upsertTicket_nil, status_of_cons, Ht. reflexivity.
  - rewrite upsertTicket_cons.
    destruct (String.eqb (number x) (number t)) eqn:E.
    + apply String.eqb_eq in E. rewrite !status_of_cons, E, Ht. reflexivity.
    + rewrite !status_of_cons. destruct (String.eqb (number x) k); [reflexivity|].
      exact IH.
Qed.

(** Writing a ticket whose number already shows the same status leaves
    the numbers and statuses of the array as they were. *)
Lemma ticketStatuses_upsert_same (ts : list Ticket) (t : Ticket) :
  status_of (number t) ts = Some (status t) ->
  ticketStatuses (upsertTicket ts t) = ticketStatuses ts.
Proof.
  induction ts as [|x ts IH]; intros H.
  - discriminate.
  - rewrite upsertTicket_cons. rewrite status_of_cons in H.
    destruct (String.eqb (number x) (number t)) eqn:E.
    + apply String.eqb_eq in E. injection H as H.
      unfold ticketStatuses. cbn [map]. now rewrite E, H.
    + unfold ticketStatuses in *. cbn [map]. now rewrite IH.
Qed.

Lemma status_of_ticketStatuses (k : string) (ts ts' : list Ticket) :
  ticketStatuses ts = ticketStatuses ts' -> status_of k ts = status_of k ts'.
Proof.
  revert ts'. induction ts as [|x ts IH]; intros [|x' ts'] H;
    try discriminate; [reflexivity|].
  unfold ticketStatuses in H. cbn [map] in H. injection H as Hn Hs Hrest.
  rewrite !status_of_cons, Hn, Hs. now rewrite (IH ts').
Qed.

(** A batch of new tickets that all carry status [st]: afterwards each of
    their numbers shows [st]. *)
Lemma status_of_foldl_upsert (st : TicketStatus) (objs ts : list Ticket) (k : string) :
  Forall (fun t => status t = st) objs ->
  k ∈ number <$> objs ->
  status_of k (foldl upsertTicket ts objs) = Some st.
Proof.
  induction objs as [|t objs IH] using rev_ind; intros Hst Hk.
  - inversion Hk.
  - apply Forall_app in Hst as [Hst Ht]. apply Forall_inv in Ht.
    rewrite foldl_snoc.
    destruct (decide (k = number t)) as [->|Hne].
    + rewrite status_of_upsert_same. f_equal. exact Ht.
    + rewrite status_of_upsert_other by assumption.
      apply IH; [assumption|].
      rewrite fmap_app in Hk. apply elem_of_app in Hk as [Hk|Hk]; [assumption|].
      apply list_elem_of_singleton in Hk. contradiction.
Qed.

(** A batch written over numbers that already show [st] changes no number
    and no status. *)
Lemma ticketStatuses_foldl_upsert (st : TicketStatus) (objs ts : list Ticket) :
  Forall (fun t => status t = st) objs ->
  (forall k, k ∈ number <$> objs -> status_of k ts = Some st) ->
  ticketStatuses (foldl upsertTicket ts objs) = ticketStatuses ts.
Proof.
  revert ts. induction objs as [|t objs IH]; intros ts Hst Hk; [reflexivity|].
  apply Forall_cons in Hst as [Ht Hst]. cbn [foldl].
  assert (ticketStatuses (upsertTicket ts t) = ticketStatuses ts) as Hsame.
  { apply ticketStatuses_upsert_same. cbn beta in Ht. rewrite Ht. apply Hk.
    cbn. apply list_elem_of_here. }
  rewrite IH; [exact Hsame | exact Hst |].
  intros k Hin. rewrite (status_of_ticketStatuses k _ _ Hsame).
  apply Hk. cbn. now apply list_elem_of_further.
Qed.

Section Objects.
Variable formatTicketNumber : Z -> string.

Lemma reservedTicketObjects_numbers nums cid now ids :
  number <$> reservedTicketObjects formatTicketNumber nums cid now ids
  = formatTicketNumber <$> nums.
Proof.
  unfold reservedTicketObjects. rewrite fmap_imap. apply imap_const.
Qed.

Lemma reservedTicketObjects_status nums cid now ids :
  Forall (fun t => status t = reserved)
         (reservedTicketObjects formatTicketNumber nums cid now ids).
Proof.
  apply Forall_forall. intros t Ht.
  apply elem_of_lookup_imap in Ht as (i & n & -> & _). reflexivity.
Qed.

Lemma soldTicketObjects_numbers nums cid now ids :
  number <$> soldTicketObjects formatTicketNumber nums cid now ids
  = formatTicketNumber <$> nums.
Proof.
  unfold soldTicketObjects. rewrite fmap_imap. apply imap_const.
Qed.

Lemma soldTicketObjects_status nums cid now ids :
  Forall (fun t => status t = sold)
         (soldTicketObjects formatTicketNumber nums cid now ids).
Proof.
  apply Forall_forall. intros t Ht.
  apply elem_of_lookup_imap in Ht as (i & n & -> & _). reflexivity.
Qed.

End Objects.

Lemma releaseTicket_idemp (nums : list Z) (t : Ticket) :
  releaseTicket nums (releaseTicket nums t) = releaseTicket nums t.
Proof.
  unfold releaseTicket at 2.
  destruct (_ && _) eqn:E.
  - unfold releaseTicket. cbn [number status TicketStatus_eqb].
    now rewrite E, andb_false_r.
  - unfold releaseTicket. now rewrite E.
Qed.

End TicketFacts.

(* ===================================================================== *)
(** ** The number lists read from the tickets table                      *)
(* ===================================================================== *)

Module SyncFacts.
Import JS JSFacts MasterCounters RaffleStore StoreFacts SupabaseSync.

Lemma List_filter_filter_implied {A : Type} (p q : A -> bool) (l : list A) :
  (forall x, p x = true -> q x = true) ->
  List.filter p (List.filter q l) = List.filter p l.
Proof.
  intros Himp. induction l as [|x l IH]; [reflexivity|]. cbn [List.filter].
  destruct (q x) eqn:Eq.
  - cbn [List.filter]. destruct (p x); now rewrite IH.
  - destruct (p x) eqn:Ep; [|exact IH].
    apply Himp in Ep. congruence.
Qed.

(** What [syncStoreFromTable] writes: the numbers of the sold rows and
    the numbers of the reserved rows, followed by a recompute. *)
Lemma syncStoreFromTable_lists (table : list DbTicket) (s : RaffleState) :
  exists s0 : RaffleState,
    syncStoreFromTable table s = _updateAvailableTickets s0
    /\ soldTickets s0 =
         map db_number
             (List.filter (fun t => DbStatus_eqb (db_status t) vendido) table)
    /\ reservedTickets s0 =
         map db_number
             (List.filter (fun t => DbStatus_eqb (db_status t) reservado)
                          table).
Proof.
  unfold syncStoreFromTable.
  rewrite !List_filter_filter_implied
    by (intros x Hx; rewrite Hx; auto using orb_true_r).
  unfold setReservedTicketsFromDB at 1. eexists. split; [reflexivity|].
  cbn [soldTickets reservedTickets setSoldTicketsFromDB
       _updateAvailableTickets]. split; reflexivity.
Qed.

Lemma numbers_of_filter (p : DbTicket -> bool) (table : list DbTicket) (n : Z) :
  n ∈ map db_number (List.filter p table) -> n ∈ map db_number table.
Proof.
  change (n ∈ db_number <$> List.filter p table -> n ∈ db_number <$> table).
  rewrite !list_elem_of_fmap. intros (row & -> & Hrow).
  apply elem_of_List_filter in Hrow as [Hrow _]. now exists row.
Qed.

(** Rows with distinct numbers give sold and reserved lists that share
    nothing and repeat nothing. *)
Lemma table_lists_NoDup (table : list DbTicket) :
  NoDup (map db_number table) ->
  NoDup (map db_number
           (List.filter (fun t => DbStatus_eqb (db_status t) vendido) table)
         ++ map db_number
              (List.filter (fun t => DbStatus_eqb (db_status t) reservado)
                           table)).
Proof.
  induction table as [|row table IH]; intros Hnd; [apply NoDup_nil_2|].
  cbn [map] in Hnd. apply NoDup_cons in Hnd as [Hfresh Hnd].
  specialize (IH Hnd). cbn [List.filter].
  assert (forall p q,
            db_number row ∉
              map db_number (List.filter p table)
              ++ map db_number (List.filter q table)) as Hout.
  { intros p q Hin. apply elem_of_app in Hin as [Hin|Hin];
      apply numbers_of_filter in Hin; contradiction. }
  destruct (db_status row); cbn [DbStatus_eqb map].
  - exact IH.
  - rewrite <- Permutation_middle. apply NoDup_cons. split; [apply Hout | exact IH].
  - cbn [app]. apply NoDup_cons. split; [apply Hout | exact IH].
Qed.

Lemma table_lists_range (table : list DbTicket) :
  Forall (fun row => 1 <= db_number row <= TOTAL_TICKETS) table ->
  Forall (fun n => 1 <= n <= TOTAL_TICKETS)
    (map db_number
       (List.filter (fun t => DbStatus_eqb (db_status t) vendido) table)
     ++ map db_number
          (List.filter (fun t => DbStatus_eqb (db_status t) reservado)
                       table)).
Proof.
  intros Hall. rewrite Forall_forall in Hall.
  apply Forall_forall. intros n Hn.
  assert (n ∈ map db_number table) as Hin.
  { apply elem_of_app in Hn as [Hn|Hn]; now apply numbers_of_filter in Hn. }
  change (n ∈ db_number <$> table) in Hin.
  apply list_elem_of_fmap in Hin as (row & -> & Hrow). now apply Hall.
Qed.

End SyncFacts.

(* ===================================================================== *)
(** ** The scarcity overlay and the display layer                        *)
(* ===================================================================== *)

Section Overlay.
Import MasterCounters MasterCountersFacts.

(** C6 -- overlay activation rule.  When the real sold percentage is at or
    above the threshold of 18, [calculateFOMO] switches the overlay off and
    shows the real count; when it is below, the overlay is on and the shown
    count is the real count plus the fixed 1200. *)
Theorem overlay_activation_rule (sold : Z) :
  ((inject_Z FOMO_THRESHOLD <= realPercentage sold)%Q ->
   calculateFOMO sold =
     {| fomoCount := 0; displaySoldCount := sold; isActive := false |})
  /\
  ((realPercentage sold < inject_Z FOMO_THRESHOLD)%Q ->
   calculateFOMO sold =
     {| fomoCount := 1200; displaySoldCount := sold + 1200;
        isActive := true |}).
Proof.
  unfold calculateFOMO. split; intros H.
  - apply Qle_bool_iff in H. now rewrite H.
  - destruct (Qle_bool _ _) eqn:E; [|reflexivity].
    apply Qle_bool_iff in E. exfalso. now apply (Qlt_not_le _ _ H).
Qed.

Lemma overlay_activation_rule_witness :
  calculateFOMO 1800 =
    {| fomoCount := 0; displaySoldCount := 1800; isActive := false |}
  /\ calculateFOMO 1799 =
    {| fomoCount := 1200; displaySoldCount := 1799 + 1200; isActive := true |}.
Proof.
  split.
  - apply (proj1 (overlay_activation_rule 1800)). vm_compute. discriminate.
  - apply (proj2 (overlay_activation_rule 1799)). vm_compute. reflexivity.
Defined.

(** Whatever is published carries the constant pool size as its total. *)
Lemma published_total (data : MasterCounterData) :
  published data -> totalTickets data = TOTAL_TICKETS.
Proof.
  intros [now | query thrown now]; [reflexivity|].
  unfold updateMasterCounters. destruct thrown; [reflexivity|].
  now destruct (fetchRealData query).
Qed.

(** C5 -- display-layer closed form.  For every snapshot handed to the
    observers, [useBasicCounters] and [useDisplayStats] show as sold the
    display count of the snapshot, as reserved its real reserved count,
    as total 10000, and as available
    10000 - displaySold - reserved, computed from these and not read from
    the snapshot; so displaySold + displayAvailable + reserved equals the
    total, which is 10000. *)
Theorem display_layer_invariant (data : MasterCounterData) :
  published data ->
  let b := useBasicCounters data in
  let d := useDisplayStats data in
  bc_availableTickets b = totalTickets data - bc_soldTickets b - reservedTickets data
  /\ bc_soldTickets b + bc_availableTickets b + reservedTickets data = totalTickets data
  /\ ds_availableCount d = ds_totalCount d - ds_soldCount d - ds_reservedCount d
  /\ ds_soldCount d + ds_availableCount d + ds_reservedCount d = ds_totalCount d
  /\ totalTickets data = 10000
  /\ bc_soldTickets b = fomoSoldTickets data
  /\ bc_totalTickets b = 10000
  /\ bc_availableTickets b
     = 10000 - fomoSoldTickets data - reservedTickets data
  /\ ds_soldCount d = fomoSoldTickets data
  /\ ds_reservedCount d = reservedTickets data
  /\ ds_totalCount d = 10000
  /\ ds_availableCount d
     = 10000 - fomoSoldTickets data - reservedTickets data
  /\ fomoSoldTickets data + ds_availableCount d + reservedTickets data
     = 10000.
Proof.
  intros Hp. pose proof (published_total data Hp) as Ht.
  cbn [useBasicCounters useDisplayStats bc_availableTickets bc_soldTickets
       bc_totalTickets
       ds_availableCount ds_totalCount ds_soldCount ds_reservedCount].
  rewrite Ht. unfold TOTAL_TICKETS. repeat split; lia.
Qed.

(** A snapshot with one ticket sold and one reserved: both hooks show
    1201 sold, 1 reserved and 8798 available, 10000 in all. *)
Lemma display_layer_invariant_witness :
  let data := updateMasterCounters (Some [vendido; reservado; disponible]) false 0 in
  let b := useBasicCounters data in
  let d := useDisplayStats data in
  bc_soldTickets b = 1201 /\ bc_availableTickets b = 8798
  /\ ds_soldCount d = 1201 /\ ds_availableCount d = 8798
  /\ ds_reservedCount d = 1 /\ ds_totalCount d = 10000
  /\ ds_soldCount d + ds_availableCount d + ds_reservedCount d = 10000.
Proof.
  destruct (display_layer_invariant
              (updateMasterCounters (Some [vendido; reservado; disponible])
                 false 0) (published_update _ _ _))
    as (_ & _ & _ & Hsum & _ & Hbs & _ & Hba & Hds & Hdr & Hdt & Hda & _).
  intros data b d. subst b d data.
  split; [rewrite Hbs; reflexivity|]. split; [rewrite Hba; reflexivity|].
  split; [rewrite Hds; reflexivity|]. split; [rewrite Hda; reflexivity|].
  split; [rewrite Hdr; reflexivity|]. split; [exact Hdt|].
  rewrite Hsum. exact Hdt.
Defined.

End Overlay.

Section OverlayClamp.
Import MasterCounters MasterCountersFacts.

(** C1, as stated, fails: with nothing sold and 9000 tickets reserved the
    overlay is on, the shown sold count is the unclamped 1200, and the
    shown available count is -200. *)
Lemma overlay_clamp_counterexample :
  0 + 9000 <= TOTAL_TICKETS
  /\ bc_soldTickets (useBasicCounters (newData 0 9000 0)) = 0 + 1200
  /\ bc_availableTickets (useBasicCounters (newData 0 9000 0)) = -200
  /\ ~ 0 <= bc_availableTickets (useBasicCounters (newData 0 9000 0)).
Proof. vm_compute. repeat split; try discriminate. intros H; now apply H. Qed.

(** C1, as amended -- the overlay adds without clamping.  For real counts
    with sold + reserved <= total, the shown sold count is the real one
    when sold >= 1800 and the real one plus 1200 otherwise, and the shown
    available count total - displaySold - reserved is non-negative exactly
    when the overlay is off or sold + 1200 + reserved <= total. *)
Theorem overlay_available_sign (sold reserved now : Z) :
  0 <= sold -> 0 <= reserved -> sold + reserved <= TOTAL_TICKETS ->
  let b := useBasicCounters (newData sold reserved now) in
  bc_soldTickets b = (if 1800 <=? sold then sold else sold + FOMO_BASE_FIXED)
  /\ bc_availableTickets b = TOTAL_TICKETS - bc_soldTickets b - reserved
  /\ (0 <= bc_availableTickets b
      <-> 1800 <= sold \/ sold + FOMO_BASE_FIXED + reserved <= TOTAL_TICKETS).
Proof.
  intros Hs Hr Hsum b. subst b.
  cbn [useBasicCounters newData bc_soldTickets bc_availableTickets
       fomoSoldTickets reservedTickets].
  unfold calculateFOMO.
  destruct (Qle_bool _ _) eqn:E.
  - apply threshold_test_iff in E. rewrite (proj2 (Z.leb_le _ _) E).
    cbn [displaySoldCount]. unfold TOTAL_TICKETS in *. repeat split; lia.
  - assert (~ 1800 <= sold) as Hlt.
    { intros H. apply threshold_test_iff in H. congruence. }
    rewrite (proj2 (Z.leb_gt _ _)) by lia.
    cbn [displaySoldCount]. unfold TOTAL_TICKETS, FOMO_BASE_FIXED in *.
    repeat split; lia.
Qed.

(** The spec's own figures: total 10000, reserved 50, sold 8900.  The
    overlay is off, so the shown sold count is 8900, below 9950. *)
Lemma overlay_available_sign_witness :
  bc_soldTickets (useBasicCounters (newData 8900 50 0)) = 8900
  /\ bc_soldTickets (useBasicCounters (newData 8900 50 0)) <= 9950
  /\ bc_availableTickets (useBasicCounters (newData 8900 50 0)) = 1050
  /\ 0 <= bc_availableTickets (useBasicCounters (newData 8900 50 0)).
Proof.
  assert (0 <= 8900) as H1 by lia.
  assert (0 <= 50) as H2 by lia.
  assert (8900 + 50 <= TOTAL_TICKETS) as H3 by (unfold TOTAL_TICKETS; lia).
  destruct (overlay_available_sign 8900 50 0 H1 H2 H3) as (Hs & Ha & Hiff).
  split; [|split; [|split]].
  - exact Hs.
  - rewrite Hs. vm_compute. discriminate.
  - rewrite Ha, Hs. reflexivity.
  - apply Hiff. left. lia.
Defined.

End OverlayClamp.

Section RealLayer.
Import JS JSFacts RaffleStore StoreFacts SupabaseSync SyncFacts.

(** C4, as amended -- real-layer closed form.  After every recompute of
    the master counters the published real counts satisfy
    sold + reserved + available = total = 10000, available being
    total - sold - reserved.  In the store, after
    [_updateAvailableTickets], the length of the sold list plus the
    length of the reserved list plus the length of the available list,
    which holds the numbers of 1..10000 that are on neither, equals 10000
    exactly when the sold and reserved lists together repeat no number
    and hold only numbers of 1..10000.  This is the case after the sync
    that [updateMasterCounters] performs, which writes the sold and the
    reserved numbers of the table, when the rows of the table carry
    distinct numbers of 1..10000. *)
Theorem real_layer_invariant :
  (forall query thrown now,
     let d := MasterCounters.updateMasterCounters query thrown now in
     MasterCounters.availableTickets d
       = MasterCounters.totalTickets d - MasterCounters.soldTickets d
         - MasterCounters.reservedTickets d
     /\ MasterCounters.soldTickets d + MasterCounters.reservedTickets d
        + MasterCounters.availableTickets d = MasterCounters.totalTickets d
     /\ MasterCounters.totalTickets d = 10000)
  /\
  (forall s : RaffleState,
     let s' := _updateAvailableTickets s in
     soldTickets_length s' + reservedTickets_length s'
     + availableTickets_length s' = TOTAL_TICKETS
     <-> NoDup (soldTickets s ++ reservedTickets s)
         /\ Forall (fun n => 1 <= n <= TOTAL_TICKETS)
                   (soldTickets s ++ reservedTickets s))
  /\
  (forall (table : list DbTicket) (s : RaffleState),
     NoDup (map db_number table) ->
     Forall (fun row => 1 <= db_number row <= TOTAL_TICKETS) table ->
     let s' := syncStoreFromTable table s in
     soldTickets_length s' + reservedTickets_length s'
     + availableTickets_length s' = TOTAL_TICKETS).
Proof.
  split; [|split].
  - intros query thrown now d. subst d.
    unfold MasterCounters.updateMasterCounters.
    destruct thrown; [cbn; unfold MasterCounters.TOTAL_TICKETS; lia|].
    destruct (MasterCounters.fetchRealData query) as [sold reserved].
    cbn. unfold MasterCounters.TOTAL_TICKETS. lia.
  - exact store_counts_invariant_iff.
  - intros table s Hnd Hrange s'. subst s'.
    destruct (syncStoreFromTable_lists table s) as (s0 & -> & Hs & Hr).
    apply store_counts_invariant_iff. rewrite Hs, Hr.
    split; [now apply table_lists_NoDup | now apply table_lists_range].
Qed.

End RealLayer.

Section FomoSync.
Import JS JSFacts MasterCounters RaffleStore StoreFacts SupabaseSync Scenario.

(** For each whole percentage from 8 to 18, the values the state
    [fomoPercentage] takes, the target is a hundred times the
    percentage. *)
Lemma targetCount_8_18 :
  map targetCount (Array_from 11 (fun i => i + 8))
  = Array_from 11 (fun i => 100 * (i + 8)).
Proof. vm_compute. reflexivity. Qed.

(** The random values of the run below lie in [0, 1) and draw the tickets
    1 to 800, in this order. *)
Lemma draws_first_800_tickets :
  forallb (fun r => PrimFloat.leb 0 r && PrimFloat.ltb r 1) draws_first_800
  = true
  /\ map randomTicket draws_first_800 = Array_from 800 (fun i => i + 1).
Proof. split; vm_compute; reflexivity. Qed.

(** A sync that went through the table ends with a recompute of the
    available numbers. *)
Lemma loadInitialData_recomputed table p draws (s s' : RaffleState) :
  loadInitialData true (Some table) p draws s = Some s' ->
  _updateAvailableTickets s' = s'.
Proof.
  unfold loadInitialData. cbn [negb].
  destruct (generateFomoTickets _ _ _); [|discriminate].
  intros [= <-]. unfold setReservedTicketsFromDB.
  apply _updateAvailableTickets_idemp.
Qed.

(** The run used below: ticket 5 reserved in the table, nothing sold, the
    initial percentage 8, and random values that draw tickets 1 to 800. *)
Lemma sync_run_summary :
  (fun s' => (includes (soldTickets s') 5, reservedTickets s',
              soldTickets_length s', reservedTickets_length s',
              availableTickets_length s'))
    <$> loadInitialData true (Some table_one_reserved) 8 draws_first_800
                        initialState
  = Some (true, [5], 800, 1, 9200).
Proof. vm_compute. reflexivity. Qed.

Lemma table_one_reserved_none_sold :
  Forall (fun row => db_status row <> vendido) table_one_reserved.
Proof.
  apply Forall_forall. intros row Hrow.
  unfold table_one_reserved, Array_from in Hrow.
  rewrite Array_from_at_seqZ in Hrow.
  apply list_elem_of_fmap in Hrow as (i & -> & _). cbn.
  destruct (i + 1 =? 5); discriminate.
Qed.

(** C4, as stated, fails on the sync path of [loadInitialData]: with
    ticket 5 reserved in the table, nothing sold, the initial percentage 8
    and random values that draw tickets 1 to 800, the store ends, after
    its recompute, with a sold list of 800, a reserved list of 1 and an
    available list of 9200 numbers, 10001 in all. *)
Lemma real_layer_invariant_counterexample :
  exists s' : RaffleState,
    loadInitialData true (Some table_one_reserved) 8 draws_first_800
                    initialState = Some s'
    /\ _updateAvailableTickets s' = s'
    /\ soldTickets_length s' = 800 /\ reservedTickets_length s' = 1
    /\ availableTickets_length s' = 9200
    /\ soldTickets_length s' + reservedTickets_length s'
       + availableTickets_length s' <> TOTAL_TICKETS.
Proof.
  pose proof sync_run_summary as H.
  destruct (loadInitialData _ _ _ _ _) as [s'|] eqn:E; [|discriminate].
  injection H as _ _ Hs Hr Ha. exists s'.
  split; [reflexivity|]. split; [now apply loadInitialData_recomputed in E|].
  rewrite Hs, Hr, Ha. unfold TOTAL_TICKETS. repeat split; lia.
Qed.

(** C9 -- the synthetic tickets avoid the real sold numbers only.  There
    is a table, with a reserved ticket and without sold ones, and a run of
    random values for which [loadInitialData] leaves in the store a sold
    list and a reserved list that share a number. *)
Theorem fomo_overlaps_reserved :
  exists (table : list DbTicket) (draws : list float) (s' : RaffleState)
         (n : Z),
    Forall (fun row => db_status row <> vendido) table
    /\ loadInitialData true (Some table) 8 draws initialState = Some s'
    /\ n ∈ soldTickets s'
    /\ n ∈ reservedTickets s'.
Proof.
  pose proof sync_run_summary as H.
  destruct (loadInitialData _ _ _ _ _) as [s'|] eqn:E; [|discriminate].
  injection H as Hin Hres _ _ _.
  exists table_one_reserved, draws_first_800, s', 5.
  split; [apply table_one_reserved_none_sold|]. split; [exact E|].
  split; [now apply includes_spec|]. rewrite Hres. apply list_elem_of_here.
Qed.

End FomoSync.

(* ===================================================================== *)
(** ** Reservation, confirmation and release                             *)
(* ===================================================================== *)

Section Reservation.
Import JS JSFacts MasterCounters RaffleStore StoreFacts TicketFacts.
Import SupabaseSync Scenario.

(** C7 -- release is idempotent.  Releasing the same ticket numbers a
    second time returns the state the first release produced: the
    reserved list, every ticket object and everything else are the same.
    This also holds when the recompute of the available numbers, which
    the first release schedules, has run in between. *)
Theorem release_idempotent (ticketNumbers : list Z) (s : RaffleState) :
  let once := releaseReservedTickets ticketNumbers s in
  releaseReservedTickets ticketNumbers once = once
  /\ run_task (TaskRelease ticketNumbers) (run_task TaskUpdateAvailable once)
     = run_task TaskUpdateAvailable once.
Proof.
  intros once.
  assert (map (releaseTicket ticketNumbers) (tickets once) = tickets once)
    as Ht.
  { subst once. cbn [releaseReservedTickets tickets]. rewrite List.map_map.
    apply List.map_ext. intros t. apply releaseTicket_idemp. }
  assert (List.filter (fun num => negb (includes ticketNumbers num))
                      (reservedTickets once) = reservedTickets once) as Hr.
  { subst once. cbn [releaseReservedTickets reservedTickets].
    apply List_filter_idemp. }
  clearbody once. split.
  - destruct once. unfold releaseReservedTickets.
    cbn [tickets selectedTickets soldTickets reservedTickets
         availableTickets errors] in *.
    now rewrite Ht, Hr.
  - destruct once. unfold run_task, releaseReservedTickets, _updateAvailableTickets.
    cbn [tickets selectedTickets soldTickets reservedTickets
         availableTickets errors] in *.
    now rewrite Ht, Hr.
Qed.

(** C2, as stated, fails.  With ticket 10 already sold, reserving 1..10 in
    the store puts all ten numbers on the reserved list and marks their
    ticket objects reserved, the sold one included; the update sent to
    the table reports success and moves the nine available rows to
    reserved while the sold row stays. *)
Lemma reserve_all_or_nothing_counterexample :
  let nums := [1; 2; 3; 4; 5; 6; 7; 8; 9; 10] in
  let s' := reserveTickets padStart4 nums "H" 0 ids_a store_ten_sold in
  let r := reserveTicketsInDB true false table_ten_sold nums "H" "t0" in
  includes (soldTickets store_ten_sold) 10 = true
  /\ reservedTickets store_ten_sold = []
  /\ reservedTickets s' = nums
  /\ status_of "0001" (tickets store_ten_sold) = None
  /\ status_of "0001" (tickets s') = Some reserved
  /\ status_of "0010" (tickets s') = Some reserved
  /\ map db_status (take 10 table_ten_sold)
     = [disponible; disponible; disponible; disponible; disponible;
        disponible; disponible; disponible; disponible; vendido]
  /\ r.2 = true
  /\ map db_status (take 10 r.1)
     = [reservado; reservado; reservado; reservado; reservado;
        reservado; reservado; reservado; reservado; vendido].
Proof. vm_compute. repeat split. Qed.

(** C2, as amended -- reservation is unconditional in the store and
    row-by-row in the table.  [reserveTickets] appends every requested
    number to the reserved list, marks each requested ticket object
    reserved, clears the selection and leaves the sold and available
    lists alone, whatever the state of the numbers was.
    [reserveTicketsInDB], when connected and not failing, reports success
    and turns exactly the requested rows that are available into reserved
    rows of the customer; every other row stays as it is. *)
Theorem reserve_unconditional :
  (forall fmt nums cid now ids (s : RaffleState),
     let s' := reserveTickets fmt nums cid now ids s in
     reservedTickets s' = reservedTickets s ++ nums
     /\ soldTickets s' = soldTickets s
     /\ availableTickets s' = availableTickets s
     /\ selectedTickets s' = []
     /\ (forall n, n ∈ nums ->
           status_of (fmt n) (tickets s') = Some reserved))
  /\
  (forall (table : list DbTicket) nums cid nowIso,
     let r := reserveTicketsInDB true false table nums cid nowIso in
     r.2 = true
     /\ map db_number r.1 = map db_number table
     /\ (forall i row, table !! i = Some row ->
           (db_number row ∈ nums -> db_status row = disponible ->
              r.1 !! i = Some {| db_number := db_number row;
                                 db_status := reservado;
                                 db_customer_id := Some cid;
                                 db_reserved_at := Some nowIso |})
           /\ ((db_number row ∉ nums) \/ db_status row <> disponible ->
                  r.1 !! i = Some row))).
Proof.
  split.
  - intros fmt nums cid now ids s s'. subst s'.
    cbn [reserveTickets reservedTickets soldTickets availableTickets
         selectedTickets tickets].
    do 4 (split; [reflexivity|]). intros n Hn.
    apply status_of_foldl_upsert; [apply reservedTicketObjects_status|].
    rewrite reservedTicketObjects_numbers. now apply list_elem_of_fmap_2.
  - intros table nums cid nowIso r. subst r.
    cbn [reserveTicketsInDB negb fst snd]. split; [reflexivity|]. split.
    + rewrite List.map_map. apply List.map_ext. intros row.
      unfold reserveRow. now destruct (_ && _).
    + intros i row Hrow.
      change (map (reserveRow nums cid nowIso) table)
        with (reserveRow nums cid nowIso <$> table).
      rewrite list_lookup_fmap, Hrow. cbn [fmap option_fmap option_map].
      unfold reserveRow. split.
      * intros Hin Hst. apply includes_spec in Hin. now rewrite Hin, Hst.
      * intros [Hno|Hno].
        -- apply includes_false in Hno. now rewrite Hno.
        -- destruct (db_status row); [contradiction| |];
             now rewrite andb_false_r.
Qed.

(** C3, as stated, fails.  Reserve 1, 2, 3, confirm them, and confirm
    them again: the second call is not refused and reports nothing, the
    sold list holds each number twice and its length goes from 3 to 6. *)
Lemma confirm_exactly_once_counterexample :
  let s0 := reserveTickets padStart4 [1; 2; 3] "H" 0 ids_a initialState in
  let s1 := markTicketsAsSold padStart4 [1; 2; 3] "H" 1 ids_b s0 in
  let s2 := markTicketsAsSold padStart4 [1; 2; 3] "H" 2 ids_b s1 in
  reservedTickets s0 = [1; 2; 3]
  /\ reservedTickets s1 = [] /\ soldTickets s1 = [1; 2; 3]
  /\ soldTickets_length s1 = 3
  /\ soldTickets s2 = [1; 2; 3; 1; 2; 3] /\ soldTickets_length s2 = 6
  /\ soldTickets s2 <> soldTickets s1
  /\ errors s2 = errors s1.
Proof. vm_compute. repeat split. discriminate. Qed.

(** C3, as amended -- confirmation moves the tickets to sold and can be
    repeated.  [markTicketsAsSold] puts every given number on the sold
    list, takes it off the reserved list and marks its ticket object
    sold.  A second call with the same numbers is carried out like the
    first: the reserved list and the number and status of every ticket
    object stay as they are, and the numbers are appended to the sold
    list once more, so the length of the sold list grows by their number
    again; no error is recorded. *)
Theorem markTicketsAsSold_repeated
    fmt (nums : list Z) cid now ids cid' now' ids' (s : RaffleState) :
  let s1 := markTicketsAsSold fmt nums cid now ids s in
  let s2 := markTicketsAsSold fmt nums cid' now' ids' s1 in
  (forall n, n ∈ nums ->
     (n ∈ soldTickets s1) /\ (n ∉ reservedTickets s1)
     /\ status_of (fmt n) (tickets s1) = Some sold)
  /\ reservedTickets s2 = reservedTickets s1
  /\ ticketStatuses (tickets s2) = ticketStatuses (tickets s1)
  /\ soldTickets s2 = soldTickets s1 ++ nums
  /\ soldTickets_length s2 = soldTickets_length s1 + Z.of_nat (length nums)
  /\ errors s2 = errors s.
Proof.
  intros s1 s2.
  assert (forall n, n ∈ nums -> status_of (fmt n) (tickets s1) = Some sold)
    as Hsold.
  { intros n Hn. subst s1. cbn [markTicketsAsSold tickets].
    apply status_of_foldl_upsert; [apply soldTicketObjects_status|].
    rewrite soldTicketObjects_numbers. now apply list_elem_of_fmap_2. }
  split; [|split; [|split; [|split; [|split; [|reflexivity]]]]].
  - intros n Hn. split; [|split; [|now apply Hsold]].
    + subst s1. cbn [markTicketsAsSold soldTickets].
      apply elem_of_app. now right.
    + subst s1. cbn [markTicketsAsSold reservedTickets].
      rewrite elem_of_List_filter. intros [_ H].
      apply negb_true_iff, includes_false in H. contradiction.
  - subst s2. cbn [markTicketsAsSold reservedTickets].
    subst s1. cbn [markTicketsAsSold reservedTickets].
    apply List_filter_idemp.
  - subst s2. cbn [markTicketsAsSold tickets].
    apply (ticketStatuses_foldl_upsert sold);
      [apply soldTicketObjects_status|].
    intros k Hk. rewrite soldTicketObjects_numbers in Hk.
    apply list_elem_of_fmap in Hk as (n & -> & Hn). now apply Hsold.
  - reflexivity.
  - unfold soldTickets_length. subst s2. cbn [markTicketsAsSold soldTickets].
    rewrite length_app. lia.
Qed.

End Reservation.

(* ===================================================================== *)
(** ** Quick selection                                                   *)
(* ===================================================================== *)

Section QuickSelect.
Import JS JSFacts RaffleStore StoreFacts Scenario.

(** C8, as stated, fails.  With ticket 3 sold, 9999 numbers are
    available.  A count of -1 is not refused: no message is recorded and
    9998 numbers are selected, all of the rearranged list but its last.
    And a number that was sold after the last recompute is still on the
    cached available list: with ticket 1 marked as sold, asking for all
    9999 cached numbers selects the sold ticket 1 too.  Both hold for
    every rearrangement, the reversal taken here included. *)
Lemma quickSelect_contract_counterexample :
  let s := setSoldTicketsFromDB [3] initialState in
  let s1 := quickSelect (-1) reverse s in
  let t := markTicketsAsSold padStart4 [1] "H" 0 ids_a s in
  let t1 := quickSelect 9999 reverse t in
  availableTickets_length s = 9999
  /\ errors s1 = []
  /\ Z.of_nat (length (selectedTickets s1)) = 9998
  /\ includes (soldTickets t) 1 = true
  /\ availableTickets_length t = 9999
  /\ errors t1 = []
  /\ Z.of_nat (length (selectedTickets t1)) = 9999
  /\ includes (selectedTickets t1) 1 = true.
Proof. vm_compute. repeat split. Qed.

(** C8, as amended -- the contract of [quickSelect].  The
    random-comparator sort is taken to return some rearrangement of the
    cached available list; which one is left open, so the statement
    covers every outcome of the draw and says nothing about its
    distribution.  The cached list repeats no number, as in every
    reachable state.  If it holds fewer than [count] numbers, the call
    only appends the message "Solo hay N tickets disponibles" to the
    errors and the selection stays as it was.  Otherwise the call is
    carried out, for a negative count too: the new selection is in
    ascending order, repeats no number and holds only numbers of the
    cached list, [count] of them for a count that is not negative and
    all but the last [-count] of the rearranged list for a negative one;
    the messages about available tickets are removed.  The selected
    numbers are neither sold nor reserved when the cached list is what a
    recompute would give. *)
Theorem quickSelect_contract
    (count : Z) (random_sort : list Z -> list Z) (s : RaffleState) :
  random_sort (availableTickets s) ≡ₚ availableTickets s ->
  NoDup (availableTickets s) ->
  let s' := quickSelect count random_sort s in
  (availableTickets_length s < count ->
     selectedTickets s' = selectedTickets s
     /\ errors s' =
          errors s ++
          [("Solo hay " ++ String_of (availableTickets_length s)
              ++ " tickets disponibles")%string]
     /\ tickets s' = tickets s /\ soldTickets s' = soldTickets s
     /\ reservedTickets s' = reservedTickets s
     /\ availableTickets s' = availableTickets s)
  /\
  (count <= availableTickets_length s ->
     Z.of_nat (length (selectedTickets s'))
     = (if 0 <=? count then count
        else Z.max 0 (availableTickets_length s + count))
     /\ NoDup (selectedTickets s')
     /\ (forall n, n ∈ selectedTickets s' -> n ∈ availableTickets s)
     /\ StronglySorted Z.le (selectedTickets s')
     /\ errors s' =
        List.filter
          (fun error => negb (String_includes error "tickets disponibles"))
          (errors s)
     /\ tickets s' = tickets s /\ soldTickets s' = soldTickets s
     /\ reservedTickets s' = reservedTickets s
     /\ availableTickets s' = availableTickets s
     /\ (availableTickets s = availableTickets (_updateAvailableTickets s) ->
         forall n, n ∈ selectedTickets s' ->
           (1 <= n <= TOTAL_TICKETS)
           /\ (n ∉ soldTickets s) /\ (n ∉ reservedTickets s))).
Proof.
  intros Hperm Hnd s'. subst s'. unfold quickSelect, availableTickets_length.
  split; [intros Hlen | intros Hlen].
  - rewrite (proj2 (Z.ltb_lt _ _) Hlen).
    cbn [selectedTickets errors tickets soldTickets reservedTickets
         availableTickets].
    repeat split.
  - rewrite (proj2 (Z.ltb_ge _ _) Hlen).
    cbn [selectedTickets errors tickets soldTickets reservedTickets
         availableTickets].
    assert (slice 0 count (random_sort (availableTickets s))
              ⊆+ availableTickets s) as Hsub.
    { transitivity (random_sort (availableTickets s)).
      - apply sublist_submseteq, slice_0_sublist.
      - now apply Permutation_submseteq. }
    assert (forall n,
              n ∈ sort_ascending
                    (slice 0 count (random_sort (availableTickets s))) ->
              n ∈ availableTickets s) as Hmem.
    { intros n Hn. rewrite sort_ascending_Permutation in Hn.
      eapply elem_of_submseteq; eassumption. }
    split; [|split; [|split; [|split]]].
    + rewrite sort_ascending_Permutation.
      rewrite slice_0_length_any by (rewrite Hperm; lia).
      now rewrite Hperm.
    + rewrite sort_ascending_Permutation.
      eapply sublist_NoDup; [|apply slice_0_sublist]. now rewrite Hperm.
    + exact Hmem.
    + apply sort_ascending_sorted.
    + do 5 (split; [reflexivity|]).
      intros Hfresh n Hn. apply Hmem in Hn. rewrite Hfresh in Hn.
      now apply elem_of_available in Hn.
Qed.

(** With ticket 3 sold and the available list recomputed, 9999 numbers
    are available: asking for 2 selects two of them, neither sold nor
    reserved; asking for 10000 is refused with the message; asking for
    -1 selects 9998 numbers. *)
Lemma quickSelect_contract_witness :
  let s := setSoldTicketsFromDB [3] initialState in
  (Z.of_nat (length (selectedTickets (quickSelect 2 reverse s))) = 2
   /\ NoDup (selectedTickets (quickSelect 2 reverse s))
   /\ (forall n, n ∈ selectedTickets (quickSelect 2 reverse s) ->
                 n ∈ availableTickets s /\ (n ∉ soldTickets s))
   /\ StronglySorted Z.le (selectedTickets (quickSelect 2 reverse s)))
  /\ selectedTickets (quickSelect 10000 reverse s) = selectedTickets s
  /\ errors (quickSelect 10000 reverse s)
     = ["Solo hay 9999 tickets disponibles"]
  /\ Z.of_nat (length (selectedTickets (quickSelect (-1) reverse s))) = 9998.
Proof.
  intros s.
  pose proof (reachable_available_NoDup s
                (reach_setSold [3] initialState reach_initial)) as Hnd.
  pose proof (reverse_Permutation (availableTickets s)) as Hperm.
  assert (availableTickets_length s = 9999) as Hn by (vm_compute; reflexivity).
  assert (availableTickets s = availableTickets (_updateAvailableTickets s))
    as Hfresh.
  { subst s. unfold setSoldTicketsFromDB.
    now rewrite _updateAvailableTickets_idemp. }
  destruct (quickSelect_contract 10000 reverse s Hperm Hnd) as [Hfail _].
  destruct (Hfail ltac:(lia)) as (Hsel & Herr & _).
  destruct (quickSelect_contract 2 reverse s Hperm Hnd) as [_ Hok].
  destruct (Hok ltac:(lia)) as (Hlen & Hnd2 & Hmem & Hsorted & _ & _ & _ & _ & _
                                & Hfree).
  destruct (quickSelect_contract (-1) reverse s Hperm Hnd) as [_ Hneg].
  destruct (Hneg ltac:(lia)) as (Hlen' & _).
  split; [|split; [|split]].
  - split; [exact Hlen|]. split; [exact Hnd2|]. split; [|exact Hsorted].
    intros n Hin. split; [now apply Hmem|].
    now destruct (Hfree Hfresh n Hin) as (_ & H & _).
  - exact Hsel.
  - vm_compute. reflexivity.
  - rewrite Hlen', Hn. reflexivity.
Defined.



End QuickSelect.

(* ===================================================================== *)
(** ** Single selection                                                  *)
(* ===================================================================== *)

Module SelectionFacts.
Import JS JSFacts RaffleStore StoreActions.

Lemma List_filter_Permutation {A : Type} (f : A -> bool) (l k : list A) :
  l ≡ₚ k -> List.filter f l ≡ₚ List.filter f k.
Proof.
  induction 1 as [|x l k _ IH|x y l|l k m _ IH1 _ IH2]; cbn [List.filter].
  - reflexivity.
  - destruct (f x); [now constructor | exact IH].
  - destruct (f x), (f y); try reflexivity. apply perm_swap.
  - now transitivity (List.filter f k).
Qed.

Lemma List_filter_all {A : Type} (f : A -> bool) (l : list A) :
  Forall (fun x => f x = true) l -> List.filter f l = l.
Proof.
  induction 1 as [|x l Hx _ IH]; [reflexivity|].
  cbn [List.filter]. now rewrite Hx, IH.
Qed.

Lemma List_filter_none {A : Type} (f : A -> bool) (l : list A) :
  Forall (fun x => f x = false) l -> List.filter f l = [].
Proof.
  induction 1 as [|x l Hx _ IH]; [reflexivity|].
  cbn [List.filter]. now rewrite Hx.
Qed.

Lemma StronglySorted_List_filter {A : Type} (R : relation A)
    (f : A -> bool) (l : list A) :
  StronglySorted R l -> StronglySorted R (List.filter f l).
Proof.
  induction 1 as [|x l _ IH Hx]; cbn [List.filter]; [constructor|].
  destruct (f x); [|exact IH]. constructor; [exact IH|].
  apply Forall_forall. intros y Hy. apply elem_of_List_filter in Hy as [Hy _].
  rewrite Forall_forall in Hx. now apply Hx.
Qed.

(** Strictly ascending means ascending without repetition. *)
Lemma ascending_strict_iff (l : list Z) :
  StronglySorted Z.lt l <-> StronglySorted Z.le l /\ NoDup l.
Proof.
  induction l as [|x l IH].
  - split; [intros _; split; constructor | intros _; constructor].
  - split.
    + intros H. apply StronglySorted_inv in H as [Hl Hx].
      apply IH in Hl as [Hle Hnd]. split.
      * constructor; [exact Hle|]. eapply Forall_impl; [exact Hx|].
        intros y Hy. cbn beta in Hy. lia.
      * apply NoDup_cons. split; [|exact Hnd]. intros Hin.
        rewrite Forall_forall in Hx. specialize (Hx x Hin). lia.
    + intros [Hle Hnd]. apply StronglySorted_inv in Hle as [Hl Hx].
      apply NoDup_cons in Hnd as [Hnin Hnd]. constructor.
      * apply IH. now split.
      * apply Forall_forall. intros y Hy.
        rewrite Forall_forall in Hx. specialize (Hx y Hy).
        assert (x <> y) by (intros ->; contradiction). lia.
Qed.

Lemma ascending_unique (l k : list Z) :
  StronglySorted Z.le l -> StronglySorted Z.le k -> l ≡ₚ k -> l = k.
Proof.
  intros Hl Hk HP. apply (StronglySorted_unique_strong Z.le); try assumption.
  intros; lia.
Qed.

Lemma neq_includes_single (k num : Z) :
  negb (num =? k) = negb (includes [k] num).
Proof. unfold includes. cbn [existsb]. now rewrite orb_false_r. Qed.

Section Select.
Variable fmt : Z -> string.

(** The three outcomes of [selectTicket]. *)
Lemma selectTicket_unavailable (k : Z) (s : RaffleState) :
  k ∈ soldTickets s \/ k ∈ reservedTickets s ->
  selectedTickets (selectTicket fmt k s) = selectedTickets s
  /\ errors (selectTicket fmt k s)
     = errors s ++ [("El ticket " ++ fmt k ++ " ya no está disponible")%string].
Proof.
  intros H. unfold selectTicket.
  assert (includes (soldTickets s) k || includes (reservedTickets s) k = true)
    as ->.
  { apply orb_true_iff. rewrite !includes_spec. exact H. }
  split; reflexivity.
Qed.

Lemma selectTicket_selected (k : Z) (s : RaffleState) :
  k ∉ soldTickets s -> k ∉ reservedTickets s -> k ∈ selectedTickets s ->
  selectTicket fmt k s = s.
Proof.
  intros H1 H2 H3. unfold selectTicket.
  apply includes_false in H1, H2. apply includes_spec in H3.
  now rewrite H1, H2, H3.
Qed.

Lemma selectTicket_added (k : Z) (s : RaffleState) :
  k ∉ soldTickets s -> k ∉ reservedTickets s -> k ∉ selectedTickets s ->
  selectedTickets (selectTicket fmt k s)
  = sort_ascending (selectedTickets s ++ [k]).
Proof.
  intros H1 H2 H3. unfold selectTicket.
  apply includes_false in H1, H2, H3. now rewrite H1, H2, H3.
Qed.

Lemma selectTicket_lists (k : Z) (s : RaffleState) :
  soldTickets (selectTicket fmt k s) = soldTickets s
  /\ reservedTickets (selectTicket fmt k s) = reservedTickets s
  /\ availableTickets (selectTicket fmt k s) = availableTickets s
  /\ tickets (selectTicket fmt k s) = tickets s.
Proof.
  unfold selectTicket.
  destruct (_ || _); [repeat split|].
  destruct (includes (selectedTickets s) k); repeat split.
Qed.

End Select.

End SelectionFacts.

Section SelectionProps.
Import JS JSFacts RaffleStore StoreFacts StoreActions SelectionFacts Scenario.

(** X1 -- what [selectTicket] can put into the selection.  A number is
    selected afterwards exactly when it was selected before or it is the
    requested number and that number is neither sold nor reserved; the
    sold, reserved and available lists and the ticket objects are not
    written. *)
Theorem selectTicket_membership (fmt : Z -> string) (k : Z) (s : RaffleState) :
  let s' := selectTicket fmt k s in
  (forall n, n ∈ selectedTickets s' <->
             n ∈ selectedTickets s
             \/ (n = k /\ (k ∉ soldTickets s) /\ (k ∉ reservedTickets s)))
  /\ soldTickets s' = soldTickets s
  /\ reservedTickets s' = reservedTickets s
  /\ availableTickets s' = availableTickets s
  /\ tickets s' = tickets s.
Proof.
  intros s'. subst s'. split; [|apply selectTicket_lists].
  intros n.
  destruct (decide (k ∈ soldTickets s)) as [Hs|Hs].
  { rewrite (proj1 (selectTicket_unavailable fmt k s (or_introl Hs))).
    intuition. }
  destruct (decide (k ∈ reservedTickets s)) as [Hr|Hr].
  { rewrite (proj1 (selectTicket_unavailable fmt k s (or_intror Hr))).
    intuition. }
  destruct (decide (k ∈ selectedTickets s)) as [Hsel|Hsel].
  { rewrite selectTicket_selected by assumption. split; [tauto|].
    intros [H|(-> & _)]; assumption. }
  rewrite selectTicket_added by assumption.
  rewrite sort_ascending_Permutation, elem_of_app, list_elem_of_singleton.
  tauto.
Qed.

(** X2 -- the selection stays strictly ascending.  If the selected
    numbers are in strictly ascending order (so none is repeated), they
    still are after [selectTicket], after [deselectTicket] and after
    [clearSelection]. *)
Theorem selection_stays_ascending (fmt : Z -> string) (k : Z) (s : RaffleState) :
  StronglySorted Z.lt (selectedTickets s) ->
  StronglySorted Z.lt (selectedTickets (selectTicket fmt k s))
  /\ StronglySorted Z.lt (selectedTickets (deselectTicket k s))
  /\ StronglySorted Z.lt (selectedTickets (clearSelection s)).
Proof.
  intros Hs. split; [|split].
  - destruct (decide (k ∈ soldTickets s)) as [H1|H1].
    { now rewrite (proj1 (selectTicket_unavailable fmt k s (or_introl H1))). }
    destruct (decide (k ∈ reservedTickets s)) as [H2|H2].
    { now rewrite (proj1 (selectTicket_unavailable fmt k s (or_intror H2))). }
    destruct (decide (k ∈ selectedTickets s)) as [H3|H3].
    { now rewrite selectTicket_selected. }
    rewrite selectTicket_added by assumption.
    apply ascending_strict_iff. split; [apply sort_ascending_sorted|].
    rewrite sort_ascending_Permutation.
    apply ascending_strict_iff in Hs as [_ Hnd].
    apply NoDup_app. split; [exact Hnd|]. split; [|apply NoDup_singleton].
    intros x Hx Hk. apply list_elem_of_singleton in Hk. now subst.
  - cbn [deselectTicket selectedTickets].
    now apply StronglySorted_List_filter.
  - constructor.
Qed.

Lemma selection_stays_ascending_witness :
  StronglySorted Z.lt
    (selectedTickets
       (selectTicket padStart4 4
          (quickSelect 2 reverse (setSoldTicketsFromDB [3] initialState))))
  /\ selectedTickets
       (selectTicket padStart4 4
          (quickSelect 2 reverse (setSoldTicketsFromDB [3] initialState)))
     = [4; 9999; 10000].
Proof.
  split; [|vm_compute; reflexivity].
  assert (StronglySorted Z.lt
            (selectedTickets
               (quickSelect 2 reverse (setSoldTicketsFromDB [3] initialState))))
    as H.
  { replace (selectedTickets
               (quickSelect 2 reverse (setSoldTicketsFromDB [3] initialState)))
      with [9999; 10000] by (vm_compute; reflexivity).
    repeat constructor. }
  exact (proj1 (selection_stays_ascending padStart4 4 _ H)).
Defined.

(** X3 -- selecting and deselecting a number is a round trip.  For a
    strictly ascending selection and a number that is available and not
    selected, [deselectTicket] after [selectTicket] gives back the
    selection as it was, and on any state [deselectTicket] leaves no
    occurrence of the number selected. *)
Theorem select_deselect_roundtrip (fmt : Z -> string) (k : Z) (s : RaffleState) :
  StronglySorted Z.lt (selectedTickets s) ->
  k ∉ soldTickets s -> k ∉ reservedTickets s -> k ∉ selectedTickets s ->
  selectedTickets (deselectTicket k (selectTicket fmt k s)) = selectedTickets s
  /\ k ∈ selectedTickets (selectTicket fmt k s)
  /\ k ∉ selectedTickets (deselectTicket k (selectTicket fmt k s)).
Proof.
  intros Hs H1 H2 H3.
  assert (List.filter (fun num => negb (num =? k)) (selectedTickets s)
          = selectedTickets s) as Hkeep.
  { apply List_filter_all, Forall_forall. intros x Hx.
    apply negb_true_iff, Z.eqb_neq. intros ->. contradiction. }
  assert (selectedTickets (deselectTicket k (selectTicket fmt k s))
          = selectedTickets s) as Hround.
  { cbn [deselectTicket selectedTickets].
    rewrite selectTicket_added by assumption.
    apply ascending_unique.
    - apply StronglySorted_List_filter, sort_ascending_sorted.
    - now apply ascending_strict_iff in Hs as [Hle _].
    - rewrite (List_filter_Permutation _ _ _
                 (sort_ascending_Permutation (selectedTickets s ++ [k]))).
      rewrite List.filter_app, Hkeep. cbn [List.filter].
      rewrite Z.eqb_refl. cbn [negb]. now rewrite app_nil_r. }
  split; [exact Hround|]. split.
  - rewrite selectTicket_added by assumption.
    rewrite sort_ascending_Permutation, elem_of_app, list_elem_of_singleton.
    now right.
  - now rewrite Hround.
Qed.

Lemma select_deselect_roundtrip_witness :
  selectedTickets
    (deselectTicket 7
       (selectTicket padStart4 7
          (selectTicket padStart4 9 (selectTicket padStart4 2 store_ten_sold))))
  = [2; 9].
Proof.
  set (s := selectTicket padStart4 9 (selectTicket padStart4 2 store_ten_sold)).
  assert (selectedTickets s = [2; 9]) as Hsel by (vm_compute; reflexivity).
  assert (StronglySorted Z.lt (selectedTickets s)) as H0.
  { rewrite Hsel. repeat constructor. }
  assert (7 ∉ soldTickets s) as H1.
  { apply includes_false. vm_compute. reflexivity. }
  assert (7 ∉ reservedTickets s) as H2.
  { apply includes_false. vm_compute. reflexivity. }
  assert (7 ∉ selectedTickets s) as H3.
  { apply includes_false. vm_compute. reflexivity. }
  rewrite <- Hsel.
  exact (proj1 (select_deselect_roundtrip padStart4 7 s H0 H1 H2 H3)).
Defined.

(** X4 -- repeating [selectTicket].  On a number that is neither sold nor
    reserved the second call changes nothing.  On a sold or reserved
    number every call leaves the selection alone and appends the same
    message once more. *)
Theorem selectTicket_repeated (fmt : Z -> string) (k : Z) (s : RaffleState) :
  (k ∉ soldTickets s -> k ∉ reservedTickets s ->
   selectTicket fmt k (selectTicket fmt k s) = selectTicket fmt k s)
  /\
  (k ∈ soldTickets s \/ k ∈ reservedTickets s ->
   let m := ("El ticket " ++ fmt k ++ " ya no está disponible")%string in
   selectedTickets (selectTicket fmt k (selectTicket fmt k s))
   = selectedTickets s
   /\ errors (selectTicket fmt k (selectTicket fmt k s))
      = errors s ++ [m; m]).
Proof.
  split.
  - intros H1 H2.
    destruct (selectTicket_lists fmt k s) as (Es & Er & _).
    destruct (decide (k ∈ selectedTickets s)) as [H3|H3].
    { now rewrite !(selectTicket_selected fmt k s) by assumption. }
    apply selectTicket_selected; [now rewrite Es | now rewrite Er |].
    rewrite selectTicket_added by assumption.
    rewrite sort_ascending_Permutation, elem_of_app, list_elem_of_singleton.
    now right.
  - intros H m.
    destruct (selectTicket_lists fmt k s) as (Es & Er & _).
    destruct (selectTicket_unavailable fmt k s H) as [Hsel Herr].
    assert (k ∈ soldTickets (selectTicket fmt k s)
            \/ k ∈ reservedTickets (selectTicket fmt k s)) as H'.
    { now rewrite Es, Er. }
    destruct (selectTicket_unavailable fmt k _ H') as [Hsel' Herr'].
    rewrite Hsel', Hsel, Herr', Herr, <- app_assoc. split; reflexivity.
Qed.

End SelectionProps.

(* ===================================================================== *)
(** ** The life of a reservation in the store                            *)
(* ===================================================================== *)

Module LifecycleFacts.
Import JS JSFacts RaffleStore StoreFacts TicketFacts StoreActions SelectionFacts.

Lemma counts_after_update (s : RaffleState) :
  soldTickets_length (_updateAvailableTickets s) = soldTickets_length s
  /\ reservedTickets_length (_updateAvailableTickets s) = reservedTickets_length s.
Proof. split; reflexivity. Qed.

(** With consistent lists the recomputed available count is what is left
    of the pool. *)
Lemma consistent_available (s : RaffleState) :
  lists_consistent s ->
  availableTickets_length (_updateAvailableTickets s)
  = TOTAL_TICKETS - soldTickets_length s - reservedTickets_length s.
Proof.
  intros H. apply store_counts_invariant_iff in H.
  destruct (counts_after_update s) as [Hs Hr]. lia.
Qed.

Lemma filter_out_requested (nums l : list Z) :
  (forall n, n ∈ nums -> n ∉ l) ->
  List.filter (fun num => negb (includes nums num)) l = l.
Proof.
  intros H. apply List_filter_all, Forall_forall. intros x Hx.
  apply negb_true_iff, includes_false. intros Hin. now apply (H x).
Qed.

Lemma filter_out_self (nums : list Z) :
  List.filter (fun num => negb (includes nums num)) nums = [].
Proof.
  apply List_filter_none, Forall_forall. intros x Hx.
  apply negb_false_iff. now apply includes_spec.
Qed.

(** Reserving free tickets, and confirming unsold ones, keeps the sold
    and reserved lists consistent. *)
Section Consistent.
Variable fmt : Z -> string.

Lemma reserve_lists_consistent
    (nums : list Z) cid now ids (s : RaffleState) :
  lists_consistent s ->
  distinct_tickets nums ->
  (forall n, n ∈ nums -> (n ∉ soldTickets s) /\ (n ∉ reservedTickets s)) ->
  lists_consistent (reserveTickets fmt nums cid now ids s).
Proof.
  intros [Hcn Hcr] [Hnd Hrange] Hfree. unfold lists_consistent.
  cbn [reserveTickets soldTickets reservedTickets].
  rewrite app_assoc. split.
  - apply NoDup_app. split; [exact Hcn|]. split; [|exact Hnd].
    intros x Hx Hin. destruct (Hfree x Hin) as [H1 H2].
    apply elem_of_app in Hx as [Hx|Hx]; contradiction.
  - apply Forall_app. now split.
Qed.

Lemma confirm_reserved_iff
    (nums : list Z) cid now ids (s : RaffleState) (n : Z) :
  n ∈ reservedTickets (markTicketsAsSold fmt nums cid now ids s) <->
  n ∈ reservedTickets s /\ (n ∉ nums).
Proof.
  cbn [markTicketsAsSold reservedTickets].
  now rewrite elem_of_List_filter, negb_true_iff, includes_false.
Qed.

Lemma confirm_lists_consistent
    (nums : list Z) cid now ids (s : RaffleState) :
  lists_consistent s ->
  distinct_tickets nums ->
  (forall n, n ∈ nums -> n ∉ soldTickets s) ->
  lists_consistent (markTicketsAsSold fmt nums cid now ids s).
Proof.
  intros [Hcn Hcr] [Hnd Hrange] Hfree.
  apply NoDup_app in Hcn as (Hs & Hdisj & Hr).
  apply Forall_app in Hcr as [Hsr Hrr].
  unfold lists_consistent. split.
  - apply NoDup_app. split; [|split].
    + cbn [markTicketsAsSold soldTickets].
      apply NoDup_app. split; [exact Hs|]. split; [|exact Hnd].
      intros x Hx Hin. now apply (Hfree x).
    + intros x Hx Hx'. apply confirm_reserved_iff in Hx' as [Hx1 Hx2].
      cbn [markTicketsAsSold soldTickets] in Hx.
      apply elem_of_app in Hx as [Hx|Hx]; [now apply (Hdisj x) | contradiction].
    + cbn [markTicketsAsSold reservedTickets].
      now apply NoDup_List_filter.
  - apply Forall_app. split.
    + cbn [markTicketsAsSold soldTickets].
      apply Forall_app. now split.
    + apply Forall_forall. intros x Hx.
      apply confirm_reserved_iff in Hx as [Hx _].
      rewrite Forall_forall in Hrr. now apply Hrr.
Qed.

End Consistent.

(** What [releaseTicket] does to the status shown for a number. *)
Lemma status_of_release (nums : list Z) (k : string) (ts : list Ticket) :
  status_of k (map (releaseTicket nums) ts) =
  (fun st =>
     if match parseInt k with
        | Some n => includes nums n
        | None => false
        end && TicketStatus_eqb st reserved
     then available else st) <$> status_of k ts.
Proof.
  induction ts as [|t ts IH]; [reflexivity|]. cbn [map].
  rewrite !status_of_cons.
  assert (number (releaseTicket nums t) = number t) as Hn.
  { unfold releaseTicket. now destruct (_ && _). }
  rewrite Hn. destruct (String.eqb (number t) k) eqn:E; [|exact IH].
  apply String.eqb_eq in E. subst k. cbn [fmap option_fmap option_map].
  f_equal. unfold releaseTicket. now destruct (_ && _).
Qed.

End LifecycleFacts.

Section Lifecycle.
Import JS JSFacts RaffleStore StoreFacts TicketFacts StoreActions.
Import SelectionFacts LifecycleFacts Scenario.

(** X5 -- reserving available tickets keeps the books.  If the sold and
    reserved lists are consistent and the requested numbers are distinct
    tickets of the pool, none of them sold or reserved, then after
    [reserveTickets] the lists are consistent again, and after the
    recompute the list of sold numbers is as long as before, the list of
    reserved numbers has grown and the list of available numbers has
    shrunk by the number of requested tickets.  The lengths are those of
    the lists [soldTickets], [reservedTickets] and [availableTickets]. *)
Theorem reserve_keeps_consistent
    fmt (nums : list Z) cid now ids (s : RaffleState) :
  lists_consistent s ->
  distinct_tickets nums ->
  (forall n, n ∈ nums -> (n ∉ soldTickets s) /\ (n ∉ reservedTickets s)) ->
  let s' := reserveTickets fmt nums cid now ids s in
  lists_consistent s'
  /\ soldTickets_length (_updateAvailableTickets s') = soldTickets_length s
  /\ reservedTickets_length (_updateAvailableTickets s')
     = reservedTickets_length s + Z.of_nat (length nums)
  /\ availableTickets_length (_updateAvailableTickets s')
     = availableTickets_length (_updateAvailableTickets s)
       - Z.of_nat (length nums).
Proof.
  intros Hc Hd Hfree s'.
  assert (lists_consistent s') as Hc'.
  { now apply reserve_lists_consistent. }
  split; [exact Hc'|].
  rewrite (consistent_available s' Hc'), (consistent_available s Hc).
  subst s'. unfold soldTickets_length, reservedTickets_length.
  cbn [_updateAvailableTickets reserveTickets soldTickets reservedTickets].
  rewrite length_app. repeat split; lia.
Qed.

(** Reserving 1, 2, 3 in the empty store: the lists hold 0 sold, 3
    reserved and 9997 available numbers. *)
Lemma reserve_keeps_consistent_witness :
  let s' := reserveTickets padStart4 [1; 2; 3] "H" 0 ids_a initialState in
  lists_consistent s'
  /\ soldTickets_length (_updateAvailableTickets s') = 0
  /\ reservedTickets_length (_updateAvailableTickets s') = 3
  /\ availableTickets_length (_updateAvailableTickets s') = 9997.
Proof.
  assert (lists_consistent initialState) as Hc.
  { split; [apply NoDup_nil_2 | apply Forall_nil_2]. }
  assert (distinct_tickets [1; 2; 3]) as Hd.
  { split.
    - apply NoDup_ListNoDup. repeat constructor; cbn; lia.
    - unfold TOTAL_TICKETS. repeat constructor; lia. }
  assert (forall n, n ∈ [1; 2; 3] ->
            (n ∉ soldTickets initialState)
            /\ (n ∉ reservedTickets initialState)) as Hfree.
  { intros n _. split; apply not_elem_of_nil. }
  destruct (reserve_keeps_consistent padStart4 [1; 2; 3] "H" 0 ids_a
              initialState Hc Hd Hfree) as (Hc' & Hs & Hr & Ha).
  intros s'. split; [exact Hc'|]. split; [exact Hs|]. split; [exact Hr|].
  subst s'. rewrite Ha. vm_compute. reflexivity.
Defined.

(** X6 -- confirming tickets that are not yet sold keeps the books.  If
    the lists are consistent and the given numbers are distinct tickets
    of the pool, none of them sold, then after [markTicketsAsSold] the
    lists are consistent again, the list [soldTickets] has grown by the
    number of given tickets, the reserved list has lost exactly the given
    numbers, and after the recompute the lengths of [soldTickets],
    [reservedTickets] and [availableTickets] add up to 10000. *)
Theorem confirm_keeps_consistent
    fmt (nums : list Z) cid now ids (s : RaffleState) :
  lists_consistent s ->
  distinct_tickets nums ->
  (forall n, n ∈ nums -> n ∉ soldTickets s) ->
  let s' := markTicketsAsSold fmt nums cid now ids s in
  lists_consistent s'
  /\ soldTickets_length s' = soldTickets_length s + Z.of_nat (length nums)
  /\ (forall n, n ∈ reservedTickets s' <->
                n ∈ reservedTickets s /\ (n ∉ nums))
  /\ soldTickets_length (_updateAvailableTickets s')
     + reservedTickets_length (_updateAvailableTickets s')
     + availableTickets_length (_updateAvailableTickets s') = TOTAL_TICKETS.
Proof.
  intros Hc Hd Hfree s'.
  assert (lists_consistent s') as Hc'.
  { now apply confirm_lists_consistent. }
  split; [exact Hc'|]. split; [|split].
  - subst s'. unfold soldTickets_length. cbn [markTicketsAsSold soldTickets].
    rewrite length_app. lia.
  - intros n. apply confirm_reserved_iff.
  - now apply store_counts_invariant_iff.
Qed.

(** Confirming 1, 2, 3 in the empty store: [soldTickets] holds 3
    numbers, and the lengths of the three lists add up to 10000. *)
Lemma confirm_keeps_consistent_witness :
  let s' := markTicketsAsSold padStart4 [1; 2; 3] "H" 1 ids_b initialState in
  lists_consistent s'
  /\ soldTickets_length s' = 3
  /\ soldTickets_length (_updateAvailableTickets s')
     + reservedTickets_length (_updateAvailableTickets s')
     + availableTickets_length (_updateAvailableTickets s') = 10000.
Proof.
  assert (lists_consistent initialState) as Hc.
  { split; [apply NoDup_nil_2 | apply Forall_nil_2]. }
  assert (distinct_tickets [1; 2; 3]) as Hd.
  { split.
    - apply NoDup_ListNoDup. repeat constructor; cbn; lia.
    - unfold TOTAL_TICKETS. repeat constructor; lia. }
  assert (forall n, n ∈ [1; 2; 3] -> n ∉ soldTickets initialState) as Hfree.
  { intros n _. apply not_elem_of_nil. }
  destruct (confirm_keeps_consistent padStart4 [1; 2; 3] "H" 1 ids_b
              initialState Hc Hd Hfree) as (Hc' & Hs & _ & Hsum).
  intros s'. split; [exact Hc'|]. split; [exact Hs|]. exact Hsum.
Defined.

(** X7 -- releasing keeps the books.  After [releaseReservedTickets] the
    reserved list holds exactly the numbers that were reserved and are
    not among the released ones, the sold list is untouched, consistent
    lists stay consistent, and after the recompute what the list
    [reservedTickets] loses in length the list [availableTickets]
    gains. *)
Theorem release_keeps_consistent (nums : list Z) (s : RaffleState) :
  lists_consistent s ->
  let s' := releaseReservedTickets nums s in
  lists_consistent s'
  /\ soldTickets s' = soldTickets s
  /\ (forall n, n ∈ reservedTickets s' <->
                n ∈ reservedTickets s /\ (n ∉ nums))
  /\ availableTickets_length (_updateAvailableTickets s')
     + reservedTickets_length (_updateAvailableTickets s')
     = availableTickets_length (_updateAvailableTickets s)
       + reservedTickets_length (_updateAvailableTickets s).
Proof.
  intros Hc s'.
  assert (forall n, n ∈ reservedTickets s' <->
                    n ∈ reservedTickets s /\ (n ∉ nums)) as Hres.
  { intros n. subst s'. cbn [releaseReservedTickets reservedTickets].
    now rewrite elem_of_List_filter, negb_true_iff, includes_false. }
  assert (lists_consistent s') as Hc'.
  { destruct Hc as [Hcn Hcr].
    apply NoDup_app in Hcn as (Hs & Hdisj & Hr).
    apply Forall_app in Hcr as [Hsr Hrr].
    unfold lists_consistent. subst s'.
    cbn [releaseReservedTickets soldTickets reservedTickets]. split.
    - apply NoDup_app. split; [exact Hs|]. split; [|now apply NoDup_List_filter].
      intros x Hx Hx'. apply elem_of_List_filter in Hx' as [Hx' _].
      now apply (Hdisj x).
    - apply Forall_app. split; [exact Hsr|].
      apply Forall_forall. intros x Hx. apply elem_of_List_filter in Hx as [Hx _].
      rewrite Forall_forall in Hrr. now apply Hrr. }
  split; [exact Hc'|]. split; [reflexivity|]. split; [exact Hres|].
  rewrite (consistent_available s' Hc'), (consistent_available s Hc).
  destruct (counts_after_update s') as [_ ->].
  destruct (counts_after_update s) as [_ ->].
  assert (soldTickets_length s' = soldTickets_length s) by reflexivity. lia.
Qed.

(** With 1, 2, 3 reserved, releasing 2 and 7 leaves 1 and 3 reserved and
    nothing sold. *)
Lemma release_keeps_consistent_witness :
  let s := reserveTickets padStart4 [1; 2; 3] "H" 0 ids_a initialState in
  let s' := releaseReservedTickets [2; 7] s in
  lists_consistent s'
  /\ soldTickets s' = []
  /\ (1 ∈ reservedTickets s') /\ (2 ∉ reservedTickets s').
Proof.
  intros s.
  assert (lists_consistent s) as Hc.
  { split.
    - apply NoDup_ListNoDup. repeat constructor; cbn; lia.
    - unfold TOTAL_TICKETS. repeat constructor; lia. }
  destruct (release_keeps_consistent [2; 7] s Hc) as (Hc' & Hs & Hres & _).
  intros s'. split; [exact Hc'|]. split; [exact Hs|]. split.
  - apply Hres. split; [apply list_elem_of_here|].
    intros H. apply list_elem_of_In in H. cbn in H. lia.
  - intros H. apply Hres in H as [_ H]. apply H, list_elem_of_here.
Defined.

(** X8 -- from reservation to sale.  Starting from consistent lists,
    reserving distinct available tickets and then confirming the same
    numbers leaves, after the recompute, the list [soldTickets] longer
    and the list [availableTickets] shorter by the number of tickets, the
    list [reservedTickets] as long as it was, the three lengths adding up
    to 10000, and each of the tickets shown as sold. *)
Theorem reserve_then_confirm
    fmt (nums : list Z) cid now ids cid' now' ids' (s : RaffleState) :
  lists_consistent s ->
  distinct_tickets nums ->
  (forall n, n ∈ nums -> (n ∉ soldTickets s) /\ (n ∉ reservedTickets s)) ->
  let s' :=
    _updateAvailableTickets
      (markTicketsAsSold fmt nums cid' now' ids'
         (reserveTickets fmt nums cid now ids s)) in
  soldTickets_length s' = soldTickets_length s + Z.of_nat (length nums)
  /\ reservedTickets_length s' = reservedTickets_length s
  /\ availableTickets_length s'
     = availableTickets_length (_updateAvailableTickets s)
       - Z.of_nat (length nums)
  /\ soldTickets_length s' + reservedTickets_length s'
     + availableTickets_length s' = TOTAL_TICKETS
  /\ (forall n, n ∈ nums -> status_of (fmt n) (tickets s') = Some sold).
Proof.
  intros Hc Hd Hfree s'.
  pose proof (reserve_lists_consistent fmt nums cid now ids s Hc Hd Hfree)
    as Hc1.
  set (s1 := reserveTickets fmt nums cid now ids s) in *.
  assert (forall n, n ∈ nums -> n ∉ soldTickets s1) as Hfree1.
  { intros n Hn. subst s1. cbn [reserveTickets soldTickets].
    now apply Hfree. }
  pose proof (confirm_lists_consistent fmt nums cid' now' ids' s1 Hc1 Hd Hfree1)
    as Hc2.
  set (s2 := markTicketsAsSold fmt nums cid' now' ids' s1) in *.
  assert (soldTickets_length s2
          = soldTickets_length s1 + Z.of_nat (length nums)) as Hsold.
  { subst s2. unfold soldTickets_length. cbn [markTicketsAsSold soldTickets].
    rewrite length_app. lia. }
  assert (reservedTickets s2 = reservedTickets s) as Hres.
  { subst s2 s1. cbn [markTicketsAsSold reserveTickets reservedTickets].
    rewrite List.filter_app, filter_out_self, app_nil_r.
    apply filter_out_requested. intros n Hn. now apply Hfree. }
  assert (soldTickets_length s1 = soldTickets_length s) as Hs1 by reflexivity.
  assert (reservedTickets_length s2 = reservedTickets_length s) as Hr2.
  { unfold reservedTickets_length. now rewrite Hres. }
  subst s'. destruct (counts_after_update s2) as [Hus Hur].
  rewrite (consistent_available s Hc).
  rewrite (consistent_available s2 Hc2) in *.
  rewrite Hus, Hur in *. repeat split; try lia.
  intros n Hn.
  cbn [_updateAvailableTickets tickets]. subst s2.
  cbn [markTicketsAsSold tickets].
  apply status_of_foldl_upsert; [apply soldTicketObjects_status|].
  rewrite soldTicketObjects_numbers. now apply list_elem_of_fmap_2.
Qed.

(** The store starts empty; reserving 1, 2, 3 and confirming them gives
    lists of 3 sold, 0 reserved and 9997 available numbers. *)
Lemma reserve_then_confirm_witness :
  let s' :=
    _updateAvailableTickets
      (markTicketsAsSold padStart4 [1; 2; 3] "H" 1 ids_b
         (reserveTickets padStart4 [1; 2; 3] "H" 0 ids_a initialState)) in
  soldTickets_length s' = 3 /\ reservedTickets_length s' = 0
  /\ availableTickets_length s' = 9997
  /\ status_of "0002" (tickets s') = Some sold.
Proof.
  assert (lists_consistent initialState) as Hc.
  { split; [apply NoDup_nil_2 | apply Forall_nil_2]. }
  assert (distinct_tickets [1; 2; 3]) as Hd.
  { split.
    - apply NoDup_ListNoDup. repeat constructor; cbn; lia.
    - unfold TOTAL_TICKETS. repeat constructor; lia. }
  assert (forall n, n ∈ [1; 2; 3] ->
            (n ∉ soldTickets initialState)
            /\ (n ∉ reservedTickets initialState)) as Hfree.
  { intros n _. split; apply not_elem_of_nil. }
  destruct (reserve_then_confirm padStart4 [1; 2; 3] "H" 0 ids_a "H" 1 ids_b
              initialState Hc Hd Hfree) as (Hs & Hr & Ha & _ & Hst).
  intros s'. split; [exact Hs|]. split; [exact Hr|]. split.
  - subst s'. rewrite Ha. vm_compute. reflexivity.
  - apply (Hst 2). apply list_elem_of_further, list_elem_of_here.
Defined.

(** X9 -- expiry after reservation.  Releasing the numbers that were
    just reserved removes them from the reserved list altogether, copies
    that an earlier reservation had put there included; when none was
    reserved before, the reserved list is back to what it was.  The sold
    list is untouched, and a requested ticket whose formatted number
    reads back as the number is shown as available. *)
Theorem reserve_then_release
    fmt (nums : list Z) cid now ids (s : RaffleState) :
  let s' := releaseReservedTickets nums
              (reserveTickets fmt nums cid now ids s) in
  reservedTickets s'
  = List.filter (fun num => negb (includes nums num)) (reservedTickets s)
  /\ ((forall n, n ∈ nums -> n ∉ reservedTickets s) ->
      reservedTickets s' = reservedTickets s)
  /\ soldTickets s' = soldTickets s
  /\ (forall n, n ∈ nums -> parseInt (fmt n) = Some n ->
        status_of (fmt n) (tickets s') = Some available).
Proof.
  intros s'.
  assert (reservedTickets s'
          = List.filter (fun num => negb (includes nums num))
                        (reservedTickets s)) as Hres.
  { subst s'. cbn [releaseReservedTickets reserveTickets reservedTickets].
    now rewrite List.filter_app, filter_out_self, app_nil_r. }
  split; [exact Hres|]. split; [|split; [reflexivity|]].
  - intros Hfree. rewrite Hres. now apply filter_out_requested.
  - intros n Hn Hparse. subst s'.
    cbn [releaseReservedTickets reserveTickets tickets].
    rewrite status_of_release, Hparse.
    rewrite (status_of_foldl_upsert reserved);
      [| apply reservedTicketObjects_status
       | rewrite reservedTicketObjects_numbers; now apply list_elem_of_fmap_2].
    cbn [fmap option_fmap option_map TicketStatus_eqb].
    apply includes_spec in Hn. now rewrite Hn.
Qed.

End Lifecycle.

(* ===================================================================== *)
(** ** Activities, initialisation and reset                              *)
(* ===================================================================== *)

Module HousekeepingFacts.
Import JS JSFacts RaffleStore StoreFacts TicketFacts StoreActions.

Lemma take_app_take {A : Type} (n : nat) (l k : list A) :
  take n (l ++ take n k) = take n (l ++ k).
Proof.
  rewrite !take_app. f_equal. rewrite take_take. f_equal. lia.
Qed.

Lemma addLiveActivity_take (a : LiveActivity) (l : list LiveActivity) :
  addLiveActivity a l = take 50 (a :: l).
Proof. unfold addLiveActivity. now rewrite slice_0_take by lia. Qed.

(** A number carried by some ticket object shows the status that all
    ticket objects share. *)
Lemma status_of_uniform (st : TicketStatus) (k : string) (ts : list Ticket) :
  Forall (fun t => status t = st) ts ->
  k ∈ number <$> ts ->
  status_of k ts = Some st.
Proof.
  induction 1 as [|t ts Ht _ IH]; intros Hk; [inversion Hk|].
  rewrite status_of_cons. destruct (String.eqb (number t) k) eqn:E.
  - now rewrite Ht.
  - apply IH. cbn in Hk. apply elem_of_cons in Hk as [->|Hk]; [|exact Hk].
    now rewrite String.eqb_refl in E.
Qed.

Lemma initial_tickets_seqZ (fmt ids : Z -> string) :
  Array_from TOTAL_TICKETS
    (fun i => {| id := ids i; number := fmt (i + 1); status := available;
                 buyerId := None; reservedAt := None; purchaseDate := None |})
  = (fun i => {| id := ids i; number := fmt (i + 1); status := available;
                 buyerId := None; reservedAt := None; purchaseDate := None |})
      <$> seqZ 0 TOTAL_TICKETS.
Proof.
  unfold Array_from. rewrite Array_from_at_seqZ.
  now rewrite Z2Nat.id by (unfold TOTAL_TICKETS; lia).
Qed.

End HousekeepingFacts.

Section Housekeeping.
Import JS JSFacts RaffleStore StoreFacts TicketFacts StoreActions.
Import LifecycleFacts HousekeepingFacts Scenario.

(** X10 -- the activity feed keeps the 50 most recent entries.  After
    adding one or more activities one after the other, the feed is the
    first 50 entries of the added ones in reverse order followed by the
    old feed: newest first, never more than 50, the oldest dropped; what
    is persisted is the first 20 of them. *)
Theorem activity_feed_bounded
    (a : LiveActivity) (news old : list LiveActivity) :
  let feed := foldl (fun acc x => addLiveActivity x acc) old (a :: news) in
  feed = take 50 (reverse (a :: news) ++ old)
  /\ (length feed <= 50)%nat
  /\ head feed = last (a :: news)
  /\ persistedActivities feed = take 20 feed.
Proof.
  intros feed.
  assert (feed = take 50 (reverse (a :: news) ++ old)) as Hfeed.
  { subst feed. revert a old. induction news as [|b news IH]; intros a old.
    - cbn [foldl]. now rewrite addLiveActivity_take.
    - change (foldl (fun acc x => addLiveActivity x acc) old (a :: b :: news))
        with (foldl (fun acc x => addLiveActivity x acc)
                    (addLiveActivity a old) (b :: news)).
      rewrite IH, addLiveActivity_take, take_app_take.
      rewrite (reverse_cons (b :: news) a), <- app_assoc. reflexivity. }
  split; [exact Hfeed|]. split; [|split].
  - rewrite Hfeed, length_take. lia.
  - rewrite Hfeed.
    destruct (reverse (a :: news)) as [|x xs] eqn:E.
    + apply (f_equal reverse) in E. rewrite reverse_involutive in E.
      discriminate.
    + cbn [app take head].
      rewrite <- (reverse_involutive (a :: news)), E, reverse_cons.
      now rewrite last_snoc.
  - unfold persistedActivities. now rewrite slice_0_take by lia.
Qed.

(** X11 -- [initializeTickets] builds the ticket objects once.  On a
    store that has ticket objects it changes nothing.  On a store without
    any it creates 10000 of them, all available, one for every formatted
    number of 1..10000, and leaves the number lists alone.  A second call
    therefore changes nothing. *)
Theorem initializeTickets_once (fmt ids ids' : Z -> string) (s : RaffleState) :
  let s' := initializeTickets fmt ids s in
  (tickets s <> [] -> s' = s)
  /\ (tickets s = [] ->
      Z.of_nat (length (tickets s')) = TOTAL_TICKETS
      /\ Forall (fun t => status t = available) (tickets s')
      /\ (forall n, 1 <= n <= TOTAL_TICKETS ->
            status_of (fmt n) (tickets s') = Some available)
      /\ soldTickets s' = soldTickets s
      /\ reservedTickets s' = reservedTickets s)
  /\ initializeTickets fmt ids' s' = s'.
Proof.
  intros s'.
  assert (tickets s <> [] -> s' = s) as Hkeep.
  { intros Hne. subst s'. unfold initializeTickets.
    destruct (tickets s) as [|t ts]; [contradiction|].
    cbn [length]. now rewrite (proj2 (Z.ltb_lt _ _)) by lia. }
  assert (tickets s = [] ->
          tickets s'
          = (fun i => {| id := ids i; number := fmt (i + 1);
                         status := available; buyerId := None;
                         reservedAt := None; purchaseDate := None |})
              <$> seqZ 0 TOTAL_TICKETS) as Hnew.
  { intros He. subst s'. unfold initializeTickets. rewrite He.
    cbn [length Z.of_nat Z.ltb Z.compare tickets].
    apply initial_tickets_seqZ. }
  assert (tickets s = [] -> Z.of_nat (length (tickets s')) = TOTAL_TICKETS)
    as Hlen.
  { intros He. rewrite (Hnew He), length_fmap, length_seqZ.
    unfold TOTAL_TICKETS. lia. }
  split; [exact Hkeep|]. split.
  - intros He. split; [now apply Hlen|].
    assert (Forall (fun t => status t = available) (tickets s')) as Hall.
    { rewrite (Hnew He). apply Forall_fmap, Forall_forall. now intros. }
    split; [exact Hall|]. split.
    + intros n Hn. apply status_of_uniform; [exact Hall|].
      rewrite (Hnew He), <- list_fmap_compose.
      apply list_elem_of_fmap. exists (n - 1). split.
      * cbn. f_equal. lia.
      * apply elem_of_seqZ. lia.
    + subst s'. unfold initializeTickets. rewrite He. split; reflexivity.
  - destruct (tickets s) as [|t ts] eqn:E.
    + unfold initializeTickets at 1.
      rewrite (proj2 (Z.ltb_lt 0 (Z.of_nat (length (tickets s'))))).
      * reflexivity.
      * rewrite Hlen by reflexivity. unfold TOTAL_TICKETS. lia.
    + assert (s' = s) as -> by (apply Hkeep; discriminate).
      unfold initializeTickets. rewrite E. cbn [length].
      now rewrite (proj2 (Z.ltb_lt _ _)) by lia.
Qed.

(** X12 -- [resetStore] forgets the lists but not the cached available
    numbers.  Right after a reset the sold and reserved lists and the
    selection are empty while the available list is the one cached
    before, so the lengths of the three lists add up to the length the
    available list had; once [_updateAvailableTickets] has run the store
    is the recomputed initial store, with all 10000 numbers on the
    available list. *)
Theorem resetStore_then_update (s : RaffleState) :
  let s' := resetStore s in
  soldTickets s' = [] /\ reservedTickets s' = [] /\ selectedTickets s' = []
  /\ availableTickets s' = availableTickets s
  /\ soldTickets_length s' + reservedTickets_length s'
     + availableTickets_length s' = availableTickets_length s
  /\ _updateAvailableTickets s' = _updateAvailableTickets initialState
  /\ availableTickets_length (_updateAvailableTickets s') = TOTAL_TICKETS.
Proof.
  intros s'. subst s'.
  assert (_updateAvailableTickets (resetStore s)
          = _updateAvailableTickets initialState) as Hupd.
  { unfold _updateAvailableTickets, resetStore, initialState.
    cbn [tickets selectedTickets soldTickets reservedTickets errors].
    reflexivity. }
  do 4 (split; [reflexivity|]). split; [|split; [exact Hupd|]].
  - unfold soldTickets_length, reservedTickets_length, availableTickets_length.
    cbn [resetStore soldTickets reservedTickets availableTickets length].
    lia.
  - rewrite Hupd, consistent_available.
    + unfold soldTickets_length, reservedTickets_length. cbn. lia.
    + split; [apply NoDup_nil_2 | apply Forall_nil_2].
Qed.

End Housekeeping.

(* ===================================================================== *)
(** ** The draw loop of the synthetic tickets                            *)
(* ===================================================================== *)

Module FomoFacts.
Import JS JSFacts MasterCounters RaffleStore SupabaseSync SyncMore.

Lemma fresh_tickets_spec (real : list Z) (candidates seen : list Z) :
  NoDup (fresh_tickets real seen candidates)
  /\ (forall x, x ∈ fresh_tickets real seen candidates ->
        x ∈ candidates /\ (x ∉ real) /\ (x ∉ seen)).
Proof.
  revert seen. induction candidates as [|t rest IH]; intros seen.
  - split; [apply NoDup_nil_2 | intros x Hx; inversion Hx].
  - cbn [fresh_tickets].
    destruct (negb (includes real t) && negb (includes seen t)) eqn:E.
    + apply andb_true_iff in E as [E1 E2].
      apply negb_true_iff, includes_false in E1, E2.
      destruct (IH (seen ++ [t])) as [Hnd Hin]. split.
      * apply NoDup_cons. split; [|exact Hnd]. intros Ht.
        apply Hin in Ht as (_ & _ & Ht). apply Ht, elem_of_app. right.
        apply list_elem_of_here.
      * intros x Hx. apply elem_of_cons in Hx as [->|Hx].
        -- split; [apply list_elem_of_here | now split].
        -- apply Hin in Hx as (H1 & H2 & H3).
           split; [now apply list_elem_of_further|]. split; [exact H2|].
           intros Hs. apply H3, elem_of_app. now left.
    + destruct (IH seen) as [Hnd Hin]. split; [exact Hnd|].
      intros x Hx. apply Hin in Hx as (H1 & H2 & H3).
      split; [now apply list_elem_of_further | now split].
Qed.

(** The loop, in closed form. *)
Lemma fomo_loop_closed_form
    (needed : Z) (real : list Z) (draws : list float) (acc : list Z) :
  fomo_loop needed real draws acc =
  if Z.of_nat (length acc) <? needed then
    let f := fresh_tickets real acc (map randomTicket draws) in
    if needed - Z.of_nat (length acc) <=? Z.of_nat (length f)
    then Some (acc ++ take (Z.to_nat (needed - Z.of_nat (length acc))) f)
    else None
  else Some acc.
Proof.
  revert acc. induction draws as [|r draws IH]; intros acc.
  - cbn [fomo_loop map fresh_tickets length].
    destruct (Z.of_nat (length acc) <? needed) eqn:E; [|reflexivity].
    apply Z.ltb_lt in E. cbv zeta.
    now rewrite (proj2 (Z.leb_gt _ _)) by lia.
  - cbn [fomo_loop map fresh_tickets].
    destruct (Z.of_nat (length acc) <? needed) eqn:E; [|reflexivity].
    apply Z.ltb_lt in E. cbv zeta.
    destruct (negb (includes real (randomTicket r))
              && negb (includes acc (randomTicket r))) eqn:F.
    + rewrite IH, length_app. cbn [length].
      set (f' := fresh_tickets real (acc ++ [randomTicket r])
                   (map randomTicket draws)).
      destruct (Z.of_nat (length acc + 1) <? needed) eqn:G.
      * apply Z.ltb_lt in G. cbv zeta.
        replace (needed - Z.of_nat (length acc + 1)
                 <=? Z.of_nat (length f'))
          with (needed - Z.of_nat (length acc)
                <=? Z.of_nat (S (length f'))).
        2:{ destruct (Z.leb_spec (needed - Z.of_nat (length acc))
                        (Z.of_nat (S (length f'))));
            destruct (Z.leb_spec (needed - Z.of_nat (length acc + 1))
                        (Z.of_nat (length f'))); try reflexivity; lia. }
        destruct (_ <=? _); [|reflexivity].
        rewrite <- app_assoc. cbn [app]. do 3 f_equal.
        replace (Z.to_nat (needed - Z.of_nat (length acc)))
          with (S (Z.to_nat (needed - Z.of_nat (length acc + 1)))) by lia.
        reflexivity.
      * apply Z.ltb_ge in G.
        rewrite (proj2 (Z.leb_le _ _)) by lia.
        replace (Z.to_nat (needed - Z.of_nat (length acc))) with 1%nat by lia.
        reflexivity.
    + rewrite IH, (proj2 (Z.ltb_lt _ _) E). reflexivity.
Qed.

Lemma current_percentage_test (real : list Z) :
  Qle_bool 18
    ((inject_Z (Z.of_nat (length real)) / inject_Z totalTickets)
       * inject_Z 100)%Q = (1800 <=? Z.of_nat (length real)).
Proof.
  pose proof (MasterCountersFacts.threshold_test_iff (Z.of_nat (length real)))
    as H.
  unfold realPercentage, FOMO_THRESHOLD, TOTAL_TICKETS in H.
  unfold totalTickets.
  destruct (Z.leb_spec 1800 (Z.of_nat (length real))) as [L|L].
  - exact (proj2 H L).
  - apply not_true_is_false. intros E. pose proof (proj1 H E). lia.
Qed.

(** [generateFomoTickets] without the loop. *)
Lemma generateFomoTickets_unfold
    (p : Z) (draws : list float) (real : list Z) :
  generateFomoTickets p draws real =
  let sold := Z.of_nat (length real) in
  if (1800 <=? sold) || (targetCount p <=? sold) then Some real
  else
    let fresh := fresh_tickets real [] (map randomTicket draws) in
    if targetCount p - sold <=? Z.of_nat (length fresh)
    then Some (sort_ascending
                 (real ++ take (Z.to_nat (targetCount p - sold)) fresh))
    else None.
Proof.
  unfold generateFomoTickets. rewrite current_percentage_test. cbv zeta.
  destruct (Z.leb_spec 1800 (Z.of_nat (length real))) as [L|L]; [reflexivity|].
  cbn [orb].
  destruct (Z.leb_spec (targetCount p) (Z.of_nat (length real))) as [T|T].
  - rewrite Z.max_l by lia. reflexivity.
  - rewrite Z.max_r by lia. rewrite (proj2 (Z.eqb_neq _ _)) by lia.
    rewrite fomo_loop_closed_form. cbn [length Z.of_nat].
    rewrite (proj2 (Z.ltb_lt _ _)) by lia. cbv zeta. rewrite Z.sub_0_r.
    destruct (_ <=? _); reflexivity.
Qed.

End FomoFacts.

Section FomoGenerator.
Import JS JSFacts MasterCounters RaffleStore SupabaseSync SyncMore FomoFacts.
Import Scenario.

(** X13 -- when the draw loop of [generateFomoTickets] ends, and with
    what, for a percentage from 0 to 100.  If 1800 or more tickets are
    really sold, or at least as many as the target count, the real list
    is returned as it is and no random value is used.  Otherwise the loop
    ends within the supplied values of [Math.random()] exactly when the
    tickets they draw, [Math.floor(r * 10000) + 1] on doubles, include at
    least [target - sold] distinct ones outside the real list, and the
    result is the sorted real list plus the first [target - sold] such
    tickets. *)
Theorem generateFomoTickets_closed_form
    (p : Z) (draws : list float) (real : list Z) :
  0 <= p <= 100 ->
  let sold := Z.of_nat (length real) in
  let fresh := fresh_tickets real [] (map randomTicket draws) in
  (1800 <= sold \/ targetCount p <= sold ->
     generateFomoTickets p draws real = Some real)
  /\ (sold < 1800 -> sold < targetCount p ->
      targetCount p - sold <= Z.of_nat (length fresh) ->
      generateFomoTickets p draws real =
        Some (sort_ascending
                (real ++ take (Z.to_nat (targetCount p - sold)) fresh)))
  /\ (sold < 1800 -> sold < targetCount p ->
      Z.of_nat (length fresh) < targetCount p - sold ->
      generateFomoTickets p draws real = None).
Proof.
  intros _ sold fresh. rewrite generateFomoTickets_unfold. cbv zeta.
  fold sold fresh. split; [|split].
  - intros [H|H].
    + now rewrite (proj2 (Z.leb_le _ _) H).
    + rewrite (proj2 (Z.leb_le _ _) H). now rewrite orb_true_r.
  - intros H1 H2 H3.
    rewrite (proj2 (Z.leb_gt _ _) H1), (proj2 (Z.leb_gt _ _) H2).
    cbn [orb]. now rewrite (proj2 (Z.leb_le _ _) H3).
  - intros H1 H2 H3.
    rewrite (proj2 (Z.leb_gt _ _) H1), (proj2 (Z.leb_gt _ _) H2).
    cbn [orb]. now rewrite (proj2 (Z.leb_gt _ _) H3).
Qed.

(** Ticket 3 really sold, percentage 8 and the 800 random values that
    draw 1, 2, 3, ...: the draw of 3 is skipped, the loop ends after the
    800th value, and the result is 1..800; with 1800 tickets really sold
    the list comes back as it is. *)
Lemma generateFomoTickets_closed_form_witness :
  generateFomoTickets 8 draws_first_800 [3]
  = Some (Array_from 800 (fun i => i + 1))
  /\ generateFomoTickets 8 draws_first_800 (Array_from 1800 (fun i => i + 1))
     = Some (Array_from 1800 (fun i => i + 1)).
Proof.
  destruct (generateFomoTickets_closed_form 8 draws_first_800 [3]
              ltac:(lia)) as (_ & Hb & _).
  destruct (generateFomoTickets_closed_form 8 draws_first_800
              (Array_from 1800 (fun i => i + 1)) ltac:(lia)) as (Ha & _).
  split.
  - rewrite Hb.
    + vm_compute. reflexivity.
    + vm_compute. reflexivity.
    + vm_compute. reflexivity.
    + vm_compute. intros H. discriminate H.
  - apply Ha. left. vm_compute. intros H. discriminate H.
Defined.

(** X14 -- what the visual sold list looks like, for a percentage from 0
    to 100.  Whenever [generateFomoTickets] returns a list, every real
    sold ticket is in it as often as before; with fewer than 1800 real
    tickets its length is the larger of the real count and the target
    count, otherwise the real count; if the real list repeats no number
    neither does the result; every number in it is a real one or the
    ticket [Math.floor(r * 10000) + 1] drawn by one of the random values;
    and it is the real list itself or in ascending order. *)
Theorem generateFomoTickets_result
    (p : Z) (draws : list float) (real visual : list Z) :
  0 <= p <= 100 ->
  generateFomoTickets p draws real = Some visual ->
  let sold := Z.of_nat (length real) in
  real ⊆+ visual
  /\ Z.of_nat (length visual)
     = (if 1800 <=? sold then sold else Z.max sold (targetCount p))
  /\ (NoDup real -> NoDup visual)
  /\ (forall n, n ∈ visual ->
        n ∈ real \/ exists r, r ∈ draws /\ n = randomTicket r)
  /\ (visual = real \/ StronglySorted Z.le visual).
Proof.
  intros _ Hgen sold.
  rewrite generateFomoTickets_unfold in Hgen. cbv zeta in Hgen.
  fold sold in Hgen.
  set (fresh := fresh_tickets real [] (map randomTicket draws)) in *.
  destruct (Z.leb_spec 1800 sold) as [L|L].
  { cbn [orb] in Hgen. injection Hgen as <-.
    split; [reflexivity|]. split; [reflexivity|]. split; [tauto|].
    split; [intros n Hn; now left | now left]. }
  cbn [orb] in Hgen.
  destruct (Z.leb_spec (targetCount p) sold) as [T|T].
  { injection Hgen as <-.
    split; [reflexivity|]. split; [subst sold; lia|]. split; [tauto|].
    split; [intros n Hn; now left | now left]. }
  destruct (Z.leb_spec (targetCount p - sold) (Z.of_nat (length fresh)))
    as [F|F]; [|discriminate].
  injection Hgen as <-.
  destruct (fresh_tickets_spec real (map randomTicket draws) []) as [Hnd Hin].
  fold fresh in Hnd, Hin.
  split; [|split; [|split; [|split]]].
  - rewrite sort_ascending_Permutation. apply submseteq_inserts_r. reflexivity.
  - rewrite sort_ascending_Permutation, length_app, length_take. subst sold. lia.
  - intros Hreal. rewrite sort_ascending_Permutation.
    apply NoDup_app. split; [exact Hreal|]. split.
    + intros x Hx Hx'. apply elem_of_take in Hx' as (i & Hx' & _).
      apply list_elem_of_lookup_2 in Hx'. apply Hin in Hx' as (_ & Hx' & _).
      contradiction.
    + eapply sublist_NoDup; [exact Hnd | apply sublist_take].
  - intros n Hn. rewrite sort_ascending_Permutation in Hn.
    apply elem_of_app in Hn as [Hn|Hn]; [now left | right].
    apply elem_of_take in Hn as (i & Hn & _).
    apply list_elem_of_lookup_2 in Hn. apply Hin in Hn as (Hn & _).
    change (n ∈ randomTicket <$> draws) in Hn.
    apply list_elem_of_fmap in Hn as (r & -> & Hr).
    exists r. split; [exact Hr | reflexivity].
  - right. apply sort_ascending_sorted.
Qed.

(** The same run: the visual list has 800 numbers, none twice, and holds
    the real ticket 3. *)
Lemma generateFomoTickets_result_witness :
  exists visual,
    generateFomoTickets 8 draws_first_800 [3] = Some visual
    /\ Z.of_nat (length visual) = 800
    /\ NoDup visual
    /\ [3] ⊆+ visual.
Proof.
  exists (Array_from 800 (fun i => i + 1)).
  assert (generateFomoTickets 8 draws_first_800 [3]
          = Some (Array_from 800 (fun i => i + 1))) as H.
  { vm_compute. reflexivity. }
  destruct (generateFomoTickets_result 8 draws_first_800 [3] _ ltac:(lia) H)
    as (Hsub & Hlen & Hnd & _).
  split; [exact H|]. split; [exact Hlen|]. split; [|exact Hsub].
  apply Hnd. apply NoDup_singleton.
Defined.

End FomoGenerator.

(* ===================================================================== *)
(** ** The real available numbers                                         *)
(* ===================================================================== *)

Module SyncMoreFacts.
Import JS JSFacts MasterCounters RaffleStore StoreFacts SupabaseSync SyncFacts.
Import StoreActions SelectionFacts LifecycleFacts SyncMore.

Lemma available_loop_spec (U : list Z) (n : nat) (i : Z) (acc : list Z) :
  available_loop n i U acc
  = acc ++ List.filter (fun x => negb (includes U x)) (seqZ i (Z.of_nat n)).
Proof.
  revert i acc. induction n as [|n IH]; intros i acc.
  - cbn [available_loop]. now rewrite seqZ_nil, app_nil_r by lia.
  - cbn [available_loop]. rewrite IH, (seqZ_cons i (Z.of_nat (S n))) by lia.
    replace (Z.pred (Z.of_nat (S n))) with (Z.of_nat n) by lia.
    replace (Z.succ i) with (i + 1) by lia.
    cbn [List.filter]. destruct (negb (includes U i)).
    + now rewrite <- app_assoc.
    + reflexivity.
Qed.

Lemma length_filter_map {A B : Type} (f : A -> B) (p : B -> bool) (l : list A) :
  length (List.filter p (map f l))
  = length (List.filter (fun x => p (f x)) l).
Proof.
  induction l as [|x l IH]; [reflexivity|]. cbn [map List.filter].
  destruct (p (f x)); cbn [length]; now rewrite IH.
Qed.

(** The counts [fetchRealData] reads off a table are the lengths of its
    sold and reserved number lists. *)
Lemma fetchRealData_lengths (table : list DbTicket) :
  fetchRealData (Some (map db_status table))
  = (Z.of_nat (length (map db_number
       (List.filter (fun t => DbStatus_eqb (db_status t) vendido) table))),
     Z.of_nat (length (map db_number
       (List.filter (fun t => DbStatus_eqb (db_status t) reservado) table)))).
Proof.
  unfold fetchRealData, select_occupied.
  rewrite !List_filter_filter_implied
    by (intros x Hx; rewrite Hx; auto using orb_true_r).
  now rewrite !length_filter_map, !length_map.
Qed.

End SyncMoreFacts.

Section SyncMoreProps.
Import JS JSFacts MasterCounters RaffleStore StoreFacts SupabaseSync SyncFacts.
Import StoreActions SelectionFacts LifecycleFacts SyncMore SyncMoreFacts.
Import Scenario.

Lemma getRealAvailableTickets_filter (table : list DbTicket) :
  getRealAvailableTickets true (Some table)
  = List.filter
      (fun x => negb (includes
         (map db_number
            (List.filter
               (fun t => DbStatus_eqb (db_status t) vendido
                         || DbStatus_eqb (db_status t) reservado)
               table)) x))
      (seqZ 1 10000).
Proof.
  unfold getRealAvailableTickets. cbn [negb].
  rewrite available_loop_spec. cbn [app]. now rewrite Z2Nat.id by lia.
Qed.

Lemma occupied_number_iff (table : list DbTicket) (n : Z) :
  n ∈ map db_number
        (List.filter
           (fun t => DbStatus_eqb (db_status t) vendido
                     || DbStatus_eqb (db_status t) reservado) table)
  <-> exists row, row ∈ table /\ db_number row = n
                  /\ db_status row <> disponible.
Proof.
  change (map db_number ?l) with (db_number <$> l).
  rewrite list_elem_of_fmap. split.
  - intros (row & -> & Hrow). apply elem_of_List_filter in Hrow as [Hrow Hst].
    exists row. split; [exact Hrow|]. split; [reflexivity|].
    intros E. rewrite E in Hst. discriminate.
  - intros (row & Hrow & <- & Hst). exists row. split; [reflexivity|].
    apply elem_of_List_filter. split; [exact Hrow|].
    destruct (db_status row); [contradiction | reflexivity | reflexivity].
Qed.

Lemma sold_or_reserved_number (table : list DbTicket) (n : Z) :
  n ∈ map db_number
        (List.filter (fun t => DbStatus_eqb (db_status t) vendido) table)
      ++ map db_number
           (List.filter (fun t => DbStatus_eqb (db_status t) reservado) table)
  <-> exists row, row ∈ table /\ db_number row = n
                  /\ db_status row <> disponible.
Proof.
  rewrite elem_of_app.
  change (map db_number ?l) with (db_number <$> l).
  rewrite !list_elem_of_fmap. split.
  - intros [(row & -> & Hrow)|(row & -> & Hrow)];
      apply elem_of_List_filter in Hrow as [Hrow Hst];
      exists row; (split; [exact Hrow|]); (split; [reflexivity|]);
      intros E; rewrite E in Hst; discriminate.
  - intros (row & Hrow & <- & Hst).
    destruct (db_status row) eqn:E; [contradiction|right|left];
      exists row; (split; [reflexivity|]); apply elem_of_List_filter;
      (split; [exact Hrow|]); now rewrite E.
Qed.

Lemma sync_available_is_real (table : list DbTicket) (s : RaffleState) :
  availableTickets (syncStoreFromTable table s)
  = getRealAvailableTickets true (Some table).
Proof.
  destruct (syncStoreFromTable_lists table s) as (s0 & Hsync & Hs & Hr).
  rewrite Hsync, availableTickets_update, getRealAvailableTickets_filter.
  apply List.filter_ext. intros n. f_equal. rewrite Hs, Hr.
  apply eq_true_iff_eq. rewrite !includes_spec.
  now rewrite sold_or_reserved_number, occupied_number_iff.
Qed.

Lemma availableTickets_length_eq (s : RaffleState) :
  Z.of_nat (length (RaffleStore.availableTickets s)) = availableTickets_length s.
Proof. reflexivity. Qed.

Lemma real_available_count (table : list DbTicket) (now : Z) :
  NoDup (map db_number table) ->
  Forall (fun row => 1 <= db_number row <= 10000) table ->
  Z.of_nat (length (getRealAvailableTickets true (Some table)))
  = MasterCounters.availableTickets
      (updateMasterCounters (Some (map db_status table)) false now).
Proof.
  intros Hnd Hrange.
  rewrite <- (sync_available_is_real table initialState).
  destruct (syncStoreFromTable_lists table initialState)
    as (s0 & Hsync & Hs & Hr).
  rewrite Hsync.
  assert (lists_consistent s0) as Hc.
  { unfold lists_consistent. rewrite Hs, Hr.
    split; [now apply table_lists_NoDup | now apply table_lists_range]. }
  rewrite availableTickets_length_eq, (consistent_available s0 Hc).
  unfold updateMasterCounters. rewrite fetchRealData_lengths.
  cbn [newData MasterCounters.availableTickets].
  unfold soldTickets_length, reservedTickets_length. rewrite Hs, Hr.
  unfold TOTAL_TICKETS, MasterCounters.TOTAL_TICKETS. lia.
Qed.

(** X16 -- the real available numbers, list and count.  Offline or on a
    query error [getRealAvailableTickets] returns the empty list.
    Otherwise it returns the numbers of 1..10000 that no sold or reserved
    row carries, which is the available list the store holds after the
    sync of [updateMasterCounters] on the same table; and when the rows
    of the table carry distinct numbers of 1..10000, their count is the
    available count that [updateMasterCounters] publishes. *)
Theorem real_available_agreement (table : list DbTicket) (s : RaffleState) :
  (forall query, getRealAvailableTickets false query = [])
  /\ getRealAvailableTickets true None = []
  /\ (forall n, n ∈ getRealAvailableTickets true (Some table) <->
        (1 <= n <= 10000)
        /\ forall row, row ∈ table -> db_number row = n ->
             db_status row = disponible)
  /\ availableTickets (syncStoreFromTable table s)
     = getRealAvailableTickets true (Some table)
  /\ (NoDup (map db_number table) ->
      Forall (fun row => 1 <= db_number row <= 10000) table ->
      forall now,
        Z.of_nat (length (getRealAvailableTickets true (Some table)))
        = MasterCounters.availableTickets
            (updateMasterCounters (Some (map db_status table)) false now)).
Proof.
  split; [reflexivity|]. split; [reflexivity|]. split; [|split].
  - intros n.
    rewrite getRealAvailableTickets_filter, elem_of_List_filter, elem_of_seqZ.
    rewrite negb_true_iff, includes_false, occupied_number_iff. split.
    + intros [[H1 H2] Hno]. split; [lia|]. intros row Hrow Hn.
      destruct (db_status row) eqn:E; [reflexivity| |]; exfalso; apply Hno;
        exists row; (split; [exact Hrow|]); (split; [exact Hn|]);
        rewrite E; discriminate.
    + intros [H Hall]. split; [lia|]. intros (row & Hrow & Hn & Hst).
      apply Hst. now apply Hall.
  - apply sync_available_is_real.
  - intros Hnd Hrange now. now apply real_available_count.
Qed.

End SyncMoreProps.

(* ===================================================================== *)
(** ** What the counter hooks show                                        *)
(* ===================================================================== *)

Module CounterHooksFacts.
Import MasterCounters MasterCountersFacts CounterHooks.

(** The two branches of [calculateFOMO], by the real count. *)
Lemma calculateFOMO_on (sold : Z) :
  sold < 1800 ->
  calculateFOMO sold
  = {| fomoCount := 1200; displaySoldCount := sold + 1200; isActive := true |}.
Proof.
  intros H. unfold calculateFOMO.
  destruct (Qle_bool _ _) eqn:E; [|reflexivity].
  apply threshold_test_iff in E. lia.
Qed.

Lemma calculateFOMO_off (sold : Z) :
  1800 <= sold ->
  calculateFOMO sold
  = {| fomoCount := 0; displaySoldCount := sold; isActive := false |}.
Proof.
  intros H. unfold calculateFOMO.
  now rewrite (proj2 (threshold_test_iff sold) H).
Qed.

(** The shapes a published snapshot can have. *)
Lemma published_cases (data : MasterCounterData) :
  published data ->
  (isConnected data = false /\ totalTickets data = 10000
   /\ soldTickets data = 0 /\ reservedTickets data = 0
   /\ availableTickets data = 10000 /\ fomoSoldTickets data = 800
   /\ fomoIsActive data = true)
  \/ (exists sold reserved now,
        data = newData sold reserved now /\ 0 <= sold /\ 0 <= reserved).
Proof.
  intros [now|query thrown now].
  - left. cbn. repeat split; reflexivity.
  - unfold updateMasterCounters. destruct thrown.
    + left. cbn. repeat split; reflexivity.
    + right. destruct query as [table|]; cbn [fetchRealData].
      * eexists _, _, now. split; [reflexivity|]. split; apply Nat2Z.is_nonneg.
      * exists 0, 0, now. split; [reflexivity|]. split; reflexivity.
Qed.

End CounterHooksFacts.

Section CounterHooksProps.
Import MasterCounters MasterCountersFacts CounterHooks CounterHooksFacts.

(** X17 -- what [testMathConsistency] tests.  Without a master counter
    instance it fails.  On an instance it passes exactly when real sold +
    available + reserved equals the total: its display test passes on
    every instance, and its separation test is the real test again.  It
    passes on every snapshot the master counter publishes, and
    [validateDisplayHooks] returns true whatever the counts are. *)
Theorem testMathConsistency_meaning :
  testMathConsistency None = false
  /\ (forall d, testMathConsistency (Some d) = true <->
         soldTickets d + availableTickets d + reservedTickets d
         = totalTickets d)
  /\ (forall d, published d -> testMathConsistency (Some d) = true)
  /\ (forall displaySoldCount reserved,
         validateDisplayHooks displaySoldCount reserved = true).
Proof.
  assert (forall d, testMathConsistency (Some d) = true <->
            soldTickets d + availableTickets d + reservedTickets d
            = totalTickets d) as Hiff.
  { intros d. unfold testMathConsistency. cbv zeta.
    rewrite !andb_true_iff, !Z.eqb_eq. lia. }
  split; [reflexivity|]. split; [exact Hiff|]. split.
  - intros d Hd. apply Hiff.
    destruct (published_cases d Hd)
      as [(_ & Ht & Hs & Hr & Ha & _)|(sold & reserved & now & -> & _)].
    + rewrite Ht, Hs, Hr, Ha. reflexivity.
    + cbn [newData soldTickets availableTickets reservedTickets totalTickets].
      lia.
  - intros ds r. unfold validateDisplayHooks, TOTAL_TICKETS. cbv zeta.
    replace (ds + (10000 - ds - r) + r) with 10000 by lia. reflexivity.
Qed.

(** X18 -- what the admin hook reports about the overlay.  On every
    published snapshot the display available count of [useAdminCounters]
    is the real available count minus [fomo.difference], and
    [useTicketStats], [useBasicCounters] and [useDisplayStats] show the
    same display available count.  The difference is 1200 while the
    overlay is on after a successful recompute, 0 once it is off, and 800
    on the placeholder and fallback snapshots, although [fomo.fomoAmount]
    always says 1200. *)
Theorem admin_counters_relation (data : MasterCounterData) :
  published data ->
  let a := useAdminCounters data in
  display_availableTickets a = real_availableTickets a - fomo_difference a
  /\ ts_fomoAvailable (useTicketStats data) = display_availableTickets a
  /\ bc_availableTickets (useBasicCounters data) = display_availableTickets a
  /\ ds_availableCount (useDisplayStats data) = display_availableTickets a
  /\ fomo_fomoAmount a = 1200
  /\ fomo_difference a
     = (if isConnected data
        then if fomoIsActive data then 1200 else 0
        else 800).
Proof.
  intros Hd a. subst a.
  destruct (published_cases data Hd)
    as [(Hc & _ & Hs & Hr & Ha & Hf & _)|(sold & reserved & now & -> & _)].
  - cbn [useAdminCounters useTicketStats useBasicCounters useDisplayStats
         display_availableTickets real_availableTickets fomo_difference
         fomo_fomoAmount ts_fomoAvailable bc_availableTickets
         ds_availableCount].
    rewrite Hc, Hs, Hr, Ha, Hf. unfold TOTAL_TICKETS.
    repeat split; reflexivity.
  - cbn [useAdminCounters useTicketStats useBasicCounters useDisplayStats
         display_availableTickets real_availableTickets fomo_difference
         fomo_fomoAmount ts_fomoAvailable bc_availableTickets
         ds_availableCount newData soldTickets reservedTickets
         availableTickets fomoSoldTickets fomoIsActive isConnected].
    destruct (Z.lt_ge_cases sold 1800) as [L|L].
    + rewrite (calculateFOMO_on sold L). cbn [displaySoldCount isActive].
      repeat split; lia.
    + rewrite (calculateFOMO_off sold L). cbn [displaySoldCount isActive].
      repeat split; lia.
Qed.

(** After a recompute on a table with two sold and one reserved ticket
    the overlay is on: 9997 really available, 8797 shown. *)
Lemma admin_counters_relation_witness :
  let a := useAdminCounters
             (updateMasterCounters
                (Some [vendido; reservado; disponible; vendido]) false 0) in
  real_availableTickets a = 9997
  /\ display_availableTickets a = 8797
  /\ fomo_difference a = 1200.
Proof.
  destruct (admin_counters_relation
              (updateMasterCounters
                 (Some [vendido; reservado; disponible; vendido]) false 0)
              (published_update _ _ _)) as (Hd & _ & _ & _ & _ & Hf).
  intros a. split; [reflexivity|]. split; [|exact Hf].
  subst a. rewrite Hd. reflexivity.
Defined.

(** X19 -- the public sold counter is not monotone.  [calculateFOMO]
    never shows less than the real count and never more than 1200 above
    it, and the shown count grows with the real one as long as both
    counts are on the same side of 1800.  Across it the shown count falls:
    from a real count below 1800 to one at or above 1800 the shown count
    is smaller exactly when fewer than 1200 tickets were sold in between;
    the sale of ticket 1800 takes it from 2999 to 1800. *)
Theorem display_sold_not_monotone :
  (forall sold,
     sold <= displaySoldCount (calculateFOMO sold) <= sold + 1200)
  /\ (forall sold sold',
        sold <= sold' -> (sold' < 1800 \/ 1800 <= sold) ->
        displaySoldCount (calculateFOMO sold)
        <= displaySoldCount (calculateFOMO sold'))
  /\ (forall sold sold',
        sold < 1800 -> 1800 <= sold' ->
        (displaySoldCount (calculateFOMO sold')
         < displaySoldCount (calculateFOMO sold)
         <-> sold' < sold + 1200))
  /\ (forall reserved now,
        fomoSoldTickets (newData 1799 reserved now) = 2999
        /\ fomoSoldTickets (newData 1800 reserved now) = 1800).
Proof.
  split; [|split; [|split]].
  - intros sold. destruct (Z.lt_ge_cases sold 1800) as [L|L].
    + rewrite (calculateFOMO_on sold L). cbn. lia.
    + rewrite (calculateFOMO_off sold L). cbn. lia.
  - intros sold sold' Hle [H|H].
    + rewrite (calculateFOMO_on sold), (calculateFOMO_on sold') by lia.
      cbn. lia.
    + rewrite (calculateFOMO_off sold), (calculateFOMO_off sold') by lia.
      cbn. lia.
  - intros sold sold' H H'.
    rewrite (calculateFOMO_on sold H), (calculateFOMO_off sold' H').
    cbn. lia.
  - intros reserved now. split; reflexivity.
Qed.

End CounterHooksProps.

(* ===================================================================== *)
(** ** The tickets table: expiry, sale and reservation                    *)
(* ===================================================================== *)

Module TableFacts.
Import JS JSFacts MasterCounters.

(** The counts [fetchRealData] reads off a list of statuses. *)
Lemma fetchRealData_counts (sts : list DbStatus) :
  fetchRealData (Some sts)
  = (Z.of_nat (length (List.filter (fun s => DbStatus_eqb s vendido) sts)),
     Z.of_nat (length (List.filter (fun s => DbStatus_eqb s reservado) sts))).
Proof.
  unfold fetchRealData, select_occupied.
  rewrite !SyncFacts.List_filter_filter_implied
    by (intros x Hx; rewrite Hx; auto using orb_true_r).
  reflexivity.
Qed.

(** The same, off the rows of a table. *)
Lemma table_counts {A : Type} (st : A -> DbStatus) (table : list A) :
  fetchRealData (Some (map st table))
  = (Z.of_nat (length (List.filter (fun t => DbStatus_eqb (st t) vendido)
                                   table)),
     Z.of_nat (length (List.filter (fun t => DbStatus_eqb (st t) reservado)
                                   table))).
Proof.
  rewrite fetchRealData_counts, !SyncMoreFacts.length_filter_map. reflexivity.
Qed.

(** Counting the rows of one status after a row-wise update that only
    touches the rows selected by [hit] and gives them the status [to]. *)
Lemma count_after_update {A : Type}
    (st : A -> DbStatus) (hit : A -> bool) (upd : A -> A) (to : DbStatus)
    (table : list A) :
  (forall t, hit t = true -> st (upd t) = to) ->
  (forall t, hit t = false -> upd t = t) ->
  forall s,
    Z.of_nat (length (List.filter (fun t => DbStatus_eqb (st t) s)
                                  (map upd table)))
    = Z.of_nat (length (List.filter (fun t => DbStatus_eqb (st t) s) table))
      - Z.of_nat (length (List.filter
                            (fun t => hit t && DbStatus_eqb (st t) s) table))
      + (if DbStatus_eqb to s
         then Z.of_nat (length (List.filter hit table)) else 0).
Proof.
  intros Hhit Hmiss s.
  induction table as [|t table IH]; [now destruct (DbStatus_eqb to s)|].
  cbn [map List.filter]. destruct (hit t) eqn:E.
  - rewrite (Hhit t E). cbn [andb].
    destruct (DbStatus_eqb to s), (DbStatus_eqb (st t) s);
      cbn [length]; lia.
  - rewrite (Hmiss t E). cbn [andb].
    destruct (DbStatus_eqb to s), (DbStatus_eqb (st t) s);
      cbn [length]; lia.
Qed.

Lemma DbStatus_eqb_eq (a b : DbStatus) : DbStatus_eqb a b = true <-> a = b.
Proof. destruct a, b; cbn; split; congruence. Qed.

Lemma length_filter_le {A : Type} (p q : A -> bool) (l : list A) :
  (forall x, p x = true -> q x = true) ->
  (length (List.filter p l) <= length (List.filter q l))%nat.
Proof.
  intros H. induction l as [|x l IH]; [reflexivity|]. cbn [List.filter].
  destruct (p x) eqn:E.
  - rewrite (H x E). cbn [length]. lia.
  - destruct (q x); cbn [length]; lia.
Qed.

End TableFacts.

Section TableProps.
Import JS JSFacts MasterCounters Supabase SelectionFacts TableFacts.

(** X20 -- what [liberarReservasExpiradas] releases.  A row is released
    when it is reserved and its reservation instant lies before the
    expiry instant.  Every such row becomes available, without customer
    and without reservation instant, its other columns kept; every other
    row stays as it is; the number returned is the number of such rows.
    So the numbers and the sold rows of the table are kept, the reserved
    count of [fetchRealData] falls by the number returned and the sold
    count stays.  Run again on its own result the function releases
    nothing, a run with a later expiry instant makes an earlier run
    superfluous, and a reserved row without a reservation instant is
    never released. *)
Theorem liberarReservasExpiradas_effect
    (tiempoExpiracion : Z) (table : list Ticket) :
  let table' := fst (liberarReservasExpiradas tiempoExpiracion table) in
  let released := snd (liberarReservasExpiradas tiempoExpiracion table) in
  let counts := fetchRealData (Some (map status table)) in
  let expired t :=
    status t = reservado
    /\ exists r, reserved_at t = Some r /\ r < tiempoExpiracion in
  (forall t, reserva_expirada tiempoExpiracion t = true <-> expired t)
  /\ (forall i t, table !! i = Some t -> expired t ->
        table' !! i
        = Some {| id := id t; number := number t; status := disponible;
                  customer_id := None; purchase_id := purchase_id t;
                  reserved_at := None; sold_at := sold_at t;
                  created_at := created_at t |})
  /\ (forall i t, table !! i = Some t -> ~ expired t -> table' !! i = Some t)
  /\ length table' = length table
  /\ released
     = Z.of_nat (length (List.filter (reserva_expirada tiempoExpiracion)
                                     table))
  /\ map number table' = map number table
  /\ List.filter (eq_status vendido) table'
     = List.filter (eq_status vendido) table
  /\ fetchRealData (Some (map status table'))
     = (fst counts, snd counts - released)
  /\ 0 <= released <= snd counts
  /\ liberarReservasExpiradas tiempoExpiracion table' = (table', 0)
  /\ (forall later, tiempoExpiracion <= later ->
        fst (liberarReservasExpiradas later table')
        = fst (liberarReservasExpiradas later table))
  /\ (forall t, t ∈ table -> status t = reservado -> reserved_at t = None ->
        t ∈ table').
Proof.
  intros table' released counts expired.
  set (upd := fun t =>
         if reserva_expirada tiempoExpiracion t
         then {| id := id t; number := number t; status := disponible;
                 customer_id := None; purchase_id := purchase_id t;
                 reserved_at := None; sold_at := sold_at t;
                 created_at := created_at t |}
         else t).
  assert (table' = map upd table) as Ht by reflexivity.
  assert (released
          = Z.of_nat (length (List.filter (reserva_expirada tiempoExpiracion)
                                          table))) as Hr by reflexivity.
  assert (forall t, reserva_expirada tiempoExpiracion t = true ->
            status (upd t) = disponible) as Hhit.
  { intros t E. unfold upd. now rewrite E. }
  assert (forall t, reserva_expirada tiempoExpiracion t = false ->
            upd t = t) as Hmiss.
  { intros t E. unfold upd. now rewrite E. }
  assert (forall t, reserva_expirada tiempoExpiracion t = true ->
            status t = reservado) as Hres.
  { intros t E. apply andb_true_iff in E as [E _].
    now apply DbStatus_eqb_eq in E. }
  assert (forall te t, reserva_expirada te (upd t) = true ->
            reserva_expirada tiempoExpiracion t = false) as Hnot.
  { intros te t E. destruct (reserva_expirada tiempoExpiracion t) eqn:F;
      [|reflexivity].
    unfold upd in E. rewrite F in E. discriminate. }
  assert (forall t, reserva_expirada tiempoExpiracion t = true <-> expired t)
    as Hexp.
  { intros t. unfold reserva_expirada, eq_status, expired.
    rewrite andb_true_iff, DbStatus_eqb_eq. split.
    - intros [Hs Hr']. split; [exact Hs|].
      destruct (reserved_at t) as [r|]; [|discriminate].
      exists r. split; [reflexivity|]. now apply Z.ltb_lt.
    - intros [Hs (r & -> & Hr')]. split; [exact Hs|]. now apply Z.ltb_lt. }
  split; [exact Hexp|].
  split; [|split; [|split; [|split; [exact Hr|]]]].
  { intros i t Hi He. rewrite Ht.
    change (map upd table) with (upd <$> table).
    rewrite list_lookup_fmap, Hi. cbn [fmap option_fmap option_map].
    unfold upd. now rewrite (proj2 (Hexp t) He). }
  { intros i t Hi He. rewrite Ht.
    change (map upd table) with (upd <$> table).
    rewrite list_lookup_fmap, Hi. cbn [fmap option_fmap option_map].
    rewrite Hmiss; [reflexivity|].
    destruct (reserva_expirada tiempoExpiracion t) eqn:E; [|reflexivity].
    exfalso. now apply He, Hexp. }
  { rewrite Ht. apply length_map. }
  split; [|split; [|split; [|split; [|split; [|split]]]]].
  - rewrite Ht, map_map. apply map_ext. intros t. unfold upd.
    now destruct (reserva_expirada _ t).
  - rewrite Ht. clear -Hhit Hmiss Hres.
    induction table as [|t table IH]; [reflexivity|]. cbn [map List.filter].
    destruct (reserva_expirada tiempoExpiracion t) eqn:E.
    + assert (eq_status vendido (upd t) = false) as ->.
      { unfold eq_status. now rewrite (Hhit t E). }
      assert (eq_status vendido t = false) as ->.
      { unfold eq_status. now rewrite (Hres t E). }
      exact IH.
    + rewrite (Hmiss t E). destruct (eq_status vendido t); now rewrite IH.
  - subst counts. rewrite Ht, !table_counts. cbn [fst snd].
    rewrite !(count_after_update status _ upd disponible table Hhit Hmiss).
    cbn [DbStatus_eqb]. rewrite Hr. f_equal.
    + rewrite (List_filter_none (fun t => _ && DbStatus_eqb (status t) vendido)).
      * cbn [length]. lia.
      * apply Forall_forall. intros t _.
        destruct (reserva_expirada tiempoExpiracion t) eqn:E; [|reflexivity].
        now rewrite (Hres t E).
    + enough (List.filter
                (fun t => reserva_expirada tiempoExpiracion t
                          && DbStatus_eqb (status t) reservado) table
              = List.filter (reserva_expirada tiempoExpiracion) table) as ->
        by lia.
      apply List.filter_ext. intros t.
      destruct (reserva_expirada tiempoExpiracion t) eqn:E; [|reflexivity].
      now rewrite (Hres t E).
  - rewrite Hr. subst counts. rewrite table_counts. cbn [snd].
    split; [lia|]. apply inj_le, length_filter_le.
    intros t E. apply andb_true_iff in E as [E _]. exact E.
  - unfold liberarReservasExpiradas at 1. fold upd. f_equal.
    + rewrite Ht, map_map. apply map_ext. intros t.
      destruct (reserva_expirada tiempoExpiracion (upd t)) eqn:E;
        [|now apply Hmiss].
      apply Hnot in E as F. rewrite (Hmiss t F) in E. congruence.
    + rewrite (List_filter_none _ table'); [reflexivity|].
      rewrite Ht. apply Forall_forall. intros t' Ht'.
      apply list_elem_of_fmap in Ht' as (t & -> & _).
      destruct (reserva_expirada tiempoExpiracion (upd t)) eqn:E;
        [|reflexivity].
      apply Hnot in E as F. rewrite (Hmiss t F) in E. congruence.
  - intros later Hle. cbn [liberarReservasExpiradas fst].
    rewrite Ht, map_map. apply map_ext. intros t.
    destruct (reserva_expirada tiempoExpiracion t) eqn:E.
    + assert (reserva_expirada later t = true) as E'.
      { apply andb_true_iff in E as [E1 E2]. apply andb_true_iff.
        split; [exact E1|]. destruct (reserved_at t); [|discriminate].
        apply Z.ltb_lt in E2. apply Z.ltb_lt. lia. }
      rewrite E'. unfold upd. rewrite E. reflexivity.
    + now rewrite (Hmiss t E).
  - intros t Hin Hst Hnone. rewrite Ht.
    apply list_elem_of_fmap. exists t. split; [|exact Hin].
    symmetry. apply Hmiss. unfold reserva_expirada. rewrite Hnone.
    apply andb_false_r.
Qed.

(** X21 -- the hook's [markTicketsAsSold] asks no questions.  Offline or
    on an error it returns false and the table is as it was.  Otherwise
    it returns true and every row with a requested number is sold to the
    given customer at the given instant, whatever its status and owner
    were, a ticket already sold to somebody else included; the other rows
    are untouched, the sold count of [fetchRealData] grows by the number
    of requested rows that were not sold, and the reserved count falls by
    the number of requested rows that were reserved. *)
Theorem sync_markTicketsAsSold_effect
    (table : list Ticket) (ticketNumbers : list Z)
    (customerId : string) (now : Z) :
  let run := SyncTable.markTicketsAsSold true false table
               ticketNumbers customerId now in
  let table' := fst run in
  let requested st :=
    Z.of_nat (length (List.filter
                        (fun t => includes ticketNumbers (number t)
                                  && DbStatus_eqb (status t) st) table)) in
  let counts := fetchRealData (Some (map status table)) in
  (forall isConnected failed,
     isConnected = false \/ failed = true ->
     SyncTable.markTicketsAsSold isConnected failed table
       ticketNumbers customerId now = (table, false))
  /\ snd run = true
  /\ map number table' = map number table
  /\ (forall t', t' ∈ table' -> number t' ∈ ticketNumbers ->
        status t' = vendido /\ customer_id t' = Some customerId
        /\ sold_at t' = Some now)
  /\ (forall t, t ∈ table -> number t ∉ ticketNumbers -> t ∈ table')
  /\ fetchRealData (Some (map status table'))
     = (fst counts + requested disponible + requested reservado,
        snd counts - requested reservado).
Proof.
  intros run table' requested counts.
  set (upd := SyncTable.markSoldRow ticketNumbers customerId now).
  set (hit := fun t : Ticket => includes ticketNumbers (number t)).
  assert (table' = map upd table) as Ht by reflexivity.
  assert (forall t, hit t = true -> status (upd t) = vendido) as Hhit.
  { intros t E. unfold upd, SyncTable.markSoldRow. unfold hit in E.
    now rewrite E. }
  assert (forall t, hit t = false -> upd t = t) as Hmiss.
  { intros t E. unfold upd, SyncTable.markSoldRow. unfold hit in E.
    now rewrite E. }
  split; [|split; [reflexivity|split; [|split; [|split]]]].
  - intros c f [-> | ->]; [reflexivity | now destruct c].
  - rewrite Ht, map_map. apply map_ext. intros t.
    unfold upd, SyncTable.markSoldRow. now destruct (includes _ _).
  - intros t' Hin Hnum. rewrite Ht in Hin.
    apply list_elem_of_fmap in Hin as (t & -> & _).
    unfold upd, SyncTable.markSoldRow in *.
    destruct (includes ticketNumbers (number t)) eqn:E.
    + cbn. repeat split; reflexivity.
    + apply includes_spec in Hnum. congruence.
  - intros t Hin Hnum. rewrite Ht. apply list_elem_of_fmap.
    exists t. split; [|exact Hin]. symmetry. apply Hmiss.
    now apply includes_false.
  - subst counts. rewrite Ht, !table_counts. cbn [fst snd].
    rewrite !(count_after_update status hit upd vendido table Hhit Hmiss).
    cbn [DbStatus_eqb]. subst requested. cbv beta. fold hit.
    assert (Z.of_nat (length (List.filter hit table))
            = Z.of_nat (length (List.filter
                 (fun t => hit t && DbStatus_eqb (status t) disponible) table))
              + Z.of_nat (length (List.filter
                 (fun t => hit t && DbStatus_eqb (status t) reservado) table))
              + Z.of_nat (length (List.filter
                 (fun t => hit t && DbStatus_eqb (status t) vendido) table)))
      as Hsplit.
    { clear. induction table as [|t table IH]; [reflexivity|].
      cbn [List.filter]. destruct (hit t); cbn [andb]; [|exact IH].
      destruct (status t); cbn [DbStatus_eqb length]; lia. }
    unfold hit in *. f_equal; lia.
Qed.

End TableProps.

Section ReserveAgain.
Import JS JSFacts MasterCounters SupabaseSync SelectionFacts TableFacts.

(** X22 -- a second reservation of the same numbers.  After a successful
    [reserveTicketsInDB], the sold count of [fetchRealData] is unchanged
    and the reserved count has grown by the number of requested rows that
    were available.  The same request made again, by any customer,
    returns true although it changes no row; in general the call returns
    true and leaves the table as it is whenever none of the requested
    rows is available. *)
Theorem reserveTicketsInDB_second_call
    (table : list DbTicket) (ticketNumbers : list Z)
    (customerId nowIso customerId' nowIso' : string) :
  let table1 := fst (reserveTicketsInDB true false table
                       ticketNumbers customerId nowIso) in
  let counts := fetchRealData (Some (map db_status table)) in
  fetchRealData (Some (map db_status table1))
  = (fst counts,
     snd counts
     + Z.of_nat (length (List.filter
                           (fun row => includes ticketNumbers (db_number row)
                                       && DbStatus_eqb (db_status row)
                                                       disponible) table)))
  /\ reserveTicketsInDB true false table1 ticketNumbers customerId' nowIso'
     = (table1, true)
  /\ ((forall row, row ∈ table -> db_number row ∈ ticketNumbers ->
         db_status row <> disponible) ->
      reserveTicketsInDB true false table ticketNumbers customerId nowIso
      = (table, true)).
Proof.
  intros table1 counts.
  assert (forall c t (l : list DbTicket),
            (forall row, row ∈ l -> db_number row ∈ ticketNumbers ->
               db_status row <> disponible) ->
            reserveTicketsInDB true false l ticketNumbers c t = (l, true))
    as Hnone.
  { intros c t l H. cbn [reserveTicketsInDB negb]. f_equal.
    rewrite <- (map_id l) at 2. apply map_ext_in. intros row Hrow.
    apply list_elem_of_In in Hrow. unfold reserveRow.
    destruct (includes ticketNumbers (db_number row)) eqn:E; [|reflexivity].
    apply includes_spec in E. specialize (H row Hrow E).
    destruct (db_status row); cbn; congruence. }
  set (hit := fun row => includes ticketNumbers (db_number row)
                         && DbStatus_eqb (db_status row) disponible).
  set (upd := reserveRow ticketNumbers customerId nowIso).
  assert (table1 = map upd table) as Ht by reflexivity.
  assert (forall t, hit t = true -> db_status (upd t) = reservado) as Hhit.
  { intros t E. unfold upd, reserveRow. unfold hit in E. now rewrite E. }
  assert (forall t, hit t = false -> upd t = t) as Hmiss.
  { intros t E. unfold upd, reserveRow. unfold hit in E. now rewrite E. }
  split; [|split].
  - subst counts. rewrite Ht, !table_counts. cbn [fst snd].
    rewrite !(count_after_update db_status hit upd reservado table Hhit Hmiss).
    cbn [DbStatus_eqb].
    rewrite !(List_filter_none (fun t => hit t && _)).
    + cbn [length]. f_equal; lia.
    + apply Forall_forall. intros t _. unfold hit.
      now destruct (db_status t), (includes _ _).
    + apply Forall_forall. intros t _. unfold hit.
      now destruct (db_status t), (includes _ _).
  - apply Hnone. intros row Hrow Hnum. rewrite Ht in Hrow.
    apply list_elem_of_fmap in Hrow as (t & -> & _).
    destruct (hit t) eqn:E.
    + rewrite (Hhit t E). discriminate.
    + rewrite (Hmiss t E) in *. intros Hst. unfold hit in E.
      apply includes_spec in Hnum. rewrite Hnum, Hst in E. discriminate.
  - apply Hnone.
Qed.

End ReserveAgain.

(* ===================================================================== *)
(** ** Tickets of a purchase: assignment, confirmation, cancellation      *)
(* ===================================================================== *)

Module PurchaseFacts.
Import JS JSFacts MasterCounters Supabase SelectionFacts TableFacts.

#[local] Instance number_le_trans : Transitive number_le.
Proof. intros a b c. unfold number_le. lia. Qed.

#[local] Instance number_le_total : Total number_le.
Proof. intros a b. unfold number_le. lia. Qed.

Lemma order_by_number_Permutation (rows : list Ticket) :
  order_by_number rows ≡ₚ rows.
Proof. apply merge_sort_Permutation. Qed.

Lemma order_by_number_sorted (rows : list Ticket) :
  StronglySorted number_le (order_by_number rows).
Proof. apply StronglySorted_merge_sort; apply _. Qed.

(** Rows with distinct numbers are told apart by their numbers. *)
Lemma number_inj (table : list Ticket) (a b : Ticket) :
  NoDup (map number table) -> a ∈ table -> b ∈ table ->
  number a = number b -> a = b.
Proof.
  induction table as [|t table IH]; intros Hnd Ha Hb E; [inversion Ha|].
  cbn [map] in Hnd. apply NoDup_cons in Hnd as [Hnot Hnd].
  apply elem_of_cons in Ha as [->|Ha], Hb as [->|Hb].
  - reflexivity.
  - exfalso. apply Hnot. rewrite E. now apply list_elem_of_fmap_2.
  - exfalso. apply Hnot. rewrite <- E. now apply list_elem_of_fmap_2.
  - now apply IH.
Qed.

Lemma select_disponibles_elem (n : Z) (table : list Ticket) (t : Ticket) :
  t ∈ select_disponibles n table -> t ∈ table /\ status t = disponible.
Proof.
  intros H. unfold select_disponibles in H.
  apply elem_of_take in H as (i & H & _). apply list_elem_of_lookup_2 in H.
  rewrite order_by_number_Permutation in H.
  apply elem_of_List_filter in H as [H1 H2].
  split; [exact H1 | now apply DbStatus_eqb_eq in H2].
Qed.

Lemma select_disponibles_NoDup (n : Z) (table : list Ticket) :
  NoDup (map number table) -> NoDup (select_disponibles n table).
Proof.
  intros H. apply NoDup_fmap_1 in H. unfold select_disponibles.
  eapply sublist_NoDup; [|apply sublist_take].
  rewrite order_by_number_Permutation. now apply NoDup_List_filter.
Qed.

Lemma select_disponibles_length (n : Z) (table : list Ticket) :
  0 <= n ->
  Z.of_nat (length (select_disponibles n table))
  = Z.min n (Z.of_nat (length (List.filter (eq_status disponible) table))).
Proof.
  intros H. unfold select_disponibles.
  rewrite length_take, order_by_number_Permutation. lia.
Qed.

(** The rows that the update of [asignarNumerosDisponibles] hits are the
    chosen ones. *)
Lemma hit_iff (n : Z) (table : list Ticket) (t : Ticket) :
  NoDup (map number table) -> t ∈ table ->
  includes (map number (select_disponibles n table)) (number t) = true
  <-> t ∈ select_disponibles n table.
Proof.
  intros Hnd Ht. rewrite includes_spec. split.
  - intros H. apply list_elem_of_fmap in H as (c & E & Hc).
    destruct (select_disponibles_elem n table c Hc) as [Hc' _].
    now rewrite (number_inj table t c Hnd Ht Hc' E).
  - intros H. now apply list_elem_of_fmap_2.
Qed.

Lemma hit_rows (n : Z) (table : list Ticket) :
  NoDup (map number table) ->
  List.filter (fun t => includes (map number (select_disponibles n table)) (number t))
              table
  ≡ₚ select_disponibles n table.
Proof.
  intros Hnd. apply NoDup_Permutation.
  - apply NoDup_List_filter. now apply NoDup_fmap_1 in Hnd.
  - now apply select_disponibles_NoDup.
  - intros t. rewrite elem_of_List_filter. split.
    + intros [Ht H]. now apply (hit_iff n table t Hnd Ht).
    + intros H. destruct (select_disponibles_elem n table t H) as [Ht _].
      split; [exact Ht|]. now apply hit_iff.
Qed.

Lemma hit_disponible (n : Z) (table : list Ticket) (t : Ticket) :
  NoDup (map number table) -> t ∈ table ->
  includes (map number (select_disponibles n table)) (number t) = true ->
  status t = disponible.
Proof.
  intros Hnd Ht H. apply (hit_iff n table t Hnd Ht) in H.
  now destruct (select_disponibles_elem n table t H).
Qed.

(** What a successful [asignarNumerosDisponibles] is. *)
Lemma asignar_success
    (purchaseId customerId : string) (n ahora : Z) (table : list Ticket) :
  0 <= n ->
  n <= Z.of_nat (length (List.filter (eq_status disponible) table)) ->
  let nums := map number (select_disponibles n table) in
  let table' := map (asignarRow purchaseId customerId ahora nums) table in
  asignarNumerosDisponibles purchaseId customerId n ahora table
  = (table',
     Returns (List.filter (fun t => includes nums (number t)) table')).
Proof.
  intros H0 Hn nums table'. unfold asignarNumerosDisponibles.
  cbv zeta.
  rewrite (proj2 (Z.ltb_ge _ _)); [reflexivity|].
  rewrite select_disponibles_length by assumption. lia.
Qed.

Lemma asignar_failure
    (purchaseId customerId : string) (n ahora : Z) (table : list Ticket) :
  0 <= n ->
  Z.of_nat (length (List.filter (eq_status disponible) table)) < n ->
  asignarNumerosDisponibles purchaseId customerId n ahora table
  = (table,
     Throws (Error_
       ("Solo hay "
        ++ String_of (Z.of_nat (length (List.filter (eq_status disponible)
                                                    table)))
        ++ " tickets disponibles, necesitas " ++ String_of n))).
Proof.
  intros H0 Hn. unfold asignarNumerosDisponibles.
  cbv zeta.
  assert (Z.of_nat (length (select_disponibles n table))
          = Z.of_nat (length (List.filter (eq_status disponible) table)))
    as E.
  { rewrite select_disponibles_length by assumption. lia. }
  rewrite E. now rewrite (proj2 (Z.ltb_lt _ _)) by assumption.
Qed.

Lemma asignarRow_number p c a nums t :
  number (asignarRow p c a nums t) = number t.
Proof. unfold asignarRow. now destruct (includes _ _). Qed.

(** The update hits exactly [n] rows, all of them available before. *)
Lemma hit_count (n : Z) (table : list Ticket) :
  NoDup (map number table) -> 0 <= n ->
  n <= Z.of_nat (length (List.filter (eq_status disponible) table)) ->
  Z.of_nat (length (List.filter
     (fun t => includes (map number (select_disponibles n table)) (number t)) table)) = n.
Proof.
  intros Hnd H0 Hn. rewrite (hit_rows n table Hnd), select_disponibles_length by assumption.
  lia.
Qed.

(** Counting the rows of a purchase after a row-wise update. *)
Lemma count_purchase_after
    (purchaseId : string) (hit : Ticket -> bool) (upd : Ticket -> Ticket)
    (table : list Ticket) :
  (forall t, hit t = true -> eq_purchase_id purchaseId (upd t) = true) ->
  (forall t, hit t = false -> upd t = t) ->
  (forall t, t ∈ table -> hit t = true ->
     eq_purchase_id purchaseId t = false) ->
  length (List.filter (eq_purchase_id purchaseId) (map upd table))
  = (length (List.filter (eq_purchase_id purchaseId) table)
     + length (List.filter hit table))%nat.
Proof.
  intros Hhit Hmiss Hnew.
  induction table as [|t table IH]; [reflexivity|].
  cbn [map List.filter]. destruct (hit t) eqn:E.
  - rewrite (Hhit t E), (Hnew t (list_elem_of_here _ _) E). cbn [length].
    rewrite IH; [lia|]. intros x Hx. apply Hnew. now apply list_elem_of_further.
  - rewrite (Hmiss t E). destruct (eq_purchase_id purchaseId t); cbn [length];
      (rewrite IH; [lia|]); intros x Hx; apply Hnew;
      now apply list_elem_of_further.
Qed.

(** Looking a purchase up after a row-wise update that keeps the ids. *)
Lemma single_purchase_map
    (purchaseId : string) (f : Purchase -> Purchase) (rows : list Purchase) :
  (forall p, p_id (f p) = p_id p) ->
  single_purchase purchaseId (map f rows)
  = f <$> single_purchase purchaseId rows.
Proof.
  intros Hid. unfold single_purchase.
  assert (List.filter (fun p => String.eqb (p_id p) purchaseId) (map f rows)
          = map f (List.filter (fun p => String.eqb (p_id p) purchaseId) rows))
    as ->.
  { induction rows as [|p rows IH]; [reflexivity|]. cbn [map List.filter].
    rewrite Hid. destruct (String.eqb (p_id p) purchaseId); cbn [map];
      now rewrite IH. }
  destruct (List.filter _ rows) as [|p [|q l]]; reflexivity.
Qed.

Lemma single_purchase_id (purchaseId : string) (rows : list Purchase) p :
  single_purchase purchaseId rows = Some p -> p_id p = purchaseId.
Proof.
  unfold single_purchase. intros H.
  destruct (List.filter _ rows) as [|q [|q' l]] eqn:E; try discriminate.
  injection H as ->.
  assert (p ∈ List.filter (fun p => String.eqb (p_id p) purchaseId) rows)
    as Hin by (rewrite E; apply list_elem_of_here).
  apply elem_of_List_filter in Hin as [_ Hin]. now apply String.eqb_eq.
Qed.

Lemma updatePurchase_id pid e n v a p :
  p_id (updatePurchase pid e n v a p) = p_id p.
Proof. unfold updatePurchase. now destruct (String.eqb _ _). Qed.

Lemma revertPurchase_id pid p : p_id (revertPurchase pid p) = p_id p.
Proof. unfold revertPurchase. now destruct (String.eqb _ _). Qed.

(** The rows the select leaves out carry larger numbers. *)
Lemma select_disponibles_lowest (n : Z) (table : list Ticket) (c t : Ticket) :
  NoDup (map number table) ->
  c ∈ select_disponibles n table ->
  t ∈ table -> status t = disponible -> t ∉ select_disponibles n table ->
  number c < number t.
Proof.
  intros Hnd Hc Ht Hst Hnot.
  pose proof (order_by_number_sorted
                (List.filter (eq_status disponible) table)) as Hsorted.
  set (l := order_by_number (List.filter (eq_status disponible) table)) in *.
  assert (t ∈ l) as Hl.
  { subst l. rewrite order_by_number_Permutation.
    apply elem_of_List_filter. split; [exact Ht|].
    now apply DbStatus_eqb_eq. }
  unfold select_disponibles in Hc, Hnot. fold l in Hc, Hnot.
  rewrite <- (take_drop (Z.to_nat n) l) in Hl, Hsorted.
  apply elem_of_app in Hl as [Hl|Hl]; [contradiction|].
  pose proof (StronglySorted_app_1_elem_of _ _ _ c t Hsorted Hc Hl) as Hle.
  unfold number_le in Hle.
  destruct (Z.eq_dec (number c) (number t)) as [E|E]; [|lia].
  exfalso. apply Hnot.
  assert (c ∈ table) as Hc'.
  { apply elem_of_take in Hc as (i & Hc & _).
    apply list_elem_of_lookup_2 in Hc. subst l.
    rewrite order_by_number_Permutation in Hc.
    now apply elem_of_List_filter in Hc as [Hc _]. }
  now rewrite <- (number_inj table c t Hnd Hc' Ht E).
Qed.

(** The rows returned by the update are the updated hit rows. *)
Lemma filter_hit_map p c a nums (sel : list Z) (table : list Ticket) :
  List.filter (fun t => includes sel (number t))
              (map (asignarRow p c a nums) table)
  = map (asignarRow p c a nums)
        (List.filter (fun t => includes sel (number t)) table).
Proof.
  induction table as [|t table IH]; [reflexivity|]. cbn [map List.filter].
  rewrite asignarRow_number.
  destruct (includes sel (number t)); cbn [map]; now rewrite IH.
Qed.

Lemma updatePurchase_hit pid e n v a p :
  p_id p = pid ->
  updatePurchase pid e n v a p
  = {| p_id := p_id p; p_customer_id := p_customer_id p;
       p_status := e;
       p_verified_at :=
         match a with Some x => Some x | None => p_verified_at p end;
       p_verified_by :=
         match v with Some x => Some x | None => p_verified_by p end;
       p_notes := match n with Some x => Some x | None => p_notes p end |}.
Proof.
  intros <-. unfold updatePurchase. now rewrite String.eqb_refl.
Qed.

(** [actualizarEstadoCompra] with [confirmada], for a purchase that is
    found. *)
Lemma actualizar_confirmada
    pid notas ver ahora n ahora' (db : Database) (p : Purchase) :
  single_purchase pid (purchases db) = Some p ->
  let upd := updatePurchase pid confirmada notas ver (Some ahora) in
  actualizarEstadoCompra pid confirmada notas ver ahora n ahora' db
  = match asignarNumerosDisponibles pid (p_customer_id p) n ahora'
            (tickets db) with
    | (tickets', Returns _) =>
        ({| purchases := map upd (purchases db); tickets := tickets' |},
         Returns (upd p, List.filter (eq_purchase_id pid) tickets'))
    | (tickets', Throws ticketError) =>
        ({| purchases := map (revertPurchase pid) (map upd (purchases db));
            tickets := tickets' |},
         Throws (Error_ ("No se pudo confirmar: "
                         ++ match ticketError with
                            | Error_ message => message
                            | PostgrestError => "Error al asignar tickets"
                            end)))
    end.
Proof.
  intros Hp upd. unfold actualizarEstadoCompra. rewrite Hp.
  cbn [PurchaseStatus_eqb]. fold upd.
  rewrite (single_purchase_map pid upd)
    by (intros q; apply updatePurchase_id).
  rewrite Hp. cbn [fmap option_fmap option_map].
  assert (p_customer_id (upd p) = p_customer_id p) as ->.
  { unfold upd, updatePurchase. now destruct (String.eqb _ _). }
  destruct (asignarNumerosDisponibles pid (p_customer_id p) n ahora'
              (tickets db)) as [tickets' [r|e]]; [|reflexivity].
  cbn [purchases tickets].
  rewrite (single_purchase_map pid upd)
    by (intros q; apply updatePurchase_id).
  rewrite Hp. reflexivity.
Qed.

Lemma liberarRow_clears (pid : string) (table : list Ticket) :
  List.filter (eq_purchase_id pid) (map (liberarRow pid) table) = [].
Proof.
  apply List_filter_none, Forall_forall. intros t' Ht'.
  apply list_elem_of_fmap in Ht' as (t & -> & _). unfold liberarRow.
  destruct (eq_purchase_id pid t) eqn:E; [reflexivity | exact E].
Qed.

(** [actualizarEstadoCompra] with [cancelada], for a purchase that is
    found. *)
Lemma actualizar_cancelada
    pid notas ver ahora n ahora' (db : Database) (p : Purchase) :
  single_purchase pid (purchases db) = Some p ->
  let upd := updatePurchase pid cancelada notas ver None in
  actualizarEstadoCompra pid cancelada notas ver ahora n ahora' db
  = ({| purchases := map upd (purchases db);
        tickets := map (liberarRow pid) (tickets db) |},
     Returns (upd p, [])).
Proof.
  intros Hp upd. unfold actualizarEstadoCompra. rewrite Hp.
  cbn [PurchaseStatus_eqb]. fold upd.
  rewrite (single_purchase_map pid upd)
    by (intros q; apply updatePurchase_id).
  rewrite Hp. cbn [fmap option_fmap option_map purchases tickets].
  rewrite (single_purchase_map pid upd)
    by (intros q; apply updatePurchase_id).
  rewrite Hp. cbn [fmap option_fmap option_map].
  now rewrite liberarRow_clears.
Qed.

Lemma asignarRow_hit p c a nums (t : Ticket) :
  includes nums (number t) = true ->
  asignarRow p c a nums t
  = {| id := id t; number := number t; status := vendido;
       customer_id := Some c; purchase_id := Some p;
       reserved_at := reserved_at t; sold_at := Some a;
       created_at := created_at t |}.
Proof. intros E. unfold asignarRow. now rewrite E. Qed.

Lemma asignarRow_miss p c a nums (t : Ticket) :
  includes nums (number t) = false -> asignarRow p c a nums t = t.
Proof. intros E. unfold asignarRow. now rewrite E. Qed.

(** After a successful assignment on a table without tickets of the
    purchase, the purchase has exactly the assigned tickets, and that
    many available rows are gone. *)
Lemma asignar_counts
    (pid cid : string) (n ahora : Z) (table : list Ticket) :
  NoDup (map number table) -> 0 <= n ->
  n <= Z.of_nat (length (List.filter (eq_status disponible) table)) ->
  (forall t, t ∈ table -> status t = disponible ->
     eq_purchase_id pid t = false) ->
  let table' :=
    map (asignarRow pid cid ahora (map number (select_disponibles n table)))
        table in
  Z.of_nat (length (List.filter (eq_purchase_id pid) table'))
  = Z.of_nat (length (List.filter (eq_purchase_id pid) table)) + n
  /\ Z.of_nat (length (List.filter (eq_status disponible) table'))
     = Z.of_nat (length (List.filter (eq_status disponible) table)) - n
  /\ NoDup (map number table')
  /\ (forall t', t' ∈ table' -> status t' = disponible ->
        eq_purchase_id pid t' = false).
Proof.
  intros Hnd H0 Hn Hnew table'.
  set (nums := map number (select_disponibles n table)) in *.
  set (hit := fun t : Ticket => includes nums (number t)).
  pose proof (hit_count n table Hnd H0 Hn) as Hcount. fold nums hit in Hcount.
  split; [|split; [|split]].
  - subst table'.
    rewrite (count_purchase_after pid hit).
    + lia.
    + intros t E. rewrite (asignarRow_hit _ _ _ _ _ E).
      unfold eq_purchase_id. cbn. apply String.eqb_refl.
    + intros t E. now apply asignarRow_miss.
    + intros t Ht E. apply Hnew; [exact Ht|].
      now apply (hit_disponible n table t Hnd Ht).
  - subst table'.
    pose proof (count_after_update status hit
                  (asignarRow pid cid ahora nums) vendido table) as Hc.
    unfold eq_status. rewrite Hc.
    + cbn [DbStatus_eqb].
      enough (List.filter
                (fun t => hit t && DbStatus_eqb (status t) disponible) table
              = List.filter hit table) as -> by lia.
      apply filter_ext_in. intros t Ht. apply list_elem_of_In in Ht.
      destruct (hit t) eqn:E; [|reflexivity].
      now rewrite (hit_disponible n table t Hnd Ht E).
    + intros t E. now rewrite (asignarRow_hit _ _ _ _ _ E).
    + intros t E. now apply asignarRow_miss.
  - subst table'. rewrite map_map.
    erewrite map_ext; [exact Hnd|]. intros t. apply asignarRow_number.
  - intros t' Ht' Hst. subst table'.
    apply list_elem_of_fmap in Ht' as (t & -> & Ht).
    destruct (hit t) eqn:E.
    + rewrite (asignarRow_hit _ _ _ _ _ E) in Hst. discriminate.
    + rewrite (asignarRow_miss _ _ _ _ _ E) in *. now apply Hnew.
Qed.

(** The counts of [fetchRealData] after a successful assignment. *)
Lemma asignarNumerosDisponibles_counts
    (pid cid : string) (n ahora : Z) (table : list Ticket) :
  NoDup (map number table) -> 0 <= n ->
  n <= Z.of_nat (length (List.filter (eq_status disponible) table)) ->
  let counts := fetchRealData (Some (map status table)) in
  fetchRealData
    (Some (map status
             (map (asignarRow pid cid ahora
                     (map number (select_disponibles n table))) table)))
  = (fst counts + n, snd counts).
Proof.
  intros Hnd H0 Hn counts. subst counts.
  set (nums := map number (select_disponibles n table)).
  set (hit := fun t : Ticket => includes nums (number t)).
  pose proof (hit_count n table Hnd H0 Hn) as Hcount. fold nums hit in Hcount.
  rewrite !table_counts. cbn [fst snd].
  rewrite !(count_after_update status hit
              (asignarRow pid cid ahora nums) vendido table).
  - cbn [DbStatus_eqb]. rewrite Hcount.
    assert (forall st, st <> disponible ->
              List.filter (fun t => hit t && DbStatus_eqb (status t) st) table
              = []) as Hnone.
    { intros st Hst. apply List_filter_none, Forall_forall. intros t Ht.
      destruct (hit t) eqn:E; [|reflexivity].
      rewrite (hit_disponible n table t Hnd Ht E).
      now destruct st. }
    rewrite !Hnone by discriminate. cbn [length]. f_equal; lia.
  - intros t E. now rewrite (asignarRow_hit _ _ _ _ _ E).
  - intros t E. now apply asignarRow_miss.
  - intros t E. now rewrite (asignarRow_hit _ _ _ _ _ E).
  - intros t E. now apply asignarRow_miss.
Qed.

End PurchaseFacts.

Section PurchaseProps.
Import JS JSFacts MasterCounters Supabase SelectionFacts TableFacts.
Import PurchaseFacts PurchaseScenario.

(** X23 -- [asignarNumerosDisponibles] assigns all the tickets or none.
    On a table whose rows carry distinct numbers, and for a count that is
    not negative: with fewer available rows than asked for it throws,
    naming both numbers, and the table is as it was.  Otherwise it returns
    exactly that many rows, each of them sold to the customer for the
    purchase and available before; they are the available rows with the
    lowest numbers; every other row is untouched, the sold count of
    [fetchRealData] has grown by the count and the reserved count is
    unchanged. *)
Theorem asignarNumerosDisponibles_all_or_nothing
    (purchaseId customerId : string) (n ahora : Z) (table : list Ticket) :
  NoDup (map number table) -> 0 <= n ->
  let disponibles := List.filter (eq_status disponible) table in
  let run := asignarNumerosDisponibles purchaseId customerId n ahora table in
  let counts := fetchRealData (Some (map status table)) in
  (Z.of_nat (length disponibles) < n ->
   run = (table,
          Throws (Error_ ("Solo hay "
                          ++ String_of (Z.of_nat (length disponibles))
                          ++ " tickets disponibles, necesitas "
                          ++ String_of n))))
  /\ (n <= Z.of_nat (length disponibles) ->
      exists asignados,
        snd run = Returns asignados
        /\ Z.of_nat (length asignados) = n
        /\ (forall t', t' ∈ asignados ->
              t' ∈ fst run /\ status t' = vendido
              /\ customer_id t' = Some customerId
              /\ purchase_id t' = Some purchaseId
              /\ sold_at t' = Some ahora
              /\ exists t, t ∈ disponibles /\ number t = number t')
        /\ (forall t' t, t' ∈ asignados -> t ∈ disponibles ->
              number t ∉ map number asignados -> number t' < number t)
        /\ (forall t, t ∈ table -> number t ∉ map number asignados ->
              t ∈ fst run)
        /\ map number (fst run) = map number table
        /\ fetchRealData (Some (map status (fst run)))
           = (fst counts + n, snd counts)).
Proof.
  intros Hnd H0 disponibles run counts. split.
  { intros Hlt. now apply asignar_failure. }
  intros Hle. subst run.
  rewrite (asignar_success purchaseId customerId n ahora table H0 Hle).
  cbn [fst snd]. rewrite filter_hit_map.
  set (nums := map number (select_disponibles n table)).
  set (upd := asignarRow purchaseId customerId ahora nums).
  set (hit := fun t : Ticket => includes nums (number t)).
  assert (forall t, hit t = true -> status (upd t) = vendido) as Hhit.
  { intros t E. unfold upd, asignarRow. unfold hit in E. now rewrite E. }
  assert (forall t, hit t = false -> upd t = t) as Hmiss.
  { intros t E. unfold upd, asignarRow. unfold hit in E. now rewrite E. }
  assert (Z.of_nat (length (List.filter hit table)) = n) as Hcount.
  { now apply hit_count. }
  assert (map number (map upd (List.filter hit table))
          = map number (List.filter hit table)) as Hnums.
  { rewrite map_map. apply map_ext. intros t. apply asignarRow_number. }
  assert (forall x, x ∈ map number (List.filter hit table) <-> x ∈ nums)
    as Hsame.
  { intros x. unfold hit, nums. now rewrite (hit_rows n table Hnd). }
  exists (map upd (List.filter hit table)).
  split; [reflexivity|]. split; [now rewrite length_map|].
  split; [|split; [|split; [|split]]].
  - intros t' Ht'. apply list_elem_of_fmap in Ht' as (t & -> & Ht).
    apply elem_of_List_filter in Ht as [Ht E].
    split; [now apply list_elem_of_fmap_2|].
    split; [now apply Hhit|].
    assert (upd t
            = {| id := id t; number := number t; status := vendido;
                 customer_id := Some customerId;
                 purchase_id := Some purchaseId;
                 reserved_at := reserved_at t; sold_at := Some ahora;
                 created_at := created_at t |}) as ->.
    { unfold upd, asignarRow. unfold hit in E. now rewrite E. }
    cbn. repeat split. exists t. split; [|reflexivity].
    apply elem_of_List_filter. split; [exact Ht|].
    apply DbStatus_eqb_eq. now apply (hit_disponible n table t Hnd Ht).
  - intros t' t Ht' Ht Hnot. rewrite Hnums in Hnot.
    apply list_elem_of_fmap in Ht' as (c & -> & Hc).
    apply elem_of_List_filter in Hc as [Hc E].
    unfold upd. rewrite asignarRow_number.
    apply elem_of_List_filter in Ht as [Ht Hst].
    apply DbStatus_eqb_eq in Hst.
    apply (select_disponibles_lowest n table c t Hnd); try assumption.
    + now apply (hit_iff n table c Hnd Hc).
    + intros Hin. apply Hnot, Hsame. now apply list_elem_of_fmap_2.
  - intros t Ht Hnot. rewrite Hnums in Hnot.
    apply list_elem_of_fmap. exists t. split; [|exact Ht].
    symmetry. apply Hmiss. unfold hit. apply includes_false.
    intros Hin. now apply Hnot, Hsame.
  - rewrite map_map. apply map_ext. intros t. apply asignarRow_number.
  - now apply asignarNumerosDisponibles_counts.
Qed.

(** Of the four tickets, 2 and 4 are available: asking for two gives 3
    sold and 1 reserved, asking for three is refused. *)
Lemma asignarNumerosDisponibles_all_or_nothing_witness :
  fetchRealData
    (Some (map status
             (fst (asignarNumerosDisponibles "p1" "c1" 2 5 small_table))))
  = (3, 1)
  /\ asignarNumerosDisponibles "p1" "c1" 3 5 small_table
     = (small_table,
        Throws (Error_ "Solo hay 2 tickets disponibles, necesitas 3")).
Proof.
  assert (NoDup (map number small_table)) as Hnd.
  { apply NoDup_ListNoDup. repeat constructor; cbn; lia. }
  destruct (asignarNumerosDisponibles_all_or_nothing
              "p1" "c1" 2 5 small_table Hnd ltac:(lia)) as [_ Hok].
  destruct (asignarNumerosDisponibles_all_or_nothing
              "p1" "c1" 3 5 small_table Hnd ltac:(lia)) as [Hfail _].
  split.
  - destruct Hok as (asignados & _ & _ & _ & _ & _ & _ & Hc); [cbn; lia|].
    rewrite Hc. reflexivity.
  - rewrite Hfail; [reflexivity | cbn; lia].
Defined.

(** X24 -- a confirmation that finds too few tickets.  When
    [actualizarEstadoCompra] is asked to confirm a purchase and fewer
    tickets are available than the purchase needs, it throws the message
    of [asignarNumerosDisponibles] behind "No se pudo confirmar: " and no
    ticket is touched.  The purchase is left pending, whatever its status
    was before, and it keeps the verification instant and the notes and
    verifier of the refused confirmation; no other purchase is
    changed. *)
Theorem confirm_without_tickets
    (purchaseId : string) (notas verificadoPor : option string)
    (ahora n ahora' : Z) (db : Database) (p : Purchase) :
  single_purchase purchaseId (purchases db) = Some p ->
  0 <= n ->
  Z.of_nat (length (List.filter (eq_status disponible) (tickets db))) < n ->
  let run := actualizarEstadoCompra purchaseId confirmada notas verificadoPor
               ahora n ahora' db in
  snd run
  = Throws (Error_
      ("No se pudo confirmar: Solo hay "
       ++ String_of (Z.of_nat (length (List.filter (eq_status disponible)
                                                   (tickets db))))
       ++ " tickets disponibles, necesitas " ++ String_of n))
  /\ tickets (fst run) = tickets db
  /\ single_purchase purchaseId (purchases (fst run))
     = Some {| p_id := p_id p; p_customer_id := p_customer_id p;
               p_status := pendiente;
               p_verified_at := Some ahora;
               p_verified_by :=
                 match verificadoPor with
                 | Some v => Some v
                 | None => p_verified_by p
                 end;
               p_notes :=
                 match notas with Some x => Some x | None => p_notes p end |}
  /\ (forall q, q ∈ purchases db -> p_id q <> purchaseId ->
        q ∈ purchases (fst run)).
Proof.
  intros Hp H0 Hlt run. subst run.
  rewrite (actualizar_confirmada _ _ _ _ _ _ _ _ Hp).
  rewrite (asignar_failure _ _ _ _ _ H0 Hlt). cbn [fst snd purchases tickets].
  split; [reflexivity|]. split; [reflexivity|]. split.
  - rewrite (single_purchase_map purchaseId (revertPurchase purchaseId))
      by apply revertPurchase_id.
    rewrite (single_purchase_map purchaseId)
      by (intros q; apply updatePurchase_id).
    rewrite Hp. cbn [fmap option_fmap option_map].
    pose proof (single_purchase_id _ _ _ Hp) as Hid.
    rewrite (updatePurchase_hit _ _ _ _ _ _ Hid).
    unfold revertPurchase. cbn [p_id]. rewrite Hid, String.eqb_refl.
    reflexivity.
  - intros q Hq Hne. apply list_elem_of_fmap.
    exists (updatePurchase purchaseId confirmada notas verificadoPor
              (Some ahora) q).
    split; [|now apply list_elem_of_fmap_2].
    assert (String.eqb (p_id q) purchaseId = false) as E
      by now apply String.eqb_neq.
    unfold revertPurchase, updatePurchase. rewrite E. now rewrite E.
Qed.

(** The cancelled purchase p1 needs five tickets and two are available:
    the confirmation is refused and the purchase ends up pending, with a
    verification instant. *)
Lemma confirm_without_tickets_witness :
  let run := actualizarEstadoCompra "p1" confirmada None (Some "admin")
               1000 5 1001 small_db in
  snd run
  = Throws (Error_ ("No se pudo confirmar: "
                    ++ "Solo hay 2 tickets disponibles, necesitas 5"))
  /\ tickets (fst run) = small_table
  /\ (p_status <$> single_purchase "p1" (purchases (fst run)))
     = Some pendiente
  /\ (p_verified_at <$> single_purchase "p1" (purchases (fst run)))
     = Some (Some 1000).
Proof.
  destruct (confirm_without_tickets "p1" None (Some "admin") 1000 5 1001
              small_db _ eq_refl ltac:(lia) ltac:(cbn; lia))
    as (Hthrow & Htickets & Hp & _).
  intros run. split; [|split; [exact Htickets|split]].
  - subst run. rewrite Hthrow. reflexivity.
  - subst run. rewrite Hp. reflexivity.
  - subst run. rewrite Hp. reflexivity.
Defined.

(** X25 -- confirming and then cancelling a purchase.  On a table with
    distinct numbers and no ticket of the purchase, with enough tickets
    available, the confirmation returns the confirmed purchase with as
    many sold tickets as asked for; the cancellation that follows returns
    the cancelled purchase without tickets and gives every ticket the
    number and status it had before the confirmation.  If the available
    rows carried no customer, purchase or sale instant, the table is
    exactly what it was.  The cancelled purchase keeps the verification
    instant of the confirmation. *)
Theorem confirm_then_cancel
    (purchaseId : string) (notas verificadoPor notas2 verificadoPor2 :
       option string)
    (ahora n ahora' ahora2 n2 ahora2' : Z) (db : Database) (p : Purchase) :
  single_purchase purchaseId (purchases db) = Some p ->
  NoDup (map number (tickets db)) ->
  (forall t, t ∈ tickets db -> eq_purchase_id purchaseId t = false) ->
  0 <= n <= Z.of_nat (length (List.filter (eq_status disponible)
                                          (tickets db))) ->
  let run1 := actualizarEstadoCompra purchaseId confirmada notas
                verificadoPor ahora n ahora' db in
  let run2 := actualizarEstadoCompra purchaseId cancelada notas2
                verificadoPor2 ahora2 n2 ahora2' (fst run1) in
  (exists p1 ts1,
     snd run1 = Returns (p1, ts1)
     /\ p_status p1 = confirmada
     /\ Z.of_nat (length ts1) = n
     /\ Forall (fun t => status t = vendido) ts1)
  /\ (exists p2,
        snd run2 = Returns (p2, [])
        /\ p_status p2 = cancelada
        /\ p_verified_at p2 = Some ahora)
  /\ map number (tickets (fst run2)) = map number (tickets db)
  /\ map status (tickets (fst run2)) = map status (tickets db)
  /\ ((forall t, t ∈ tickets db -> status t = disponible ->
         customer_id t = None /\ purchase_id t = None /\ sold_at t = None) ->
      tickets (fst run2) = tickets db).
Proof.
  intros Hp Hnd Hnone [H0 Hn] run1 run2.
  pose proof (single_purchase_id _ _ _ Hp) as Hid.
  set (upd1 := updatePurchase purchaseId confirmada notas verificadoPor
                 (Some ahora)).
  set (nums := map number (select_disponibles n (tickets db))).
  set (asg := asignarRow purchaseId (p_customer_id p) ahora' nums).
  set (hit := fun t : Ticket => includes nums (number t)).
  assert (run1
          = ({| purchases := map upd1 (purchases db);
                tickets := map asg (tickets db) |},
             Returns (upd1 p,
                      List.filter (eq_purchase_id purchaseId)
                                  (map asg (tickets db))))) as Hrun1.
  { subst run1. rewrite (actualizar_confirmada _ _ _ _ _ _ _ _ Hp).
    now rewrite (asignar_success _ _ _ _ _ H0 Hn). }
  assert (single_purchase purchaseId (map upd1 (purchases db))
          = Some (upd1 p)) as Hp1.
  { rewrite (single_purchase_map purchaseId upd1)
      by (intros q; apply updatePurchase_id).
    now rewrite Hp. }
  assert (run2
          = ({| purchases :=
                  map (updatePurchase purchaseId cancelada notas2
                         verificadoPor2 None) (map upd1 (purchases db));
                tickets := map (liberarRow purchaseId)
                               (map asg (tickets db)) |},
             Returns (updatePurchase purchaseId cancelada notas2
                        verificadoPor2 None (upd1 p), []))) as Hrun2.
  { subst run2. rewrite Hrun1. cbn [fst].
    now rewrite (actualizar_cancelada purchaseId notas2 verificadoPor2
                   ahora2 n2 ahora2'
                   {| purchases := map upd1 (purchases db);
                      tickets := map asg (tickets db) |} (upd1 p) Hp1). }
  assert (forall t, t ∈ tickets db ->
            liberarRow purchaseId (asg t)
            = if hit t
              then {| id := id t; number := number t; status := disponible;
                      customer_id := None; purchase_id := None;
                      reserved_at := reserved_at t; sold_at := None;
                      created_at := created_at t |}
              else t) as Hround.
  { intros t Ht. destruct (hit t) eqn:E.
    - unfold asg. rewrite (asignarRow_hit _ _ _ _ _ E).
      unfold liberarRow, eq_purchase_id. cbn. now rewrite String.eqb_refl.
    - unfold asg. rewrite (asignarRow_miss _ _ _ _ _ E).
      unfold liberarRow. now rewrite (Hnone t Ht). }
  split; [|split; [|split; [|split]]].
  - exists (upd1 p), (List.filter (eq_purchase_id purchaseId)
                                  (map asg (tickets db))).
    rewrite Hrun1. cbn [snd]. split; [reflexivity|].
    split; [unfold upd1; now rewrite (updatePurchase_hit _ _ _ _ _ _ Hid)|].
    split.
    + destruct (asignar_counts purchaseId (p_customer_id p) n ahora'
                  (tickets db) Hnd H0 Hn) as (Hc & _).
      { intros t Ht _. now apply Hnone. }
      fold nums asg in Hc. rewrite Hc.
      rewrite (List_filter_none _ (tickets db)); [cbn [length]; lia|].
      apply Forall_forall. exact Hnone.
    + apply Forall_forall. intros t' Ht'.
      apply elem_of_List_filter in Ht' as [Ht' E].
      apply list_elem_of_fmap in Ht' as (t & -> & Ht).
      destruct (hit t) eqn:F.
      * unfold asg. now rewrite (asignarRow_hit _ _ _ _ _ F).
      * unfold asg in E. rewrite (asignarRow_miss _ _ _ _ _ F) in E.
        rewrite (Hnone t Ht) in E. discriminate.
  - eexists. rewrite Hrun2. cbn [snd]. split; [reflexivity|].
    assert (p_id (upd1 p) = purchaseId) as Hid1.
    { unfold upd1. now rewrite updatePurchase_id. }
    rewrite (updatePurchase_hit _ _ _ _ _ _ Hid1). cbn.
    split; [reflexivity|].
    unfold upd1. now rewrite (updatePurchase_hit _ _ _ _ _ _ Hid).
  - rewrite Hrun2. cbn [fst tickets]. rewrite !map_map.
    apply map_ext_in. intros t Ht. apply list_elem_of_In in Ht.
    rewrite (Hround t Ht). now destruct (hit t).
  - rewrite Hrun2. cbn [fst tickets]. rewrite !map_map.
    apply map_ext_in. intros t Ht. apply list_elem_of_In in Ht.
    rewrite (Hround t Ht). destruct (hit t) eqn:E; [|reflexivity].
    cbn. symmetry. now apply (hit_disponible n (tickets db) t Hnd Ht).
  - intros Hclean. rewrite Hrun2. cbn [fst tickets]. rewrite map_map.
    rewrite <- (map_id (tickets db)) at 2.
    apply map_ext_in. intros t Ht. apply list_elem_of_In in Ht.
    rewrite (Hround t Ht). destruct (hit t) eqn:E; [|reflexivity].
    pose proof (hit_disponible n (tickets db) t Hnd Ht E) as Hst.
    destruct (Hclean t Ht Hst) as (H1 & H2 & H3).
    destruct t; cbn in *. now subst.
Qed.

(** Confirming p1 for two tickets and cancelling it gives the four
    tickets back as they were. *)
Lemma confirm_then_cancel_witness :
  let run1 := actualizarEstadoCompra "p1" confirmada None (Some "admin")
                1000 2 1001 small_db in
  let run2 := actualizarEstadoCompra "p1" cancelada (Some "no pago") None
                2000 0 2001 (fst run1) in
  tickets (fst run2) = small_table
  /\ map status (tickets (fst run1))
     = [vendido; vendido; reservado; vendido].
Proof.
  assert (NoDup (map number (tickets small_db))) as Hnd.
  { apply NoDup_ListNoDup. repeat constructor; cbn; lia. }
  assert (forall t, t ∈ tickets small_db -> eq_purchase_id "p1" t = false)
    as Hnone.
  { apply Forall_forall. repeat constructor. }
  destruct (confirm_then_cancel "p1" None (Some "admin") (Some "no pago") None
              1000 2 1001 2000 0 2001 small_db _ eq_refl Hnd Hnone
              ltac:(cbn; lia)) as (_ & _ & _ & _ & Hsame).
  intros run1 run2. split; [|reflexivity].
  apply Hsame. intros t Ht _. revert t Ht. apply Forall_forall.
  repeat constructor.
Defined.

(** X26 -- confirming twice assigns twice.  [actualizarEstadoCompra] does
    not look at the status of the purchase: on a table with distinct
    numbers and no ticket of the purchase, with at least twice the needed
    tickets available, a second confirmation of the same purchase
    succeeds like the first and the purchase then has twice as many
    tickets; the sold count of [fetchRealData] has grown by twice the
    count. *)
Theorem confirm_twice
    (purchaseId : string) (notas verificadoPor notas2 verificadoPor2 :
       option string)
    (ahora n ahora' ahora2 ahora2' : Z) (db : Database) (p : Purchase) :
  single_purchase purchaseId (purchases db) = Some p ->
  NoDup (map number (tickets db)) ->
  (forall t, t ∈ tickets db -> eq_purchase_id purchaseId t = false) ->
  0 <= n ->
  2 * n <= Z.of_nat (length (List.filter (eq_status disponible)
                                         (tickets db))) ->
  let run1 := actualizarEstadoCompra purchaseId confirmada notas
                verificadoPor ahora n ahora' db in
  let run2 := actualizarEstadoCompra purchaseId confirmada notas2
                verificadoPor2 ahora2 n ahora2' (fst run1) in
  let counts := fetchRealData (Some (map status (tickets db))) in
  exists p2 ts2,
    snd run2 = Returns (p2, ts2)
    /\ p_status p2 = confirmada
    /\ Z.of_nat (length ts2) = 2 * n
    /\ fetchRealData (Some (map status (tickets (fst run2))))
       = (fst counts + 2 * n, snd counts).
Proof.
  intros Hp Hnd Hnone H0 Hn run1 run2 counts.
  assert (n <= Z.of_nat (length (List.filter (eq_status disponible)
                                             (tickets db)))) as Hn1 by lia.
  pose proof (single_purchase_id _ _ _ Hp) as Hid.
  set (upd1 := updatePurchase purchaseId confirmada notas verificadoPor
                 (Some ahora)).
  set (table1 := map (asignarRow purchaseId (p_customer_id p) ahora'
                        (map number (select_disponibles n (tickets db))))
                     (tickets db)).
  assert (run1
          = ({| purchases := map upd1 (purchases db); tickets := table1 |},
             Returns (upd1 p,
                      List.filter (eq_purchase_id purchaseId) table1)))
    as Hrun1.
  { subst run1. rewrite (actualizar_confirmada _ _ _ _ _ _ _ _ Hp).
    now rewrite (asignar_success _ _ _ _ _ H0 Hn1). }
  destruct (asignar_counts purchaseId (p_customer_id p) n ahora'
              (tickets db) Hnd H0 Hn1)
    as (Hc1 & Ha1 & Hnd1 & Hnew1).
  { intros t Ht _. now apply Hnone. }
  fold table1 in Hc1, Ha1, Hnd1, Hnew1.
  assert (n <= Z.of_nat (length (List.filter (eq_status disponible) table1)))
    as Hn2 by lia.
  assert (single_purchase purchaseId (map upd1 (purchases db))
          = Some (upd1 p)) as Hp1.
  { rewrite (single_purchase_map purchaseId upd1)
      by (intros q; apply updatePurchase_id).
    now rewrite Hp. }
  assert (p_customer_id (upd1 p) = p_customer_id p) as Hcust.
  { unfold upd1, updatePurchase. now destruct (String.eqb _ _). }
  set (upd2 := updatePurchase purchaseId confirmada notas2 verificadoPor2
                 (Some ahora2)).
  set (table2 := map (asignarRow purchaseId (p_customer_id p) ahora2'
                        (map number (select_disponibles n table1)))
                     table1).
  assert (run2
          = ({| purchases := map upd2 (map upd1 (purchases db));
                tickets := table2 |},
             Returns (upd2 (upd1 p),
                      List.filter (eq_purchase_id purchaseId) table2)))
    as Hrun2.
  { subst run2. rewrite Hrun1. cbn [fst].
    rewrite (actualizar_confirmada purchaseId notas2 verificadoPor2
               ahora2 n ahora2'
               {| purchases := map upd1 (purchases db); tickets := table1 |}
               (upd1 p) Hp1).
    cbn [tickets purchases]. rewrite Hcust.
    now rewrite (asignar_success _ _ _ _ _ H0 Hn2). }
  destruct (asignar_counts purchaseId (p_customer_id p) n ahora2'
              table1 Hnd1 H0 Hn2 Hnew1) as (Hc2 & _).
  fold table2 in Hc2.
  exists (upd2 (upd1 p)), (List.filter (eq_purchase_id purchaseId) table2).
  rewrite Hrun2. cbn [fst snd tickets]. split; [reflexivity|]. split; [|split].
  - unfold upd2. rewrite updatePurchase_hit; [reflexivity|].
    unfold upd1. now rewrite updatePurchase_id.
  - rewrite Hc2, Hc1.
    rewrite (List_filter_none _ (tickets db)); [cbn [length]; lia|].
    apply Forall_forall. exact Hnone.
  - pose proof (asignarNumerosDisponibles_counts purchaseId (p_customer_id p)
                  n ahora' (tickets db) Hnd H0 Hn1) as Hs1.
    pose proof (asignarNumerosDisponibles_counts purchaseId (p_customer_id p)
                  n ahora2' table1 Hnd1 H0 Hn2) as Hs2.
    cbv zeta in Hs1, Hs2.
    fold table1 in Hs1. fold table2 in Hs2.
    rewrite Hs2, Hs1. subst counts. cbn [fst snd]. f_equal. lia.
Qed.

(** Two tickets are available; confirming p1 twice for one ticket each
    leaves it with two tickets, and three of the four tickets sold. *)
Lemma confirm_twice_witness :
  let run1 := actualizarEstadoCompra "p1" confirmada None None
                1000 1 1001 small_db in
  let run2 := actualizarEstadoCompra "p1" confirmada None None
                2000 1 2001 (fst run1) in
  exists p2 ts2,
    snd run2 = Returns (p2, ts2)
    /\ Z.of_nat (length ts2) = 2
    /\ fetchRealData (Some (map status (tickets (fst run2)))) = (3, 1).
Proof.
  assert (NoDup (map number (tickets small_db))) as Hnd.
  { apply NoDup_ListNoDup. repeat constructor; cbn; lia. }
  assert (forall t, t ∈ tickets small_db -> eq_purchase_id "p1" t = false)
    as Hnone.
  { apply Forall_forall. repeat constructor. }
  destruct (confirm_twice "p1" None None None None 1000 1 1001 2000 2001
              small_db _ eq_refl Hnd Hnone ltac:(lia) ltac:(cbn; lia))
    as (p2 & ts2 & H1 & _ & H3 & H4).
  intros run1 run2. exists p2, ts2.
  split; [exact H1|]. split; [exact H3|].
  subst run2 run1. rewrite H4. reflexivity.
Defined.

End PurchaseProps.

(* ===================================================================== *)
(** ** The purchase modal                                                 *)
(* ===================================================================== *)

Module ModalFacts.
Import JS JSFacts PurchaseModal.

(** A check that passes on the whole range [0 .. n-1] passes on each of
    its numbers. *)
Lemma forallb_range (p : Z -> bool) (n : Z) :
  forallb p (Array_from n (fun i => i)) = true ->
  forall x, 0 <= x < n -> p x = true.
Proof.
  intros H x Hx. rewrite forallb_forall in H. apply H.
  apply list_elem_of_In. unfold Array_from. rewrite Array_from_at_seqZ.
  rewrite list_fmap_id. apply elem_of_seqZ. lia.
Qed.

(** The price on doubles, against the price in whole pesos, for every
    number of tickets up to 10000. *)
Lemma price_table :
  forallb
    (fun t =>
       calculatePrice true t
       =? 10 * t * (100 - getDiscount true t) / 100
          - (if (65 <=? t) && (t <=? 73) then 1 else 0))
    (Array_from 10001 (fun i => i)) = true.
Proof. vm_compute. reflexivity. Qed.

Lemma calculatePrice_closed (t : Z) :
  0 <= t <= 10000 ->
  calculatePrice true t
  = 10 * t * (100 - getDiscount true t) / 100
    - (if (65 <=? t) && (t <=? 73) then 1 else 0).
Proof.
  intros H. apply Z.eqb_eq.
  apply (forallb_range _ 10001 price_table t). lia.
Qed.

Lemma get_set_key (key value : string) (obj : list (string * string)) :
  get_key key (set_key key value obj) = Some value.
Proof.
  induction obj as [|[k v] obj IH]; cbn [set_key get_key].
  - now rewrite String.eqb_refl.
  - destruct (String.eqb k key) eqn:E; cbn [get_key]; now rewrite E.
Qed.

Lemma truthy_iff (s : string) : truthy s = true <-> s <> ""%string.
Proof.
  unfold truthy. rewrite negb_true_iff. apply String.eqb_neq.
Qed.

Lemma truthy_text_iff (s : Text) : truthy_text s = true <-> s <> [].
Proof. destruct s; cbn; split; congruence. Qed.

Lemma truthy_trim (s : Text) :
  truthy_text (trim s) = true -> truthy_text s = true.
Proof. destruct s; [discriminate | reflexivity]. Qed.

(** What [trim] leaves begins and ends with a code unit that is not
    blank, and nothing is left exactly when every code unit is blank. *)
Lemma trimEnd_nil (s : Text) : trimEnd s = [] <-> forallb is_blank s = true.
Proof.
  induction s as [|c s IH]; [easy|]. cbn [trimEnd forallb].
  rewrite andb_true_iff, <- IH. destruct (trimEnd s).
  - destruct (is_blank c); split; try easy; try discriminate.
  - split; [discriminate | now intros [_ ?]].
Qed.

Lemma trimStart_blank (s : Text) :
  forallb is_blank (trimStart s) = forallb is_blank s.
Proof.
  induction s as [|c s IH]; [reflexivity|]. cbn [trimStart forallb].
  destruct (is_blank c) eqn:E; [exact IH|]. cbn [forallb]. now rewrite E.
Qed.

Lemma trim_nil (s : Text) : trim s = [] <-> forallb is_blank s = true.
Proof. unfold trim. now rewrite trimEnd_nil, trimStart_blank. Qed.

(** What the countdown shows: five characters that read back as the
    number of seconds, for every time up to 99:59. *)
Lemma formatTime_table :
  forallb
    (fun s =>
       let shown := formatTime s in
       (Z.of_nat (String.length shown) =? 5)
       && match parseInt (substring 0 2 shown),
                parseInt (substring 3 2 shown) with
          | Some m, Some r => (m * 60 + r =? s) && (0 <=? r) && (r <? 60)
          | _, _ => false
          end
       && String.eqb (substring 2 1 shown) ":")
    (Array_from 6000 (fun i => i)) = true.
Proof. vm_compute. reflexivity. Qed.

(** The countdown after any number of firings. *)
Lemma fire_iter (k : nat) :
  Nat.iter k fire countdown_open
  = {| timeLeft := Z.max 0 (900 - Z.of_nat k);
       cleared := 900 <=? Z.of_nat k;
       closes := if 900 <=? Z.of_nat k then 1 else 0 |}.
Proof.
  induction k as [|k IH]; [reflexivity|].
  change (Nat.iter (S k) fire countdown_open)
    with (fire (Nat.iter k fire countdown_open)).
  rewrite IH. unfold fire. cbn [cleared timeLeft closes].
  destruct (Z.leb_spec 900 (Z.of_nat k)) as [L|L].
  - rewrite (proj2 (Z.leb_le 900 (Z.of_nat (S k)))) by lia.
    f_equal; lia.
  - destruct (Z.leb_spec (Z.max 0 (900 - Z.of_nat k)) 1) as [M|M].
    + rewrite (proj2 (Z.leb_le 900 (Z.of_nat (S k)))) by lia.
      f_equal; lia.
    + rewrite (proj2 (Z.leb_gt 900 (Z.of_nat (S k)))) by lia.
      f_equal; lia.
Qed.

End ModalFacts.

Section ModalProps.
Import JS JSFacts PurchaseModal ModalFacts.

(** X27 -- what a purchase costs.  For every number of tickets from 0 to
    10000: without the promotion the price is 10 a ticket; with it the
    price is the discounted amount in whole pesos, rounded down, for the
    percentage of [getDiscount], except that 65 to 73 tickets cost one
    peso less than that because the product is taken on doubles.  The
    promotional price is never negative and never above the full price,
    and it falls when one more ticket is bought exactly at 9, 24, 49 and
    99 tickets. *)
Theorem calculatePrice_table (t : Z) :
  0 <= t <= 10000 ->
  calculatePrice false t = 10 * t
  /\ calculatePrice true t
     = 10 * t * (100 - getDiscount true t) / 100
       - (if (65 <=? t) && (t <=? 73) then 1 else 0)
  /\ 0 <= calculatePrice true t <= calculatePrice false t
  /\ (t < 10000 ->
      (calculatePrice true (t + 1) < calculatePrice true t
       <-> t = 9 \/ t = 24 \/ t = 49 \/ t = 99)).
Proof.
  intros Ht.
  assert (calculatePrice false t = 10 * t) as Hfull.
  { unfold calculatePrice. cbn [negb]. lia. }
  pose proof (calculatePrice_closed t Ht) as Hp.
  split; [exact Hfull|]. split; [exact Hp|]. split.
  - rewrite Hfull, Hp. unfold getDiscount. cbn [negb].
    repeat match goal with
           | |- context [?a <=? ?b] => destruct (Z.leb_spec a b)
           end; cbn [andb]; Z.div_mod_to_equations; lia.
  - intros Hlt. rewrite Hp, (calculatePrice_closed (t + 1)) by lia.
    unfold getDiscount. cbn [negb].
    repeat match goal with
           | |- context [?a <=? ?b] => destruct (Z.leb_spec a b)
           end; cbn [andb]; Z.div_mod_to_equations; lia.
Qed.

(** 65 tickets with the promotion: 30 percent off 650 is 455, the modal
    charges 454; without the promotion 650. *)
Lemma calculatePrice_table_witness :
  calculatePrice false 65 = 650 /\ calculatePrice true 65 = 454.
Proof.
  destruct (calculatePrice_table 65 ltac:(lia)) as (H1 & H2 & _).
  split; [exact H1 | rewrite H2; reflexivity].
Defined.

(** X28 -- the ticket input and the ticket count agree.  If the custom
    field is empty or reads, by [parseInt], as the ticket count, a count
    from 2 to 10000, then the same holds after [handleCustomTickets] with
    any input, and a count from 2 to 10000 stays in that range.  The
    input is accepted, clearing the message under the key [tickets],
    exactly when it is empty or reads as a number from 2 to 10000;
    a refused input changes neither the field nor the count.
    [handleTicketSelect] empties the field. *)
Theorem ticket_input_consistent
    (value : string) (amount : Z) (s : ModalState) :
  customTickets s = ""%string
  \/ (parseInt (customTickets s) = Some (tickets s)
      /\ 2 <= tickets s <= 10000) ->
  let s' := handleCustomTickets value s in
  (customTickets s' = ""%string
   \/ (parseInt (customTickets s') = Some (tickets s')
       /\ 2 <= tickets s' <= 10000))
  /\ (2 <= tickets s <= 10000 -> 2 <= tickets s' <= 10000)
  /\ (get_key "tickets" (errors s') = Some ""%string
      <-> value = ""%string
          \/ exists n, parseInt value = Some n /\ 2 <= n <= 10000)
  /\ (get_key "tickets" (errors s') <> Some ""%string ->
      tickets s' = tickets s /\ customTickets s' = customTickets s)
  /\ customTickets (handleTicketSelect amount s) = ""%string.
Proof.
  intros Hinv s'. subst s'. unfold handleCustomTickets. cbv zeta.
  destruct (String.eqb value "") eqn:Ev.
  - apply String.eqb_eq in Ev. subst value. cbn [orb parseInt].
    cbn [tickets customTickets errors]. rewrite get_set_key.
    change (parseInt "") with (@None Z).
    split; [now left|]. split; [tauto|]. split; [|split].
    + split; [now left | reflexivity].
    + intros H. now contradiction H.
    + reflexivity.
  - apply String.eqb_neq in Ev. cbn [orb].
    destruct (parseInt value) as [n|] eqn:En.
    + destruct ((2 <=? n) && (n <=? 10000)) eqn:Er.
      * apply andb_true_iff in Er as [E1 E2].
        apply Z.leb_le in E1, E2.
        rewrite (proj2 (Z.eqb_neq n 0)) by lia.
        cbn [tickets customTickets errors]. rewrite get_set_key.
        split; [right; split; [exact En | lia]|].
        split; [lia|]. split; [|split].
        -- split; [|reflexivity]. intros _. right. exists n. split; [reflexivity | lia].
        -- intros H. now contradiction H.
        -- reflexivity.
      * cbn [tickets customTickets errors]. rewrite get_set_key.
        split; [exact Hinv|]. split; [tauto|]. split; [|split].
        -- split; [discriminate|]. intros [H|(m & Hm & Hr)]; [contradiction|].
           injection Hm as <-.
           apply andb_false_iff in Er as [Er|Er]; apply Z.leb_gt in Er; lia.
        -- intros _. split; reflexivity.
        -- reflexivity.
    + cbn [tickets customTickets errors]. rewrite get_set_key.
      split; [exact Hinv|]. split; [tauto|]. split; [|split].
      * split; [discriminate|]. intros [H|(m & Hm & _)]; [contradiction|].
        discriminate.
      * intros _. split; reflexivity.
      * reflexivity.
Qed.

(** With 25 tickets and an empty field, typing 40 sets the count to 40;
    typing 1 after that is refused and the count stays 40. *)
Lemma ticket_input_consistent_witness :
  let s0 := {| tickets := 25; customTickets := ""; selectedPayment := "";
               nombre := []; telefono := []; email := [];
               acceptedTerms := false; errors := [] |} in
  let s1 := handleCustomTickets "40" s0 in
  let s2 := handleCustomTickets "1" s1 in
  tickets s1 = 40 /\ tickets s2 = 40
  /\ (customTickets s2 = ""%string
      \/ (parseInt (customTickets s2) = Some (tickets s2)
          /\ 2 <= tickets s2 <= 10000)).
Proof.
  intros s0 s1 s2.
  assert (customTickets s1 = ""%string
          \/ (parseInt (customTickets s1) = Some (tickets s1)
              /\ 2 <= tickets s1 <= 10000)) as H1.
  { right. split; [reflexivity|]. change (tickets s1) with 40. lia. }
  destruct (ticket_input_consistent "1" 0 s1 H1) as (H2 & _).
  split; [reflexivity|]. split; [reflexivity | exact H2].
Defined.

(** X29 -- a form that passes the check shows full progress, not the
    other way round.  A text is blank when each of its code units is
    white space or a line terminator, the no-break space and the other
    space separators beyond ASCII included; [trim] leaves nothing of a
    text exactly when it is blank.  [validateForm] returns true exactly
    when there are at least 2 tickets, a payment method is selected, the
    name and one of telephone and e-mail are not blank, and the terms are
    accepted; it then leaves no message, and otherwise at least one.
    Whenever it returns true, the progress shown is 100.  The progress
    can be 100 on a form that does not pass: it counts a blank name that
    is not empty, here a no-break space followed by an em space, and it
    does not look at the terms. *)
Theorem validateForm_progress (s : ModalState) :
  let ok := snd (validateForm s) in
  let blank t := forallb is_blank t = true in
  (forall t, trim t = [] <-> blank t)
  /\ (ok = true <->
      2 <= tickets s /\ selectedPayment s <> ""%string
      /\ ~ blank (nombre s)
      /\ (~ blank (telefono s) \/ ~ blank (email s))
      /\ acceptedTerms s = true)
  /\ (ok = true -> errors (fst (validateForm s)) = [] /\ progress s = 100)
  /\ (ok = false -> errors (fst (validateForm s)) <> [])
  /\ (let s' := {| tickets := 2; customTickets := "";
                   selectedPayment := "oxxo";
                   nombre := [160; 8195];
                   telefono := [53; 53; 49; 50]; email := [];
                   acceptedTerms := true; errors := [] |} in
      progress s' = 100
      /\ validateForm s'
         = ({| tickets := 2; customTickets := ""; selectedPayment := "oxxo";
               nombre := [160; 8195];
               telefono := [53; 53; 49; 50]; email := [];
               acceptedTerms := true;
               errors := [("nombre", "Ingresa tu nombre")] |}, false)).
Proof.
  intros ok blank.
  assert (ok = true <->
          2 <= tickets s /\ selectedPayment s <> ""%string
          /\ trim (nombre s) <> []
          /\ (trim (telefono s) <> [] \/ trim (email s) <> [])
          /\ acceptedTerms s = true) as Hiff.
  { subst ok. unfold validateForm. cbv zeta. cbn [snd].
    rewrite <- truthy_iff, <- !truthy_text_iff.
    destruct (Z.ltb_spec (tickets s) 2) as [L|L];
      destruct (truthy (selectedPayment s)),
               (truthy_text (trim (nombre s))),
               (truthy_text (trim (telefono s))),
               (truthy_text (trim (email s))),
               (acceptedTerms s);
      cbn; split; try discriminate; try (intros; lia); try tauto;
      intros (? & ? & ? & [?|?] & ?); try discriminate; lia. }
  split; [exact trim_nil|]. split; [|split; [|split]].
  - unfold blank. rewrite <- !trim_nil. exact Hiff.
  - intros Hok. pose proof (proj1 Hiff Hok) as (H1 & H2 & H3 & H4 & H5).
    apply truthy_iff in H2. apply truthy_text_iff in H3. split.
    + unfold validateForm. cbv zeta. cbn [fst errors].
      rewrite (proj2 (Z.ltb_ge _ _) H1), H2, H3, H5.
      destruct H4 as [H4|H4]; apply truthy_text_iff in H4; rewrite H4;
        [|rewrite andb_false_r]; reflexivity.
    + unfold progress. cbv zeta.
      rewrite (proj2 (Z.leb_le _ _) H1), H2, (truthy_trim _ H3).
      destruct H4 as [H4|H4]; apply truthy_text_iff, truthy_trim in H4;
        rewrite H4; [|rewrite orb_true_r]; reflexivity.
  - subst ok. unfold validateForm. cbv zeta. cbn [fst snd errors].
    destruct (tickets s <? 2), (truthy (selectedPayment s)),
             (truthy_text (trim (nombre s))),
             (truthy_text (trim (telefono s))),
             (truthy_text (trim (email s))), (acceptedTerms s);
      cbn; intros H; discriminate.
  - split; reflexivity.
Qed.

(** X30 -- the countdown closes the modal once, after fifteen minutes.
    After any number of firings of the interval the time left is 900
    minus that number, or 0 from the 900th on; [onClose] has been called
    once from the 900th firing on and not before, and further firings
    change nothing.  The time is never negative, and what [formatTime]
    shows for it is five characters, minutes and seconds around a colon,
    that read back as the time left. *)
Theorem countdown_closes_once (k : nat) :
  let c := Nat.iter k fire countdown_open in
  let shown := formatTime (timeLeft c) in
  timeLeft c = Z.max 0 (900 - Z.of_nat k)
  /\ closes c = (if 900 <=? Z.of_nat k then 1 else 0)
  /\ (900 <= Z.of_nat k -> fire c = c)
  /\ String.length shown = 5%nat
  /\ substring 2 1 shown = ":"%string
  /\ exists m r,
       parseInt (substring 0 2 shown) = Some m
       /\ parseInt (substring 3 2 shown) = Some r
       /\ 0 <= r < 60 /\ m * 60 + r = timeLeft c.
Proof.
  intros c shown. subst shown c. rewrite fire_iter.
  cbn [timeLeft closes].
  split; [reflexivity|]. split; [reflexivity|]. split.
  - intros H. unfold fire. cbn [cleared].
    now rewrite (proj2 (Z.leb_le _ _) H).
  - set (t := Z.max 0 (900 - Z.of_nat k)).
    assert (0 <= t < 6000) as Ht by (subst t; lia).
    pose proof (forallb_range _ 6000 formatTime_table t Ht) as H.
    cbv zeta beta in H.
    apply andb_true_iff in H as [H Hcolon].
    apply andb_true_iff in H as [Hlen Hparse].
    apply Z.eqb_eq in Hlen. apply String.eqb_eq in Hcolon.
    split; [lia|]. split; [exact Hcolon|].
    destruct (parseInt (substring 0 2 (formatTime t))) as [m|];
      [|discriminate].
    destruct (parseInt (substring 3 2 (formatTime t))) as [r|];
      [|discriminate].
    apply andb_true_iff in Hparse as [Hparse H3].
    apply andb_true_iff in Hparse as [H1 H2].
    apply Z.eqb_eq in H1. apply Z.leb_le in H2. apply Z.ltb_lt in H3.
    exists m, r. split; [reflexivity|]. split; [reflexivity|].
    split; [lia | exact H1].
Qed.

End ModalProps.
